(** * PolyClaude arbitrage hunter: opportunity detection and risk scoring

    A shallow embedding of the decision logic of the plugin:
    - the risk scorer [calculateRiskScore] and the per-market scanner
      [scanMarket] of the agent service (PolyClaudeService);
    - the standalone server (near-miss and live-market lists,
      [scanMarketForArbitrage], [PolyClaudeServer.addAlert], [runScan]);
    - the serverless [analyzeMarket] and [handler] (api/scan.js);
    - the terminal server's [addAlert], [addAlerts] and routes, and the
      Telegram bot (alert gate, cooldowns, batches, [createTelegramBot]);
    - the scan action (SCAN_INTRA_MARKET_ARB) and the routes of the
      standalone server.

    JavaScript numbers are modelled by exact rationals extended with NaN
    ([num]); the rounding of binary64 and the two infinities are outside
    that model, so its operations stand for the operations of the code
    and its comparisons for the comparisons of the code, while a value
    it computes can differ from the value the code computes in the last
    digits.  Where a computed value itself is stated, the pricing step
    is taken again in binary64 ([Binary64]).  Integer-valued quantities
    (the risk score, counters, millisecond clock readings) are modelled
    in [Z].  What the host and
    the network answer (the built-in parsers, the market catalogue, the
    order books, the clock, the Telegram API) is an explicit argument of
    every function that depends on it.

    The definitions come first, module by module; the properties follow
    from the heading "Properties" on. *)

From Stdlib Require Import QArith Qabs ZArith Lia Lqa Ascii String PrimFloat.
From stdpp Require Import gmap strings list sorting.

Local Open Scope Z_scope.

Set Warnings "-inexact-float".

(** ** JavaScript numbers *)

Module JsNum.

Inductive num : Type :=
  | NaN
  | Num (q : Q).

Arguments Num q%_Q.

Definition Qlt_bool (x y : Q) : bool := negb (Qle_bool y x).

Definition nadd (a b : num) : num :=
  match a, b with Num x, Num y => Num (x + y) | _, _ => NaN end.

Definition nsub (a b : num) : num :=
  match a, b with Num x, Num y => Num (x - y) | _, _ => NaN end.

Definition nmul (a b : num) : num :=
  match a, b with Num x, Num y => Num (x * y) | _, _ => NaN end.

(** A quotient by zero is an infinity (or NaN) in JavaScript; the model
    has no infinities and yields NaN there.  In the scanner the divisor
    is a sum of best asks, which is zero only for prices outside the
    feed's positive price domain. *)
Definition ndiv (a b : num) : num :=
  match a, b with
  | Num x, Num y => if Qeq_bool y 0 then NaN else Num (x / y)
  | _, _ => NaN
  end.

(** Comparisons: every comparison with NaN is false. *)
Definition nlt (a b : num) : bool :=
  match a, b with Num x, Num y => Qlt_bool x y | _, _ => false end.

Definition nle (a b : num) : bool :=
  match a, b with Num x, Num y => Qle_bool x y | _, _ => false end.

Definition ngt (a b : num) : bool := nlt b a.
Definition nge (a b : num) : bool := nle b a.

(** [Math.abs], [Math.min], [Math.max]. *)
Definition nabs (a : num) : num :=
  match a with Num x => Num (Qabs x) | NaN => NaN end.

Definition nmin (a b : num) : num :=
  match a, b with
  | Num x, Num y => if Qle_bool x y then Num x else Num y
  | _, _ => NaN
  end.

Definition nmax (a b : num) : num :=
  match a, b with
  | Num x, Num y => if Qle_bool x y then Num y else Num x
  | _, _ => NaN
  end.

(** Truthiness of a number: [0] and [NaN] are falsy. *)
Definition truthy (a : num) : bool :=
  match a with NaN => false | Num x => negb (Qeq_bool x 0) end.

(** [a || b] on numbers. *)
Definition nor (a b : num) : num := if truthy a then a else b.

Definition of_Z (z : Z) : num := Num (inject_Z z).

(** Numeric equality of two model numbers (same rational value). *)
Definition num_eq (a b : num) : Prop :=
  match a, b with
  | NaN, NaN => True
  | Num x, Num y => (x == y)%Q
  | _, _ => False
  end.

End JsNum.

Import JsNum.

(** ** The risk scorer *)

Module Risk.

Inductive RiskLevel := LOW | MEDIUM | HIGH | EXTREME.

(** [getRiskLevel]. *)
Definition getRiskLevel (score : Z) : RiskLevel :=
  if score <=? 3 then LOW
  else if score <=? 5 then MEDIUM
  else if score <=? 7 then HIGH
  else EXTREME.

Record RiskResult := { score : Z; factors : list string }.

(** [calculateRiskScore]: the mutable [score] and [factors] of the source
    are threaded through the four checks in order. *)
Definition calculateRiskScore
    (profitPercent liquidity spread daysToExpiry : num) : RiskResult :=
  let factors : list string := [] in
  let score := 3 in
  let '(score, factors) :=
    if nlt liquidity (Num 500) then (score + 2, factors ++ ["low_liquidity"%string])
    else if nlt liquidity (Num 1000) then (score + 1, factors ++ ["moderate_liquidity"%string])
    else (score, factors) in
  let '(score, factors) :=
    if ngt spread (Num 0.05) then (score + 2, factors ++ ["wide_spread"%string])
    else if ngt spread (Num 0.02) then (score + 1, factors ++ ["moderate_spread"%string])
    else (score, factors) in
  let '(score, factors) :=
    if nlt daysToExpiry (Num 1) then (score + 2, factors ++ ["expiring_soon"%string])
    else if nlt daysToExpiry (Num 7) then (score + 1, factors ++ ["short_expiry"%string])
    else (score, factors) in
  let '(score, factors) :=
    if nlt profitPercent (Num 1) then (score + 1, factors ++ ["thin_margin"%string])
    else (score, factors) in
  {| score := Z.min score 10; factors := factors |}.

(** The scoring table as the specification words it: one penalty and at
    most one tag per check. *)
Definition liquidityPenalty (liquidity : num) : Z :=
  if nlt liquidity (Num 500) then 2 else if nlt liquidity (Num 1000) then 1 else 0.
Definition spreadPenalty (spread : num) : Z :=
  if ngt spread (Num 0.05) then 2 else if ngt spread (Num 0.02) then 1 else 0.
Definition expiryPenalty (daysToExpiry : num) : Z :=
  if nlt daysToExpiry (Num 1) then 2 else if nlt daysToExpiry (Num 7) then 1 else 0.
Definition marginPenalty (profitPercent : num) : Z :=
  if nlt profitPercent (Num 1) then 1 else 0.

Definition liquidityTags (liquidity : num) : list string :=
  if nlt liquidity (Num 500) then ["low_liquidity"%string]
  else if nlt liquidity (Num 1000) then ["moderate_liquidity"%string] else [].
Definition spreadTags (spread : num) : list string :=
  if ngt spread (Num 0.05) then ["wide_spread"%string]
  else if ngt spread (Num 0.02) then ["moderate_spread"%string] else [].
Definition expiryTags (daysToExpiry : num) : list string :=
  if nlt daysToExpiry (Num 1) then ["expiring_soon"%string]
  else if nlt daysToExpiry (Num 7) then ["short_expiry"%string] else [].
Definition marginTags (profitPercent : num) : list string :=
  if nlt profitPercent (Num 1) then ["thin_margin"%string] else [].

Definition penalties (profitPercent liquidity spread daysToExpiry : num) : Z :=
  liquidityPenalty liquidity + spreadPenalty spread
  + expiryPenalty daysToExpiry + marginPenalty profitPercent.

End Risk.

(** ** Built-in functions of the host

    [parseFloat] and [new Date(s).getTime()] are not code of the
    repository: the development is parametric in them. *)

Class Builtins := {
  parseFloat : string -> num;
  dateGetTime : string -> num
}.

(** ** The market feed *)

Module Feed.

(** One price level of an order book, as the CLOB API returns it. *)
Record Level := { price : option string; size : option string }.

Record OrderBook := {
  asks : option (list Level);
  bids : option (list Level)
}.

Record Token := { token_id : string }.

Record Market := {
  condition_id : string;
  question : string;
  market_slug : string;
  category : option string;
  end_date_iso : string;
  volume : option string;
  tokens : option (list Token);
  active : bool;
  closed : bool;
  enable_order_book : bool
}.

(** Truthiness of an optional string: [undefined] and the empty string
    are falsy. *)
Definition strTruthy (s : option string) : bool :=
  match s with
  | Some s => negb (String.eqb s "")
  | None => false
  end.

(** [s || d] on optional strings. *)
Definition strOr (s : option string) (d : string) : string :=
  match s with
  | Some v => if String.eqb v "" then d else v
  | None => d
  end.

(** [side?.[0]?.price]. *)
Definition headPrice (side : option (list Level)) : option string :=
  match side with
  | Some (l :: _) => price l
  | _ => None
  end.

Section WithBuiltins.
Context `{Builtins}.

(** [side?.[0]?.price ? parseFloat(side[0].price) : null]. *)
Definition bestPrice (side : option (list Level)) : option num :=
  match headPrice side with
  | Some p => if String.eqb p "" then None else Some (parseFloat p)
  | None => None
  end.

(** [side?.reduce((sum, a) => sum + parseFloat(a.size || '0'), 0) || 0]. *)
Definition sideLiquidity (side : option (list Level)) : num :=
  match side with
  | Some levels =>
      nor (fold_left (fun sum a => nadd sum (parseFloat (strOr (size a) "0")))
                     levels (Num 0))
          (Num 0)
  | None => Num 0
  end.

End WithBuiltins.

(** [!x] for a best price that is [null] or a number. *)
Definition falsy (x : option num) : bool :=
  match x with
  | Some n => negb (truthy n)
  | None => true
  end.

End Feed.

Import Feed.

(** ** Opportunities *)

Module Arb.

Inductive ArbDirection := BUY_BOTH | SELL_BOTH | NONE.

Inductive Status := Active | Executing | Executed | Expired | Missed.

Record TokenQuote := {
  tokenId : string;
  bestBid : num;
  bestAsk : num;
  midpoint : num
}.

Record IntraMarketArbData := {
  yesToken : TokenQuote;
  noToken : TokenQuote;
  combinedAsk : num;
  combinedBid : num;
  buyBothProfit : num;
  sellBothProfit : num;
  arbDirection : ArbDirection
}.

Record MarketInfo := {
  marketId : string;
  conditionId : string;
  opp_question : string;
  opp_category : string;
  endDate : string;
  opp_slug : option string
}.

Record Opportunity := {
  id : string;
  status : Status;
  market : MarketInfo;
  intraMarketData : IntraMarketArbData;
  grossProfitPercent : num;
  grossProfitAbsolute : num;
  estimatedFees : num;
  estimatedGas : num;
  netProfitPercent : num;
  netProfitAbsolute : num;
  breakeven : num;
  riskLevel : Risk.RiskLevel;
  riskScore : Z;
  riskFactors : list string;
  confidenceScore : num;
  recommendedSize : num;
  maxSize : num;
  opp_liquidity : option num;
  discoveredAt : Z;
  updatedAt : Z
}.

Record ScannerConfig := {
  minProfitPercent : num;
  maxRiskScore : num;
  scanIntervalMs : Z;
  minLiquidity : option num
}.

Definition dir_eqb (a b : ArbDirection) : bool :=
  match a, b with
  | BUY_BOTH, BUY_BOTH | SELL_BOTH, SELL_BOTH | NONE, NONE => true
  | _, _ => false
  end.

(** The pricing step shared by every scanner: combined prices, the two
    profits, the direction and the gross profit percent. *)
Record Pricing := {
  p_combinedAsk : num;
  p_combinedBid : num;
  p_buyBothProfit : num;
  p_sellBothProfit : num;
  p_arbDirection : ArbDirection;
  p_grossProfitPercent : num
}.

Definition pricing (yesBestAsk yesBestBid noBestAsk noBestBid : num) : Pricing :=
  let combinedAsk := nadd yesBestAsk noBestAsk in
  let combinedBid := nadd yesBestBid noBestBid in
  let buyBothProfit := nsub (Num 1) combinedAsk in
  let sellBothProfit := nsub combinedBid (Num 1) in
  let arbDirection := NONE in
  let grossProfitPercent := Num 0 in
  let '(arbDirection, grossProfitPercent) :=
    if ngt buyBothProfit (Num 0) then
      (BUY_BOTH, nmul (ndiv buyBothProfit combinedAsk) (Num 100))
    else if ngt sellBothProfit (Num 0) then
      (SELL_BOTH, nmul (ndiv sellBothProfit (Num 1)) (Num 100))
    else (arbDirection, grossProfitPercent) in
  {| p_combinedAsk := combinedAsk;
     p_combinedBid := combinedBid;
     p_buyBothProfit := buyBothProfit;
     p_sellBothProfit := sellBothProfit;
     p_arbDirection := arbDirection;
     p_grossProfitPercent := grossProfitPercent |}.

(** The four best prices of two books, or [None] when the guard
    [if (!yesBestAsk || !yesBestBid || !noBestAsk || !noBestBid) return null]
    fires. *)
Record BestPrices := {
  yesBestAsk : num;
  yesBestBid : num;
  noBestAsk : num;
  noBestBid : num
}.

Section WithBuiltins.
Context `{Builtins}.

Definition bestPrices (yesBook noBook : OrderBook) : option BestPrices :=
  let yesBestAsk := bestPrice (asks yesBook) in
  let yesBestBid := bestPrice (bids yesBook) in
  let noBestAsk := bestPrice (asks noBook) in
  let noBestBid := bestPrice (bids noBook) in
  if falsy yesBestAsk || falsy yesBestBid || falsy noBestAsk || falsy noBestBid
  then None
  else
    match yesBestAsk, yesBestBid, noBestAsk, noBestBid with
    | Some ya, Some yb, Some na, Some nb =>
        Some {| yesBestAsk := ya; yesBestBid := yb;
                noBestAsk := na; noBestBid := nb |}
    | _, _, _, _ => None
    end.

(** The liquidity gate [config.minLiquidity && minLiquidity < config.minLiquidity]. *)
Definition belowMinLiquidity (config : ScannerConfig) (minLiq : num) : bool :=
  match minLiquidity config with
  | Some m => truthy m && nlt minLiq m
  | None => false
  end.

Definition daysToExpiry (m : Market) (now : Z) : num :=
  ndiv (nsub (dateGetTime (end_date_iso m)) (of_Z now))
       (Num (1000 * 60 * 60 * 24)).

Definition avgSpread (bp : BestPrices) : num :=
  let yesSpread := nsub (yesBestAsk bp) (yesBestBid bp) in
  let noSpread := nsub (noBestAsk bp) (noBestBid bp) in
  ndiv (nadd yesSpread noSpread) (Num 2).

(** The tail of every scanner, from the profit threshold to the returned
    record.  [standalone] is set by the standalone server, whose record
    also carries the market slug and the liquidity.  [now] is the
    [Date.now()] of the expiry computation; [stamps] are the two later
    [new Date()] readings stored as [discoveredAt] and [updatedAt]. *)
Definition assess (standalone : bool) (config : ScannerConfig) (m : Market)
    (yesTok noTok : Token) (bp : BestPrices) (yesLiquidity noLiquidity : num)
    (now : Z) (uuid : string) (stamps : Z * Z) : option Opportunity :=
  let pr := pricing (yesBestAsk bp) (yesBestBid bp) (noBestAsk bp) (noBestBid bp) in
  if dir_eqb (p_arbDirection pr) NONE
     || nlt (p_grossProfitPercent pr) (minProfitPercent config)
  then None
  else
    let minLiq := nmin yesLiquidity noLiquidity in
    if belowMinLiquidity config minLiq then None
    else
      let risk := Risk.calculateRiskScore (p_grossProfitPercent pr) minLiq
                    (avgSpread bp) (daysToExpiry m now) in
      let riskScore := Risk.score risk in
      if ngt (of_Z riskScore) (maxRiskScore config) then None
      else
        let estimatedFees := Num 0.01 in
        let estimatedGas := Num 0.002 in
        let netProfitPercent :=
          nsub (nsub (p_grossProfitPercent pr) (nmul estimatedFees (Num 100)))
               (nmul estimatedGas (Num 100)) in
        let grossProfitAbsolute :=
          if dir_eqb (p_arbDirection pr) BUY_BOTH
          then p_buyBothProfit pr else p_sellBothProfit pr in
        let netProfitAbsolute :=
          nsub (nsub grossProfitAbsolute estimatedFees) estimatedGas in
        Some {|
          id := uuid;
          status := Active;
          market := {|
            marketId := condition_id m;
            conditionId := condition_id m;
            opp_question := question m;
            opp_category := strOr (category m) "unknown";
            endDate := end_date_iso m;
            opp_slug := if standalone then Some (market_slug m) else None |};
          intraMarketData := {|
            yesToken := {| tokenId := token_id yesTok;
                           bestBid := yesBestBid bp; bestAsk := yesBestAsk bp;
                           midpoint := ndiv (nadd (yesBestBid bp) (yesBestAsk bp)) (Num 2) |};
            noToken := {| tokenId := token_id noTok;
                          bestBid := noBestBid bp; bestAsk := noBestAsk bp;
                          midpoint := ndiv (nadd (noBestBid bp) (noBestAsk bp)) (Num 2) |};
            combinedAsk := p_combinedAsk pr;
            combinedBid := p_combinedBid pr;
            buyBothProfit := p_buyBothProfit pr;
            sellBothProfit := p_sellBothProfit pr;
            arbDirection := p_arbDirection pr |};
          grossProfitPercent := p_grossProfitPercent pr;
          grossProfitAbsolute := grossProfitAbsolute;
          estimatedFees := estimatedFees;
          estimatedGas := estimatedGas;
          netProfitPercent := netProfitPercent;
          netProfitAbsolute := netProfitAbsolute;
          breakeven := nadd estimatedFees estimatedGas;
          riskLevel := Risk.getRiskLevel riskScore;
          riskScore := riskScore;
          riskFactors := Risk.factors risk;
          confidenceScore :=
            if riskScore <=? 3 then Num 0.95
            else if riskScore <=? 5 then Num 0.8 else Num 0.6;
          recommendedSize := nmin (nmul minLiq (Num 0.1)) (Num 1000);
          maxSize := nmul minLiq (Num 0.5);
          opp_liquidity := if standalone then Some minLiq else None;
          discoveredAt := fst stamps;
          updatedAt := snd stamps
        |}.

End WithBuiltins.

End Arb.

Import Arb.

(** ** The pricing step in the arithmetic of the code *)

Module Binary64.

(** The pricing step of [scanMarket] on IEEE 754 binary64 numbers; a
    price is the number [parseFloat] returns for its decimal text. *)
Record Pricing := {
  p_combinedAsk : float;
  p_combinedBid : float;
  p_buyBothProfit : float;
  p_sellBothProfit : float;
  p_arbDirection : ArbDirection;
  p_grossProfitPercent : float
}.

Definition pricing (yesBestAsk yesBestBid noBestAsk noBestBid : float) : Pricing :=
  let combinedAsk := (yesBestAsk + noBestAsk)%float in
  let combinedBid := (yesBestBid + noBestBid)%float in
  let buyBothProfit := (1 - combinedAsk)%float in
  let sellBothProfit := (combinedBid - 1)%float in
  let arbDirection := NONE in
  let grossProfitPercent := 0%float in
  let '(arbDirection, grossProfitPercent) :=
    if (0 <? buyBothProfit)%float then
      (BUY_BOTH, (buyBothProfit / combinedAsk * 100)%float)
    else if (0 <? sellBothProfit)%float then
      (SELL_BOTH, (sellBothProfit / 1 * 100)%float)
    else (arbDirection, grossProfitPercent) in
  {| p_combinedAsk := combinedAsk;
     p_combinedBid := combinedBid;
     p_buyBothProfit := buyBothProfit;
     p_sellBothProfit := sellBothProfit;
     p_arbDirection := arbDirection;
     p_grossProfitPercent := grossProfitPercent |}.

(** [x] differs from [d] by less than [tolerance]. *)
Definition within (tolerance x d : float) : bool :=
  (abs (x - d) <? tolerance)%float.

End Binary64.

(** ** Helpers for JavaScript arrays *)

Module JsArray.

Section Generic.
Context {A : Type}.

(** [arr.findIndex(p)], with [None] for [-1]. *)
Fixpoint findIndex (p : A -> bool) (l : list A) : option nat :=
  match l with
  | [] => None
  | x :: rest => if p x then Some O else option_map S (findIndex p rest)
  end.

(** [arr.splice(i, 0, x)]. *)
Definition spliceIn (i : nat) (x : A) (l : list A) : list A :=
  take i l ++ x :: drop i l.

(** [i = arr.findIndex(p); if (i !== -1) arr.splice(i, 1)]. *)
Definition removeFirst (p : A -> bool) (l : list A) : list A :=
  match findIndex p l with
  | Some i => delete i l
  | None => l
  end.

(** [i = arr.findIndex(p); if (i === -1) arr.push(x); else arr.splice(i, 0, x)]. *)
Definition insertBefore (p : A -> bool) (x : A) (l : list A) : list A :=
  match findIndex p l with
  | None => l ++ [x]
  | Some i => spliceIn i x l
  end.

(** [while (arr.length > max) arr.pop()]: one [pop] per element over the
    bound. *)
Definition popWhileOver (max : nat) (l : list A) : list A :=
  Nat.iter (length l - max) (@removelast A) l.

(** The slices [arr.slice(i, i + n)] for [i = 0, n, 2n, ...]. *)
Fixpoint batchesAux (fuel n : nat) (l : list A) : list (list A) :=
  match fuel with
  | O => []
  | S fuel' =>
      match l with
      | [] => []
      | _ => take n l :: batchesAux fuel' n (drop n l)
      end
  end.

Definition batches (n : nat) (l : list A) : list (list A) :=
  batchesAux (length l) n l.

(** [arr.sort(cmp)] for a comparator that orders [x] after [y] exactly
    when [after x y]: a stable insertion sort. *)
Fixpoint insertSorted (after : A -> A -> bool) (x : A) (l : list A) : list A :=
  match l with
  | [] => [x]
  | y :: rest => if after x y then y :: insertSorted after x rest else x :: l
  end.

Definition sortBy (after : A -> A -> bool) (l : list A) : list A :=
  foldr (insertSorted after) [] l.

End Generic.

End JsArray.

Import JsArray.

(** ** The Telegram alert gate (TelegramBotService) *)

Module Telegram.

Record TelegramConfig := {
  botToken : string;
  chatId : string;
  enabled : bool
}.

Inductive ParseMode := MarkdownV2 | HTML | NoParseMode.

(** The text of a message is display formatting; the model records which
    formatter produced it and for which opportunity. *)
Inductive Message :=
  | FormatTelegramMessage (opp : Opportunity)
  | FormatPlainMessage (opp : Opportunity).

Definition Post : Type := Message * ParseMode.

(** The Telegram HTTP API: [Some ok] is the [ok] field of the reply,
    [None] a failed request. *)
Definition Api : Type := Message -> ParseMode -> option bool.

Record TelegramBotService := {
  config : TelegramConfig;
  lastAlertTime : gmap string Z;
  cooldownMs : Z
}.

(** [shouldSendAlert], reading the clock at [now]. *)
Definition shouldSendAlert (svc : TelegramBotService) (marketId : string)
    (now : Z) : bool :=
  match lastAlertTime svc !! marketId with
  | None => true
  | Some lastTime =>
      if lastTime =? 0 then true
      else now - lastTime >? cooldownMs svc
  end.

(** [sendMessage]: the result, and the requests that went out. *)
Definition sendMessage (svc : TelegramBotService) (api : Api)
    (text : Message) (parseMode : ParseMode) : bool * list Post :=
  if negb (enabled (config svc))
     || String.eqb (botToken (config svc)) ""
     || String.eqb (chatId (config svc)) ""
  then (false, [])
  else
    match api text parseMode with
    | Some ok => (ok, [(text, parseMode)])
    | None => (false, [(text, parseMode)])
    end.

(** [sendArbitrageAlert]: [now] is the clock read by the cooldown check,
    [stamp] the clock read when the send is recorded. *)
Definition sendArbitrageAlert (svc : TelegramBotService) (api : Api)
    (opportunity : Opportunity) (now stamp : Z)
    : bool * TelegramBotService * list Post :=
  let key := marketId (market opportunity) in
  if negb (shouldSendAlert svc key now) then (false, svc, [])
  else
    let '(success, out1) :=
      sendMessage svc api (FormatTelegramMessage opportunity) MarkdownV2 in
    let '(success, out2) :=
      if negb success
      then sendMessage svc api (FormatPlainMessage opportunity) NoParseMode
      else (success, []) in
    let svc' :=
      if success
      then {| config := config svc;
              lastAlertTime := <[key := stamp]> (lastAlertTime svc);
              cooldownMs := cooldownMs svc |}
      else svc in
    (success, svc', out1 ++ out2).

Definition setCooldown (svc : TelegramBotService) (ms : Z) : TelegramBotService :=
  {| config := config svc; lastAlertTime := lastAlertTime svc; cooldownMs := ms |}.

Definition clearCooldown (svc : TelegramBotService) (marketId : string)
    : TelegramBotService :=
  {| config := config svc;
     lastAlertTime := delete marketId (lastAlertTime svc);
     cooldownMs := cooldownMs svc |}.

Definition clearAllCooldowns (svc : TelegramBotService) : TelegramBotService :=
  {| config := config svc; lastAlertTime := ∅; cooldownMs := cooldownMs svc |}.

(** The three parts of the result of [sendArbitrageAlert]. *)
Definition sent (r : bool * TelegramBotService * list Post) : bool := fst (fst r).
Definition after (r : bool * TelegramBotService * list Post) : TelegramBotService :=
  snd (fst r).
Definition outbox (r : bool * TelegramBotService * list Post) : list Post := snd r.

(** The delivery of an alert: the MarkdownV2 message, or else the plain
    text fallback, was accepted. *)
Definition delivered (svc : TelegramBotService) (api : Api) (opp : Opportunity) : bool :=
  fst (sendMessage svc api (FormatTelegramMessage opp) MarkdownV2)
  || fst (sendMessage svc api (FormatPlainMessage opp) NoParseMode).

(** The gate as the specification words it: suppress exactly when the
    time since the last notification is below the cooldown window. *)
Definition specSuppress (lastNotified now cooldown : Z) : Prop :=
  now - lastNotified < cooldown.

End Telegram.

(** ** The terminal server (TerminalServer) *)

Module Terminal.

Inductive Priority := PRIO_LOW | PRIO_MEDIUM | PRIO_HIGH | PRIO_CRITICAL.

Record ArbitrageAlert := {
  alert_id : string;
  opportunity : Opportunity;
  timestamp : Z;
  priority : Priority
}.

Record ScannerStats := {
  totalScans : Z;
  totalOpportunitiesFound : Z;
  activeOpportunities : Z;
  totalProfitCaptured : num;
  lastScanAt : option Z;
  uptime : Z;
  marketsScanned : Z
}.

Record TerminalState := {
  alerts : list ArbitrageAlert;
  stats : ScannerStats;
  isScanning : bool;
  lastUpdate : Z;
  config : ScannerConfig
}.

Definition isActive (a : ArbitrageAlert) : bool :=
  match status (opportunity a) with Active => true | _ => false end.

(** [TerminalServer.addAlert]. *)
Definition addAlert (st : TerminalState) (opp : Opportunity) (now : Z)
    : TerminalState :=
  let alert := {|
    alert_id := id opp;
    opportunity := opp;
    timestamp := now;
    priority :=
      if nge (netProfitPercent opp) (Num 3) then PRIO_CRITICAL
      else if nge (netProfitPercent opp) (Num 2) then PRIO_HIGH
      else if nge (netProfitPercent opp) (Num 1) then PRIO_MEDIUM
      else PRIO_LOW |} in
  let alerts1 := alert :: alerts st in
  let alerts2 :=
    if (100 <? length alerts1)%nat then take 100 alerts1 else alerts1 in
  let s := stats st in
  {| alerts := alerts2;
     stats := {|
       totalScans := totalScans s;
       totalOpportunitiesFound := totalOpportunitiesFound s + 1;
       activeOpportunities := Z.of_nat (length (filter (fun a => isActive a = true) alerts2));
       totalProfitCaptured := totalProfitCaptured s;
       lastScanAt := lastScanAt s;
       uptime := uptime s;
       marketsScanned := marketsScanned s |};
     isScanning := isScanning st;
     lastUpdate := now;
     config := config st |}.

(** [addAlerts]. *)
Definition addAlerts (st : TerminalState) (opps : list Opportunity) (now : Z)
    : TerminalState :=
  fold_left (fun st opp => addAlert st opp now) opps st.

(** [updateStats], called with the whole statistics record. *)
Definition updateStats (st : TerminalState) (updates : ScannerStats) (now : Z)
    : TerminalState :=
  {| alerts := alerts st; stats := updates; isScanning := isScanning st;
     lastUpdate := now; config := config st |}.

Definition setScanning (st : TerminalState) (b : bool) : TerminalState :=
  {| alerts := alerts st; stats := stats st; isScanning := b;
     lastUpdate := lastUpdate st; config := config st |}.

(** The market keys held by the alert list. *)
Definition alertKeys (st : TerminalState) : list string :=
  (fun a => conditionId (market (opportunity a))) <$> alerts st.

End Terminal.

(** ** The agent service (PolyClaudeService) *)

Module Service.

Import Terminal.

(** What the outside world answers during one scan cycle. *)
Record World := {
  (** the market catalogue; [None] when the client could not be
      initialised or [getMarkets] threw *)
  getMarkets : option (list Market);
  (** [getOrderBook(tokenId).catch(() => null)] *)
  getOrderBook : string -> option OrderBook;
  (** [Date.now()] as the scans, the statistics and the terminal server
      of the cycle read it *)
  clock : Z;
  (** the identifier drawn for the opportunity of a market *)
  uuidv4 : string -> string;
  (** the two [new Date()] readings stored in the opportunity of a
      market: [discoveredAt] and [updatedAt] *)
  stamps : string -> Z * Z;
  (** the Telegram HTTP API *)
  telegramApi : Telegram.Api;
  (** [Date.now()] at the cooldown check and at the stamp of the i-th
      Telegram alert of the cycle *)
  alertClock : nat -> Z * Z
}.

Record PolyClaudeService := {
  config : ScannerConfig;
  telegramBot : option Telegram.TelegramBotService;
  terminalServer : option TerminalState;
  isScanning : bool;
  stats : ScannerStats
}.

Definition DEFAULT_CONFIG : ScannerConfig := {|
  minProfitPercent := Num 0.5;
  maxRiskScore := Num 7;
  scanIntervalMs := 30000;
  minLiquidity := Some (Num 100)
|}.

(** The result of a [try] block: a returned value, or a thrown error. *)
Inductive outcome (A : Type) :=
  | Returned (a : A)
  | Thrown.
Arguments Returned {A} a.
Arguments Thrown {A}.

Section WithBuiltins.
Context `{Builtins}.

(** The body of [scanMarket]'s [try].  Reading [token_id] of a missing
    token throws. *)
Definition scanMarketBody (w : World) (config : ScannerConfig) (m : Market)
    : outcome (option Opportunity) :=
  match tokens m with
  | Some (yesTok :: noTok :: _) =>
      match getOrderBook w (token_id yesTok), getOrderBook w (token_id noTok) with
      | Some yesBook, Some noBook =>
          match bestPrices yesBook noBook with
          | None => Returned None
          | Some bp =>
              Returned
                (assess false config m yesTok noTok bp
                   (sideLiquidity (asks yesBook)) (sideLiquidity (asks noBook))
                   (clock w) (uuidv4 w (condition_id m))
                   (stamps w (condition_id m)))
          end
      | _, _ => Returned None
      end
  | _ => Thrown
  end.

(** [scanMarket]: [catch (error) { return null }]. *)
Definition scanMarket (w : World) (config : ScannerConfig) (m : Market)
    : option Opportunity :=
  match scanMarketBody w config m with
  | Returned r => r
  | Thrown => None
  end.

(** [opportunities.sort((a, b) => b.netProfitPercent - a.netProfitPercent)]. *)
Definition sortByNetProfit (l : list Opportunity) : list Opportunity :=
  sortBy (fun a b => ngt (netProfitPercent b) (netProfitPercent a)) l.

(** The Telegram alerts of a cycle, sent one after the other; each
    opportunity comes with the two clock readings of its
    [sendArbitrageAlert]. *)
Fixpoint sendAlerts (bot : Telegram.TelegramBotService) (api : Telegram.Api)
    (opps : list (Opportunity * (Z * Z)))
    : Telegram.TelegramBotService * list Telegram.Post :=
  match opps with
  | [] => (bot, [])
  | (opp, (now, stamp)) :: rest =>
      let '(_, bot', out) := Telegram.sendArbitrageAlert bot api opp now stamp in
      let '(bot'', out') := sendAlerts bot' api rest in
      (bot'', out ++ out')
  end.

(** The opportunities of a cycle's alert loop with the clock readings
    of their turn. *)
Definition withAlertClock (w : World) (opps : list Opportunity)
    : list (Opportunity * (Z * Z)) :=
  imap (fun i opp => (opp, alertClock w i)) opps.

(** Entering a cycle: the two assignments before the [try]. *)
Definition enterScan (svc : PolyClaudeService) : PolyClaudeService :=
  {| config := config svc;
     telegramBot := telegramBot svc;
     terminalServer := option_map (fun t => setScanning t true) (terminalServer svc);
     isScanning := true;
     stats := stats svc |}.

(** The [finally] block. *)
Definition leaveScan (svc : PolyClaudeService) : PolyClaudeService :=
  {| config := config svc;
     telegramBot := telegramBot svc;
     terminalServer := option_map (fun t => setScanning t false) (terminalServer svc);
     isScanning := false;
     stats := stats svc |}.

(** The [try] block of [runScan], with its [catch]: the returned
    opportunities, the service afterwards and the Telegram requests. *)
Definition scanCycle (w : World) (svc : PolyClaudeService)
    : list Opportunity * PolyClaudeService * list Telegram.Post :=
  match getMarkets w with
  | None => ([], svc, [])
  | Some [] => ([], svc, [])
  | Some markets =>
      let activeMarkets := filter (fun m => active m && negb (closed m) = true) markets in
      let batchSize := 10%nat in
      let opportunities :=
        flat_map (fun batch => omap (scanMarket w (config svc)) batch)
                 (batches batchSize activeMarkets) in
      let opportunities := sortByNetProfit opportunities in
      let s := stats svc in
      let stats' := {|
        totalScans := totalScans s + 1;
        totalOpportunitiesFound :=
          totalOpportunitiesFound s + Z.of_nat (length opportunities);
        activeOpportunities := Z.of_nat (length opportunities);
        totalProfitCaptured := totalProfitCaptured s;
        lastScanAt := Some (clock w);
        uptime := uptime s;
        marketsScanned := Z.of_nat (length activeMarkets) |} in
      let terminal' :=
        option_map
          (fun t => addAlerts (updateStats t stats' (clock w)) opportunities (clock w))
          (terminalServer svc) in
      let '(bot', out) :=
        match telegramBot svc with
        | Some bot =>
            let significantOpps :=
              filter (fun o => nge (netProfitPercent o) (Num 1) = true) opportunities in
            let '(bot', out) :=
              sendAlerts bot (telegramApi w)
                (withAlertClock w (take 3 significantOpps)) in
            (Some bot', out)
        | None => (None, [])
        end in
      (opportunities,
       {| config := config svc;
          telegramBot := bot';
          terminalServer := terminal';
          isScanning := isScanning svc;
          stats := stats' |},
       out)
  end.

(** [runScan], run to completion. *)
Definition runScan (w : World) (svc : PolyClaudeService)
    : list Opportunity * PolyClaudeService * list Telegram.Post :=
  if isScanning svc then ([], svc, [])
  else
    let '(result, svc', out) := scanCycle w (enterScan svc) in
    (result, leaveScan svc', out).

(** The service as seen by the event loop.  A call of [runScan] either
    returns at once (the guard) or suspends at its first [await]; a
    suspended cycle later runs to its end with the answers of the world. *)
Inductive event :=
  | Request
  | Settle (w : World).

Definition step (svc : PolyClaudeService) (e : event)
    : PolyClaudeService * option (list Opportunity) :=
  match e with
  | Request =>
      if isScanning svc then (svc, Some [])
      else (enterScan svc, None)
  | Settle w =>
      if isScanning svc then
        let '(result, svc', _) := scanCycle w svc in
        (leaveScan svc', Some result)
      else (svc, None)
  end.

Definition steps (svc : PolyClaudeService) (es : list event) : PolyClaudeService :=
  fold_left (fun s e => fst (step s e)) es svc.

End WithBuiltins.

End Service.

(** ** The standalone server (near-miss and live-market lists,
       PolyClaudeServer) *)

Module Standalone.

Definition MAX_LOGS : nat := 100.
Definition MAX_NEAR_MISSES : nat := 20.
Definition MAX_LIVE_MARKETS : nat := 15.

Inductive LogType := LogInfo | LogSuccess | LogWarning | LogError.

(** The messages of [addLog], by call site. *)
Inductive LogMsg :=
  | MsgFetching (limit : Z)
  | MsgRetrieved (n : nat)
  | MsgFetchFailed
  | MsgOpportunity (question : string) (netProfitPercent : num)
  | MsgScanStart (n : Z)
  | MsgNoMarkets
  | MsgAnalyzing (n : nat)
  | MsgScanCompleteNone
  | MsgScanCompleteFound (n : Z)
  | MsgScanError.

Record LogEntry := {
  log_time : Z;
  log_message : LogMsg;
  log_type : LogType
}.

Inductive PriceSide := UNDERPRICED | OVERPRICED.

Record NearMiss := {
  nm_id : string;
  nm_question : string;
  nm_slug : string;
  nm_yesAsk : num;
  nm_noAsk : num;
  nm_yesBid : num;
  nm_noBid : num;
  nm_combinedAsk : num;
  nm_combinedBid : num;
  nm_deviation : num;
  nm_direction : PriceSide;
  nm_timestamp : Z;
  nm_volume : string + num
}.

Record LiveMarket := {
  lm_id : string;
  lm_question : string;
  lm_slug : string;
  lm_category : string;
  lm_yesPrice : num;
  lm_noPrice : num;
  lm_yesBid : num;
  lm_yesAsk : num;
  lm_noBid : num;
  lm_noAsk : num;
  lm_spread : num;
  lm_liquidity : num;
  lm_volume : num;
  lm_endDate : string;
  lm_timestamp : Z
}.

(** The module-level arrays of the script. *)
Record Globals := {
  terminalLogs : list LogEntry;
  nearMisses : list NearMiss;
  liveMarkets : list LiveMarket
}.

Record World := {
  (** the reply of the catalogue request; [None] when it failed *)
  marketsResponse : option (list Market);
  (** [fetchOrderBook]: [null] on any failure *)
  fetchOrderBook : string -> option OrderBook;
  (** [Date.now()] as the scans and the log read it *)
  clock : Z;
  randomUUID : string -> string;
  (** the two [new Date()] readings stored in the opportunity of a
      market: [discoveredAt] and [updatedAt] *)
  stamps : string -> Z * Z
}.

Definition addLog (g : Globals) (now : Z) (message : LogMsg) (type : LogType)
    : Globals :=
  let logs := {| log_time := now; log_message := message; log_type := type |}
              :: terminalLogs g in
  {| terminalLogs := if (MAX_LOGS <? length logs)%nat then removelast logs else logs;
     nearMisses := nearMisses g;
     liveMarkets := liveMarkets g |}.

(** [fetchMarkets(limit)]. *)
Definition fetchMarkets (w : World) (g : Globals) (limit : Z)
    : list Market * Globals :=
  let g := addLog g (clock w) (MsgFetching limit) LogInfo in
  match marketsResponse w with
  | Some markets =>
      let filtered :=
        filter (fun m => active m && negb (closed m) && enable_order_book m = true)
               markets in
      (filtered, addLog g (clock w) (MsgRetrieved (length filtered)) LogSuccess)
  | None => ([], addLog g (clock w) MsgFetchFailed LogError)
  end.

Section WithBuiltins.
Context `{Builtins}.

(** The record [addNearMiss] builds. *)
Definition newNearMiss (w : World) (m : Market)
    (yesAsk noAsk yesBid noBid combinedAsk combinedBid : num)
    (volume : option string) : NearMiss :=
  let deviation := nabs (nsub (Num 1) combinedAsk) in
  {| nm_id := randomUUID w (market_slug m);
     nm_question := question m;
     nm_slug := market_slug m;
     nm_yesAsk := yesAsk;
     nm_noAsk := noAsk;
     nm_yesBid := yesBid;
     nm_noBid := noBid;
     nm_combinedAsk := combinedAsk;
     nm_combinedBid := combinedBid;
     nm_deviation := deviation;
     nm_direction := if nlt combinedAsk (Num 1) then UNDERPRICED else OVERPRICED;
     nm_timestamp := clock w;
     nm_volume := if strTruthy volume then inl (strOr volume "") else inr (Num 0)
  |}.

(** [addNearMiss]. *)
Definition addNearMiss (g : Globals) (w : World) (m : Market)
    (yesAsk noAsk yesBid noBid combinedAsk combinedBid : num)
    (volume : option string) : Globals :=
  let deviation := nabs (nsub (Num 1) combinedAsk) in
  let nearMiss :=
    newNearMiss w m yesAsk noAsk yesBid noBid combinedAsk combinedBid volume in
  let l := nearMisses g in
  let l := removeFirst (fun n => String.eqb (nm_slug n) (market_slug m)) l in
  let l := insertBefore (fun n => ngt (nm_deviation n) deviation) nearMiss l in
  {| terminalLogs := terminalLogs g;
     nearMisses := popWhileOver MAX_NEAR_MISSES l;
     liveMarkets := liveMarkets g |}.

(** [addLiveMarket]. *)
Definition addLiveMarket (g : Globals) (w : World) (m : Market)
    (yesAsk noAsk yesBid noBid yesLiquidity noLiquidity : num) : Globals :=
  let totalLiquidity := nadd yesLiquidity noLiquidity in
  let liveMarket := {|
    lm_id := randomUUID w (market_slug m);
    lm_question := question m;
    lm_slug := market_slug m;
    lm_category := strOr (category m) "Other";
    lm_yesPrice := ndiv (nadd yesBid yesAsk) (Num 2);
    lm_noPrice := ndiv (nadd noBid noAsk) (Num 2);
    lm_yesBid := yesBid;
    lm_yesAsk := yesAsk;
    lm_noBid := noBid;
    lm_noAsk := noAsk;
    lm_spread := ndiv (nadd (nsub yesAsk yesBid) (nsub noAsk noBid)) (Num 2);
    lm_liquidity := totalLiquidity;
    lm_volume := parseFloat (strOr (volume m) "0");
    lm_endDate := end_date_iso m;
    lm_timestamp := clock w
  |} in
  let l := liveMarkets g in
  let l := removeFirst (fun x => String.eqb (lm_slug x) (market_slug m)) l in
  let l := insertBefore (fun x => nlt (lm_liquidity x) totalLiquidity) liveMarket l in
  {| terminalLogs := terminalLogs g;
     nearMisses := nearMisses g;
     liveMarkets := popWhileOver MAX_LIVE_MARKETS l |}.

(** The near-miss test of [scanMarketForArbitrage]:
    [deviation > 0 && deviation <= 0.05]. *)
Definition nearMissRange (combinedAsk : num) : bool :=
  let deviation := nabs (nsub (Num 1) combinedAsk) in
  ngt deviation (Num 0) && nle deviation (Num 0.05).

(** [scanMarketForArbitrage] of the standalone script. *)
Definition scanMarketForArbitrage (w : World) (g : Globals) (m : Market)
    (config : ScannerConfig) : option Opportunity * Globals :=
  match tokens m with
  | Some (yesTok :: noTok :: _) =>
      match fetchOrderBook w (token_id yesTok), fetchOrderBook w (token_id noTok) with
      | Some yesBook, Some noBook =>
          match bestPrices yesBook noBook with
          | None => (None, g)
          | Some bp =>
              let combinedAsk := nadd (yesBestAsk bp) (noBestAsk bp) in
              let combinedBid := nadd (yesBestBid bp) (noBestBid bp) in
              let yesLiquidity := sideLiquidity (asks yesBook) in
              let noLiquidity := sideLiquidity (asks noBook) in
              let g := addLiveMarket g w m (yesBestAsk bp) (noBestAsk bp)
                         (yesBestBid bp) (noBestBid bp) yesLiquidity noLiquidity in
              let g :=
                if nearMissRange combinedAsk
                then addNearMiss g w m (yesBestAsk bp) (noBestAsk bp)
                       (yesBestBid bp) (noBestBid bp) combinedAsk combinedBid (volume m)
                else g in
              match assess true config m yesTok noTok bp yesLiquidity noLiquidity
                      (clock w) (randomUUID w (condition_id m))
                      (stamps w (condition_id m)) with
              | Some opp =>
                  (Some opp,
                   addLog g (clock w)
                     (MsgOpportunity (question m) (netProfitPercent opp)) LogSuccess)
              | None => (None, g)
              end
          end
      | _, _ => (None, g)
      end
  | _ => (None, g)
  end.

End WithBuiltins.

Record ServerStats := {
  marketsScanned : Z;
  totalFound : Z;
  activeOpps : Z;
  bestProfit : num;
  totalScans : Z
}.

Record PolyClaudeServer := {
  alerts : list Opportunity;
  stats : ServerStats;
  isScanning : bool;
  config : ScannerConfig
}.

(** [Math.max(...xs)] of a non-empty list. *)
Definition maxOf (xs : list num) : num :=
  match xs with
  | [] => Num 0
  | x :: rest => fold_left nmax rest x
  end.

Definition sameMarket (opp a : Opportunity) : bool :=
  String.eqb (conditionId (market a)) (conditionId (market opp)).

(** [PolyClaudeServer.addAlert]. *)
Definition addAlert (srv : PolyClaudeServer) (opp : Opportunity)
    : PolyClaudeServer :=
  let s := stats srv in
  let '(alerts1, totalFound1) :=
    match findIndex (sameMarket opp) (alerts srv) with
    | Some idx => (<[idx := opp]> (alerts srv), totalFound s)
    | None => (opp :: alerts srv, totalFound s + 1)
    end in
  let alerts2 :=
    if (100 <? length alerts1)%nat then take 100 alerts1 else alerts1 in
  {| alerts := alerts2;
     stats := {|
       marketsScanned := marketsScanned s;
       totalFound := totalFound1;
       activeOpps := Z.of_nat (length alerts2);
       bestProfit :=
         if (0 <? length alerts2)%nat
         then maxOf (map netProfitPercent alerts2) else Num 0;
       totalScans := totalScans s |};
     isScanning := isScanning srv;
     config := config srv |}.

(** The market keys held by the alert list. *)
Definition marketKey (a : Opportunity) : string := conditionId (market a).

Definition alertKeys (srv : PolyClaudeServer) : list string :=
  marketKey <$> alerts srv.

Definition setStats (srv : PolyClaudeServer) (s : ServerStats) : PolyClaudeServer :=
  {| alerts := alerts srv; stats := s; isScanning := isScanning srv;
     config := config srv |}.

Definition setIsScanning (srv : PolyClaudeServer) (b : bool) : PolyClaudeServer :=
  {| alerts := alerts srv; stats := stats srv; isScanning := b;
     config := config srv |}.

Section WithBuiltins.
Context `{Builtins}.

(** One batch: every market of the batch is scanned, then the results
    are added in order.  The scans of a batch run under [Promise.all];
    the model takes them in catalogue order. *)
Definition scanBatch (w : World) (config : ScannerConfig) (g : Globals)
    (batch : list Market) : list (option Opportunity) * Globals :=
  fold_left
    (fun '(results, g) m =>
       let '(r, g') := scanMarketForArbitrage w g m config in
       (results ++ [r], g'))
    batch ([], g).

Definition addResults (srv : PolyClaudeServer) (found : Z)
    (results : list (option Opportunity)) : PolyClaudeServer * Z :=
  fold_left
    (fun '(srv, found) r =>
       match r with
       | Some opp => (addAlert srv opp, found + 1)
       | None => (srv, found)
       end)
    results (srv, found).

Definition scanBatches (w : World) (srv : PolyClaudeServer) (g : Globals)
    (bs : list (list Market)) : PolyClaudeServer * Globals * Z :=
  fold_left
    (fun '(srv, g, found) batch =>
       let '(results, g') := scanBatch w (config srv) g batch in
       let '(srv', found') := addResults srv found results in
       (srv', g', found'))
    bs (srv, g, 0).

(** [PolyClaudeServer.runScan], run to completion. *)
Definition runScan (w : World) (srv : PolyClaudeServer) (g : Globals)
    : PolyClaudeServer * Globals :=
  if isScanning srv then (srv, g)
  else
    let srv := setIsScanning srv true in
    let s := stats srv in
    let srv := setStats srv {|
      marketsScanned := marketsScanned s; totalFound := totalFound s;
      activeOpps := activeOpps s; bestProfit := bestProfit s;
      totalScans := totalScans s + 1 |} in
    let g := addLog g (clock w) (MsgScanStart (totalScans (stats srv))) LogInfo in
    let '(markets, g) := fetchMarkets w g 200 in
    match markets with
    | [] =>
        let g := addLog g (clock w) MsgNoMarkets LogWarning in
        (setIsScanning srv false, g)
    | _ =>
        let s := stats srv in
        let srv := setStats srv {|
          marketsScanned := Z.of_nat (length markets); totalFound := totalFound s;
          activeOpps := activeOpps s; bestProfit := bestProfit s;
          totalScans := totalScans s |} in
        let g := addLog g (clock w) (MsgAnalyzing (length markets)) LogInfo in
        let batchSize := 5%nat in
        let '(srv, g, found) :=
          scanBatches w srv g (batches batchSize (take 100 markets)) in
        let g :=
          if found =? 0
          then addLog g (clock w) MsgScanCompleteNone LogInfo
          else addLog g (clock w) (MsgScanCompleteFound found) LogSuccess in
        (setIsScanning srv false, g)
    end.

(** The scans of [main], [await server.runScan()] and then
    [setInterval(() => server.runScan(), 30000)]: one call after the
    other, each in the world it meets. *)
Fixpoint runScans (ws : list World) (srv : PolyClaudeServer) (g : Globals)
    : PolyClaudeServer * Globals :=
  match ws with
  | [] => (srv, g)
  | w :: rest =>
      let '(srv', g') := runScan w srv g in
      runScans rest srv' g'
  end.

End WithBuiltins.

End Standalone.

(** ** The serverless scanner (api/scan.js) *)

Module Serverless.

Record Arbitrage := {
  arb_type : ArbDirection;
  arb_profitPercent : num;
  arb_profitAbsolute : num;
  arb_combinedAsk : num;
  arb_combinedBid : num
}.

Record Analysis := {
  an_question : string;
  an_slug : string;
  an_category : string;
  an_yesPrice : num;
  an_noPrice : num;
  an_yesBid : num;
  an_yesAsk : num;
  an_noBid : num;
  an_noAsk : num;
  an_combinedAsk : num;
  an_combinedBid : num;
  an_spread : num;
  an_liquidity : num;
  an_deviation : num;
  an_direction : Standalone.PriceSide;
  an_isNearMiss : bool;
  an_arbitrage : option Arbitrage;
  an_timestamp : Z
}.

Record World := {
  (** the catalogue request of [fetchMarkets]; [None] when it threw *)
  marketsResponse : option (list Market);
  fetchOrderBook : string -> option OrderBook;
  clock : Z
}.

Definition isSome {A : Type} (o : option A) : bool :=
  match o with Some _ => true | None => false end.

Section WithBuiltins.
Context `{Builtins}.

(** [analyzeMarket]. *)
Definition analyzeMarket (w : World) (m : Market) : option Analysis :=
  match tokens m with
  | Some (yesTok :: noTok :: _) =>
      match fetchOrderBook w (token_id yesTok), fetchOrderBook w (token_id noTok) with
      | Some yesBook, Some noBook =>
          match bestPrices yesBook noBook with
          | None => None
          | Some bp =>
              let combinedAsk := nadd (yesBestAsk bp) (noBestAsk bp) in
              let combinedBid := nadd (yesBestBid bp) (noBestBid bp) in
              let yesLiquidity := sideLiquidity (asks yesBook) in
              let noLiquidity := sideLiquidity (asks noBook) in
              let totalLiquidity := nadd yesLiquidity noLiquidity in
              let yesPrice := ndiv (nadd (yesBestBid bp) (yesBestAsk bp)) (Num 2) in
              let noPrice := ndiv (nadd (noBestBid bp) (noBestAsk bp)) (Num 2) in
              let spread :=
                ndiv (nadd (nsub (yesBestAsk bp) (yesBestBid bp))
                           (nsub (noBestAsk bp) (noBestBid bp))) (Num 2) in
              let buyBothProfit := nsub (Num 1) combinedAsk in
              let sellBothProfit := nsub combinedBid (Num 1) in
              let arbitrage :=
                if ngt buyBothProfit (Num 0.001) then
                  Some {| arb_type := BUY_BOTH;
                          arb_profitPercent :=
                            nmul (ndiv buyBothProfit combinedAsk) (Num 100);
                          arb_profitAbsolute := buyBothProfit;
                          arb_combinedAsk := combinedAsk;
                          arb_combinedBid := combinedBid |}
                else if ngt sellBothProfit (Num 0.001) then
                  Some {| arb_type := SELL_BOTH;
                          arb_profitPercent :=
                            nmul (ndiv sellBothProfit (Num 1)) (Num 100);
                          arb_profitAbsolute := sellBothProfit;
                          arb_combinedAsk := combinedAsk;
                          arb_combinedBid := combinedBid |}
                else None in
              let deviation := nabs (nsub (Num 1) combinedAsk) in
              let isNearMiss :=
                ngt deviation (Num 0) && nle deviation (Num 0.05)
                && negb (isSome arbitrage) in
              Some {|
                an_question := question m;
                an_slug := market_slug m;
                an_category := strOr (category m) "Other";
                an_yesPrice := yesPrice;
                an_noPrice := noPrice;
                an_yesBid := yesBestBid bp;
                an_yesAsk := yesBestAsk bp;
                an_noBid := noBestBid bp;
                an_noAsk := noBestAsk bp;
                an_combinedAsk := combinedAsk;
                an_combinedBid := combinedBid;
                an_spread := spread;
                an_liquidity := totalLiquidity;
                an_deviation := deviation;
                an_direction :=
                  if nlt combinedAsk (Num 1)
                  then Standalone.UNDERPRICED else Standalone.OVERPRICED;
                an_isNearMiss := isNearMiss;
                an_arbitrage := arbitrage;
                an_timestamp := clock w |}
          end
      | _, _ => None
      end
  | _ => None
  end.

Definition arbProfit (a : Analysis) : num :=
  match an_arbitrage a with
  | Some arb => nor (arb_profitPercent arb) (Num 0)
  | None => Num 0
  end.

Record Response := {
  r_opportunities : list Analysis;
  r_nearMisses : list Analysis;
  r_liveMarkets : list Analysis;
  r_marketsScanned : nat
}.

(** The body of [handler] for a [GET]: [None] is the 500 reply.  The
    first [sort] reorders [results] in place, so the two later filters
    read the liquidity order. *)
Definition handler (w : World) : option Response :=
  match marketsResponse w with
  | None => None
  | Some data =>
      let markets :=
        filter (fun m => active m && negb (closed m) && enable_order_book m = true)
               data in
      let batchSize := 10%nat in
      let results :=
        flat_map (fun batch => omap (analyzeMarket w) batch)
                 (batches batchSize (take 50 markets)) in
      let results :=
        sortBy (fun a b => ngt (an_liquidity b) (an_liquidity a)) results in
      let liveMarkets := take 15 results in
      let nearMisses :=
        take 20 (sortBy (fun a b => ngt (an_deviation a) (an_deviation b))
                        (filter (fun a => an_isNearMiss a = true) results)) in
      let opportunities :=
        take 10 (sortBy (fun a b => ngt (arbProfit b) (arbProfit a))
                        (filter (fun a => isSome (an_arbitrage a) = true) results)) in
      Some {| r_opportunities := opportunities;
              r_nearMisses := nearMisses;
              r_liveMarkets := liveMarkets;
              r_marketsScanned := length results |}
  end.

End WithBuiltins.

End Serverless.

(** ** The vocabulary of the specification *)

Module SpecWords.

(** A side of a book is missing when it has no level, or its first level
    carries no price. *)
Definition sideMissing (side : option (list Level)) : Prop :=
  match side with
  | Some (l :: _) => price l = None \/ price l = Some ""%string
  | _ => True
  end.

(** A snapshot is incomplete when the fetch failed or the best bid or
    the best ask is missing. *)
Definition snapshotIncomplete (snapshot : option OrderBook) : Prop :=
  match snapshot with
  | Some b => sideMissing (asks b) \/ sideMissing (bids b)
  | None => True
  end.

(** The best price of a side parses to exactly zero. *)
Definition zeroPriced `{Builtins} (side : option (list Level)) : Prop :=
  exists l rest s q,
    side = Some (l :: rest) /\ price l = Some s /\ s <> ""%string
    /\ parseFloat s = Num q /\ (q == 0)%Q.

(** The near-miss list is sorted by deviation ascending. *)
Definition byDeviation (a b : Standalone.NearMiss) : Prop :=
  nle (Standalone.nm_deviation a) (Standalone.nm_deviation b) = true.

(** The near-miss list in good order: sorted by deviation ascending, one
    entry per market key, within the capacity bound; every deviation is
    a number. *)
Definition nearMissListOk (l : list Standalone.NearMiss) : Prop :=
  StronglySorted byDeviation l
  /\ Forall (fun n => Standalone.nm_deviation n <> NaN) l
  /\ NoDup (Standalone.nm_slug <$> l)
  /\ (length l <= Standalone.MAX_NEAR_MISSES)%nat.

(** [x] is [d] to three decimals. *)
Definition approx3 (x : num) (d : Q) : Prop :=
  match x with
  | Num q => (Qabs (q - d) < 0.0005)%Q
  | NaN => False
  end.

End SpecWords.

(** ** Sample data

    Concrete inputs on which the statements below are exercised. *)

Module Samples.

Definition digitValue (c : ascii) : option Z :=
  let n := Z.of_nat (nat_of_ascii c) in
  if (48 <=? n) && (n <=? 57) then Some (n - 48) else None.

Fixpoint parseDecimalFrom (s : string) (mantissa : Z) (scale : option positive) : num :=
  match s with
  | EmptyString =>
      match scale with
      | None => Num (mantissa # 1)
      | Some d => Num (mantissa # d)
      end
  | String c rest =>
      if Ascii.eqb c "."%char then
        match scale with
        | None => parseDecimalFrom rest mantissa (Some 1%positive)
        | Some _ => NaN
        end
      else
        match digitValue c with
        | Some k =>
            parseDecimalFrom rest (10 * mantissa + k)
              (option_map (fun d => (10 * d)%positive) scale)
        | None => NaN
        end
  end.

(** [parseFloat] restricted to unsigned decimal literals such as
    ["0.40"] or ["1500"]; any other text is NaN here. *)
Definition parseDecimal (s : string) : num :=
  match s with
  | EmptyString => NaN
  | _ => parseDecimalFrom s 0 None
  end.

(** The one end date the samples use, 2030-01-01T00:00:00Z. *)
Definition sampleDate (s : string) : num :=
  if String.eqb s "2030-01-01T00:00:00.000Z" then Num 1893456000000 else NaN.

Definition sampleBuiltins : Builtins :=
  {| parseFloat := parseDecimal; dateGetTime := sampleDate |}.

(** Thirty days before the sample end date. *)
Definition sampleNow : Z := 1890864000000.

Definition level (p s : string) : Level := {| price := Some p; size := Some s |}.

Definition book (ask bid sz : string) : OrderBook :=
  {| asks := Some [level ask sz]; bids := Some [level bid sz] |}.

Definition sampleMarket : Market := {|
  condition_id := "0xabc";
  question := "Will it rain tomorrow?";
  market_slug := "will-it-rain-tomorrow";
  category := Some "weather";
  end_date_iso := "2030-01-01T00:00:00.000Z";
  volume := Some "12000";
  tokens := Some [ {| token_id := "yes" |}; {| token_id := "no" |} ];
  active := true;
  closed := false;
  enable_order_book := true
|}.

(** Books keyed by token: [yes] and [no] quote the given prices with
    2000 units on each side. *)
Definition quotes (yesAsk yesBid noAsk noBid : string) (tokenId : string)
    : option OrderBook :=
  if String.eqb tokenId "yes" then Some (book yesAsk yesBid "2000")
  else if String.eqb tokenId "no" then Some (book noAsk noBid "2000")
  else None.

Definition noTelegram : Telegram.Api := fun _ _ => None.

Definition serviceWorld (markets : list Market)
    (books : string -> option OrderBook) : Service.World :=
  {| Service.getMarkets := Some markets;
     Service.getOrderBook := books;
     Service.clock := sampleNow;
     Service.uuidv4 := fun key => key;
     Service.stamps := fun _ => (sampleNow, sampleNow);
     Service.telegramApi := noTelegram;
     Service.alertClock := fun _ => (sampleNow, sampleNow) |}.

Definition standaloneWorld (markets : list Market)
    (books : string -> option OrderBook) : Standalone.World :=
  {| Standalone.marketsResponse := Some markets;
     Standalone.fetchOrderBook := books;
     Standalone.clock := sampleNow;
     Standalone.randomUUID := fun key => key;
     Standalone.stamps := fun _ => (sampleNow, sampleNow) |}.

Definition serverlessWorld (markets : list Market)
    (books : string -> option OrderBook) : Serverless.World :=
  {| Serverless.marketsResponse := Some markets;
     Serverless.fetchOrderBook := books;
     Serverless.clock := sampleNow |}.

Definition emptyGlobals : Standalone.Globals :=
  {| Standalone.terminalLogs := [];
     Standalone.nearMisses := [];
     Standalone.liveMarkets := [] |}.

(** The configuration of the standalone server. *)
Definition standaloneConfig : ScannerConfig := {|
  minProfitPercent := Num 0.1;
  maxRiskScore := Num 8;
  scanIntervalMs := 30000;
  minLiquidity := Some (Num 10)
|}.

(** The default configuration of the service with another profit
    threshold. *)
Definition thresholdConfig (threshold : Q) : ScannerConfig := {|
  minProfitPercent := Num threshold;
  maxRiskScore := Num 7;
  scanIntervalMs := 30000;
  minLiquidity := Some (Num 100)
|}.

(** Only the book of the [yes] token can be fetched. *)
Definition yesOnly (yesAsk yesBid : string) (tokenId : string)
    : option OrderBook :=
  if String.eqb tokenId "yes" then Some (book yesAsk yesBid "2000") else None.

(** An accepted opportunity for the market [key] with the given net
    profit percent (a BUY_BOTH at 0.40 + 0.55). *)
Definition opportunityFor (key : string) (net : Q) : Opportunity := {|
  id := key;
  status := Active;
  market := {| marketId := key; conditionId := key;
               opp_question := "Will it rain tomorrow?";
               opp_category := "weather";
               endDate := "2030-01-01T00:00:00.000Z";
               opp_slug := None |};
  intraMarketData := {|
    yesToken := {| tokenId := "yes"; bestBid := Num 0.38; bestAsk := Num 0.40;
                   midpoint := Num 0.39 |};
    noToken := {| tokenId := "no"; bestBid := Num 0.53; bestAsk := Num 0.55;
                  midpoint := Num 0.54 |};
    combinedAsk := Num 0.95;
    combinedBid := Num 0.91;
    buyBothProfit := Num 0.05;
    sellBothProfit := Num (-0.09);
    arbDirection := BUY_BOTH |};
  grossProfitPercent := Num (net + 1.2);
  grossProfitAbsolute := Num 0.05;
  estimatedFees := Num 0.01;
  estimatedGas := Num 0.002;
  netProfitPercent := Num net;
  netProfitAbsolute := Num 0.038;
  breakeven := Num 0.012;
  riskLevel := Risk.LOW;
  riskScore := 3;
  riskFactors := [];
  confidenceScore := Num 0.95;
  recommendedSize := Num 200;
  maxSize := Num 1000;
  opp_liquidity := None;
  discoveredAt := sampleNow;
  updatedAt := sampleNow
|}.

(** A configured bot with the default one-minute cooldown and the given
    notification times. *)
Definition botWith (notified : gmap string Z) : Telegram.TelegramBotService :=
  {| Telegram.config := {| Telegram.botToken := "token";
                           Telegram.chatId := "chat";
                           Telegram.enabled := true |};
     Telegram.lastAlertTime := notified;
     Telegram.cooldownMs := 60000 |}.

(** The standalone server as constructed. *)
Definition newServer : Standalone.PolyClaudeServer :=
  {| Standalone.alerts := [];
     Standalone.stats := {| Standalone.marketsScanned := 0;
                            Standalone.totalFound := 0;
                            Standalone.activeOpps := 0;
                            Standalone.bestProfit := Num 0;
                            Standalone.totalScans := 0 |};
     Standalone.isScanning := false;
     Standalone.config := standaloneConfig |}.

Definition noStats : Terminal.ScannerStats :=
  {| Terminal.totalScans := 0;
     Terminal.totalOpportunitiesFound := 0;
     Terminal.activeOpportunities := 0;
     Terminal.totalProfitCaptured := Num 0;
     Terminal.lastScanAt := None;
     Terminal.uptime := 0;
     Terminal.marketsScanned := 0 |}.

(** The terminal server as constructed. *)
Definition newTerminal : Terminal.TerminalState :=
  {| Terminal.alerts := [];
     Terminal.stats := noStats;
     Terminal.isScanning := false;
     Terminal.lastUpdate := 0;
     Terminal.config := Service.DEFAULT_CONFIG |}.

(** The agent service as started, without a Telegram bot. *)
Definition newService : Service.PolyClaudeService :=
  {| Service.config := Service.DEFAULT_CONFIG;
     Service.telegramBot := None;
     Service.terminalServer := Some newTerminal;
     Service.isScanning := false;
     Service.stats := noStats |}.

(** The same service and server while a scan is in progress. *)
Definition busyService : Service.PolyClaudeService := Service.enterScan newService.

Definition busyServer : Standalone.PolyClaudeServer :=
  Standalone.setIsScanning newServer true.

(** A world whose catalogue cannot be fetched. *)
Definition outage : Service.World :=
  {| Service.getMarkets := None;
     Service.getOrderBook := fun _ => None;
     Service.clock := sampleNow;
     Service.uuidv4 := fun key => key;
     Service.stamps := fun _ => (sampleNow, sampleNow);
     Service.telegramApi := noTelegram;
     Service.alertClock := fun _ => (sampleNow, sampleNow) |}.

(** A Telegram API that accepts every message, and one that refuses
    every message. *)
Definition telegramUp : Telegram.Api := fun _ _ => Some true.
Definition telegramDown : Telegram.Api := fun _ _ => Some false.

(** Distinct one-letter keys: ["a"], ["b"], ... *)
Definition slugOf (n : nat) : string :=
  String (ascii_of_nat (97 + n)) EmptyString.

(** The sample market under the slug and condition id [slugOf n]. *)
Definition marketAt (n : nat) : Market := {|
  condition_id := slugOf n;
  question := "Will it rain tomorrow?";
  market_slug := slugOf n;
  category := Some "weather";
  end_date_iso := "2030-01-01T00:00:00.000Z";
  volume := Some "12000";
  tokens := Some [ {| token_id := "yes" |}; {| token_id := "no" |} ];
  active := true;
  closed := false;
  enable_order_book := true
|}.

(** A near miss of the market [slugOf n] with deviation (n + 1) / 1000. *)
Definition nearMissAt (n : nat) : Standalone.NearMiss := {|
  Standalone.nm_id := slugOf n;
  Standalone.nm_question := "Will it rain tomorrow?";
  Standalone.nm_slug := slugOf n;
  Standalone.nm_yesAsk := Num 0.40;
  Standalone.nm_noAsk := Num (0.60 - (Z.of_nat (S n) # 1000));
  Standalone.nm_yesBid := Num 0.39;
  Standalone.nm_noBid := Num 0.50;
  Standalone.nm_combinedAsk := Num (1 - (Z.of_nat (S n) # 1000));
  Standalone.nm_combinedBid := Num 0.89;
  Standalone.nm_deviation := Num (Z.of_nat (S n) # 1000);
  Standalone.nm_direction := Standalone.UNDERPRICED;
  Standalone.nm_timestamp := sampleNow;
  Standalone.nm_volume := inr (Num 0)
|}.

(** A live market of the market [slugOf n] with liquidity
    2000 - 100 n. *)
Definition liveMarketAt (n : nat) : Standalone.LiveMarket := {|
  Standalone.lm_id := slugOf n;
  Standalone.lm_question := "Will it rain tomorrow?";
  Standalone.lm_slug := slugOf n;
  Standalone.lm_category := "weather";
  Standalone.lm_yesPrice := Num 0.395;
  Standalone.lm_noPrice := Num 0.545;
  Standalone.lm_yesBid := Num 0.39;
  Standalone.lm_yesAsk := Num 0.40;
  Standalone.lm_noBid := Num 0.54;
  Standalone.lm_noAsk := Num 0.55;
  Standalone.lm_spread := Num 0.01;
  Standalone.lm_liquidity := Num (inject_Z (2000 - 100 * Z.of_nat n));
  Standalone.lm_volume := Num 12000;
  Standalone.lm_endDate := "2030-01-01T00:00:00.000Z";
  Standalone.lm_timestamp := sampleNow
|}.

(** The three lists of the standalone script at capacity: 100 log
    lines, 20 near misses of the markets ["a"] to ["t"] and 15 live
    markets of the markets ["a"] to ["o"]. *)
Definition fullGlobals : Standalone.Globals :=
  {| Standalone.terminalLogs :=
       replicate 100 {| Standalone.log_time := sampleNow;
                        Standalone.log_message := Standalone.MsgNoMarkets;
                        Standalone.log_type := Standalone.LogWarning |};
     Standalone.nearMisses := nearMissAt <$> seq 0 20;
     Standalone.liveMarkets := liveMarketAt <$> seq 0 15 |}.

(** The standalone server holding [n] alerts, of the markets
    [slugOf 0] to [slugOf (n - 1)] with net profits 1 to [n]. *)
Definition serverWith (n : nat) : Standalone.PolyClaudeServer :=
  {| Standalone.alerts :=
       (fun i => opportunityFor (slugOf i) (inject_Z (Z.of_nat (S i))))
         <$> seq 0 n;
     Standalone.stats := {| Standalone.marketsScanned := 0;
                            Standalone.totalFound := Z.of_nat n;
                            Standalone.activeOpps := Z.of_nat n;
                            Standalone.bestProfit := Num (inject_Z (Z.of_nat n));
                            Standalone.totalScans := 0 |};
     Standalone.isScanning := false;
     Standalone.config := standaloneConfig |}.

End Samples.

(** ** Orders on records keyed by a number *)

Module Orders.

Definition ascBy {A : Type} (key : A -> num) (a b : A) : Prop :=
  nle (key a) (key b) = true.

Definition descBy {A : Type} (key : A -> num) (a b : A) : Prop :=
  nle (key b) (key a) = true.

End Orders.

Import Orders.

(** ** The lists of the standalone server in good order *)

Module Invariants.

Import Standalone.

(** The live-market list: sorted by liquidity descending, one entry per
    market slug, within the capacity bound; every liquidity is a
    number. *)
Definition liveMarketListOk (l : list LiveMarket) : Prop :=
  StronglySorted (descBy lm_liquidity) l
  /\ Forall (fun x => lm_liquidity x <> NaN) l
  /\ NoDup (lm_slug <$> l)
  /\ (length l <= MAX_LIVE_MARKETS)%nat.

Definition globalsOk (g : Globals) : Prop :=
  SpecWords.nearMissListOk (nearMisses g)
  /\ liveMarketListOk (liveMarkets g)
  /\ (length (terminalLogs g) <= MAX_LOGS)%nat.

(** The alert list: one record per market key, at most 100 records, and
    the two statistics derived from it up to date. *)
Definition serverOk (srv : PolyClaudeServer) : Prop :=
  NoDup (alertKeys srv)
  /\ (length (alerts srv) <= 100)%nat
  /\ activeOpps (stats srv) = Z.of_nat (length (alerts srv))
  /\ bestProfit (stats srv)
     = if (0 <? length (alerts srv))%nat
       then maxOf (map netProfitPercent (alerts srv)) else Num 0.

End Invariants.

(** ** More of the Telegram bot *)

Module TelegramOps.

Import Telegram.

(** [createTelegramBot], from the two environment variables. *)
Definition createTelegramBot (botToken chatId : option string)
    : option TelegramBotService :=
  if negb (strTruthy botToken) || negb (strTruthy chatId) then None
  else Some {| config := {| botToken := strOr botToken "";
                            chatId := strOr chatId "";
                            enabled := true |};
               lastAlertTime := ∅;
               cooldownMs := 60000 |}.

(** [sendBatchAlerts].  Each opportunity comes with the two clock
    readings of its [sendArbitrageAlert]: at the cooldown check and at
    the stamp. *)
Definition sendBatchAlerts (svc : TelegramBotService) (api : Api)
    (opportunities : list (Opportunity * (Z * Z)))
    : Z * TelegramBotService * list Post :=
  fold_left
    (fun '(sent, svc, out) '(opp, (now, stamp)) =>
       let '(success, svc', out') := sendArbitrageAlert svc api opp now stamp in
       (if success then sent + 1 else sent, svc', out ++ out'))
    opportunities (0, svc, []).

(** A request the API accepted. *)
Definition accepted (api : Api) (p : Post) : bool :=
  match api (fst p) (snd p) with
  | Some ok => ok
  | None => false
  end.

(** The clock readings of a batch: no stamp is the epoch, and every
    cooldown check is made within the cooldown window of every earlier
    stamp. *)
Fixpoint timely (cooldown : Z) (l : list (Opportunity * (Z * Z))) : Prop :=
  match l with
  | [] => True
  | (_, (_, stamp)) :: rest =>
      stamp <> 0
      /\ Forall (fun x => fst (snd x) - stamp <= cooldown) rest
      /\ timely cooldown rest
  end.

(** The opportunity a request to the API is about. *)
Definition subject (p : Post) : Opportunity :=
  match fst p with
  | FormatTelegramMessage opp => opp
  | FormatPlainMessage opp => opp
  end.

End TelegramOps.

(** ** The HTTP routes of the two servers *)

Module Http.

Inductive Method := GET | POST | OPTIONS.

(** What [TerminalServer.handleRequest] writes. *)
Inductive TerminalReply :=
  | TOptions
  | TPage
  | TState (alerts : list Terminal.ArbitrageAlert)
           (marketsScanned activeOpps totalFound : Z) (bestProfit : num)
           (isScanning : bool) (lastUpdate : Z)
  | TAlerts (alerts : list Terminal.ArbitrageAlert)
  | TStats (stats : Terminal.ScannerStats)
  | TNotFound.

Definition alertProfit (a : Terminal.ArbitrageAlert) : num :=
  netProfitPercent (Terminal.opportunity a).

(** [TerminalServer.handleRequest]; [url] is [req.url]. *)
Definition terminalHandleRequest (st : Terminal.TerminalState)
    (method : Method) (url : option string) : TerminalReply :=
  let url := strOr url "/" in
  match method with
  | OPTIONS => TOptions
  | _ =>
      if String.eqb url "/" || String.eqb url "/index.html" then TPage
      else if String.eqb url "/api/state" then
        TState (take 50 (Terminal.alerts st))
          (Terminal.marketsScanned (Terminal.stats st))
          (Terminal.activeOpportunities (Terminal.stats st))
          (Terminal.totalOpportunitiesFound (Terminal.stats st))
          (if (0 <? length (Terminal.alerts st))%nat
           then Standalone.maxOf (map alertProfit (Terminal.alerts st))
           else Num 0)
          (Terminal.isScanning st) (Terminal.lastUpdate st)
      else if String.eqb url "/api/alerts" then TAlerts (Terminal.alerts st)
      else if String.eqb url "/api/stats" then TStats (Terminal.stats st)
      else TNotFound
  end.

(** What [PolyClaudeServer.handleRequest] writes. *)
Inductive ServerReply :=
  | SOptions
  | SPage
  | SState (alerts : list Opportunity) (stats : Standalone.ServerStats)
           (logs : list Standalone.LogEntry) (isScanning : bool)
           (nearMisses : list Standalone.NearMiss)
           (liveMarkets : list Standalone.LiveMarket)
  | SNotFound.

(** [PolyClaudeServer.handleRequest]. *)
Definition serverHandleRequest (srv : Standalone.PolyClaudeServer)
    (g : Standalone.Globals) (method : Method) (url : option string)
    : ServerReply :=
  let url := strOr url "/" in
  match method with
  | OPTIONS => SOptions
  | _ =>
      if String.eqb url "/" || String.eqb url "/index.html" then SPage
      else if String.eqb url "/api/state" then
        SState (take 50 (Standalone.alerts srv)) (Standalone.stats srv)
          (take 50 (Standalone.terminalLogs g)) (Standalone.isScanning srv)
          (take 20 (Standalone.nearMisses g))
          (take 15 (Standalone.liveMarkets g))
      else SNotFound
  end.

End Http.

(** ** The scan action (SCAN_INTRA_MARKET_ARB) *)

Module Action.

(** The options of a call: a key that is absent is [None]. *)
Record Options := {
  o_minProfitPercent : option num;
  o_maxRiskScore : option num;
  o_scanIntervalMs : option Z;
  o_minLiquidity : option (option num)
}.

Definition noOptions : Options :=
  {| o_minProfitPercent := None; o_maxRiskScore := None;
     o_scanIntervalMs := None; o_minLiquidity := None |}.

Definition orElse {A : Type} (o : option A) (d : A) : A :=
  match o with Some a => a | None => d end.

(** [{ ...base, ...options }]. *)
Definition mergeConfig (base : ScannerConfig) (options : Options) : ScannerConfig :=
  {| minProfitPercent := orElse (o_minProfitPercent options) (minProfitPercent base);
     maxRiskScore := orElse (o_maxRiskScore options) (maxRiskScore base);
     scanIntervalMs := orElse (o_scanIntervalMs options) (scanIntervalMs base);
     minLiquidity := orElse (o_minLiquidity options) (minLiquidity base) |}.

(** The content handed to the callback and returned. *)
Inductive Content :=
  | NoMarketsContent
  | NoOppsContent (marketsScanned : nat) (config : ScannerConfig)
  | ResponseContent (marketsScanned : nat) (opportunities : list Opportunity)
      (topOpportunity : option Opportunity) (shown : list Opportunity)
      (more : nat) (config : ScannerConfig)
  | ErrorContent.

(** The callback of a call: [true] when the promise it returns for a
    content resolves, [false] when it rejects. *)
Definition Callback : Type := Content -> bool.

(** What a call of the handler does: the contents handed to the
    callback, in order, and the content returned, [None] when the
    handler throws. *)
Record Reply := {
  offered : list Content;
  returned : option Content
}.

(** The first content a call produces: handed to the callback, or
    returned when there is no callback. *)
Definition firstContent (r : Reply) : option Content :=
  match offered r with
  | content :: _ => Some content
  | [] => returned r
  end.

Section WithBuiltins.
Context `{Builtins}.

(** [scanMarketForArbitrage] of the action: the body of its [try], and
    the function with its [catch]. *)
Definition scanMarketForArbitrageBody (w : Service.World) (m : Market)
    (config : ScannerConfig) : Service.outcome (option Opportunity) :=
  match tokens m with
  | Some (yesTok :: noTok :: _) =>
      match Service.getOrderBook w (token_id yesTok),
            Service.getOrderBook w (token_id noTok) with
      | Some yesBook, Some noBook =>
          match bestPrices yesBook noBook with
          | None => Service.Returned None
          | Some bp =>
              Service.Returned
                (assess false config m yesTok noTok bp
                   (sideLiquidity (asks yesBook)) (sideLiquidity (asks noBook))
                   (Service.clock w) (Service.uuidv4 w (condition_id m))
                   (Service.stamps w (condition_id m)))
          end
      | _, _ => Service.Returned None
      end
  | _ => Service.Thrown
  end.

Definition scanMarketForArbitrage (w : Service.World) (m : Market)
    (config : ScannerConfig) : option Opportunity :=
  match scanMarketForArbitrageBody w m config with
  | Service.Returned r => r
  | Service.Thrown => None
  end.

(** [handler].  [if (callback) await callback(content); return content]
    stands inside the [try]: a callback that rejects is caught like any
    other error, the error content goes to the callback and the error
    is thrown again. *)
Definition handler (w : Service.World) (options : Options)
    (callback : option Callback) : Reply :=
  let config := mergeConfig Service.DEFAULT_CONFIG options in
  let failed (before : list Content) :=
    {| offered := before ++ match callback with
                            | Some _ => [ErrorContent]
                            | None => []
                            end;
       returned := None |} in
  let deliver (content : Content) :=
    match callback with
    | None => {| offered := []; returned := Some content |}
    | Some cb =>
        if cb content
        then {| offered := [content]; returned := Some content |}
        else failed [content]
    end in
  match Service.getMarkets w with
  | None => failed []
  | Some [] => deliver NoMarketsContent
  | Some markets =>
      let activeMarkets :=
        filter (fun m => active m && negb (closed m) = true) markets in
      let batchSize := 10%nat in
      let opportunities :=
        flat_map (fun batch =>
                    omap (fun m => scanMarketForArbitrage w m config) batch)
                 (batches batchSize activeMarkets) in
      let opportunities := Service.sortByNetProfit opportunities in
      match opportunities with
      | [] => deliver (NoOppsContent (length activeMarkets) config)
      | _ =>
          deliver
            (ResponseContent (length activeMarkets) opportunities
               (head opportunities) (take 5 opportunities)
               (length opportunities - 5) config)
      end
  end.

End WithBuiltins.

End Action.

(** ** What an accepted opportunity satisfies *)

Module Accepted.

(** The relations between the fields of an opportunity accepted under
    the configuration [cfg] for the market [m].  The net figures are
    stated by the operations that produce them. *)
Definition wellFormed (cfg : ScannerConfig) (m : Market) (opp : Opportunity)
    : Prop :=
  let data := intraMarketData opp in
  status opp = Active
  /\ marketId (market opp) = condition_id m
  /\ conditionId (market opp) = condition_id m
  /\ arbDirection data <> NONE
  /\ nlt (grossProfitPercent opp) (minProfitPercent cfg) = false
  /\ 3 <= riskScore opp <= 10
  /\ ngt (of_Z (riskScore opp)) (maxRiskScore cfg) = false
  /\ riskLevel opp = Risk.getRiskLevel (riskScore opp)
  /\ confidenceScore opp
     = match riskLevel opp with
       | Risk.LOW => Num 0.95
       | Risk.MEDIUM => Num 0.8
       | _ => Num 0.6
       end
  /\ estimatedFees opp = Num 0.01
  /\ estimatedGas opp = Num 0.002
  /\ netProfitPercent opp
     = nsub (nsub (grossProfitPercent opp) (nmul (estimatedFees opp) (Num 100)))
            (nmul (estimatedGas opp) (Num 100))
  /\ netProfitAbsolute opp
     = nsub (nsub (grossProfitAbsolute opp) (estimatedFees opp))
            (estimatedGas opp)
  /\ breakeven opp = nadd (estimatedFees opp) (estimatedGas opp)
  /\ (arbDirection data = BUY_BOTH ->
        grossProfitAbsolute opp = buyBothProfit data
        /\ ngt (buyBothProfit data) (Num 0) = true)
  /\ (arbDirection data = SELL_BOTH ->
        grossProfitAbsolute opp = sellBothProfit data
        /\ ngt (sellBothProfit data) (Num 0) = true
        /\ ngt (buyBothProfit data) (Num 0) = false)
  /\ buyBothProfit data = nsub (Num 1) (combinedAsk data)
  /\ sellBothProfit data = nsub (combinedBid data) (Num 1)
  /\ combinedAsk data = nadd (bestAsk (yesToken data)) (bestAsk (noToken data))
  /\ combinedBid data = nadd (bestBid (yesToken data)) (bestBid (noToken data))
  /\ truthy (bestAsk (yesToken data)) = true
  /\ truthy (bestBid (yesToken data)) = true
  /\ truthy (bestAsk (noToken data)) = true
  /\ truthy (bestBid (noToken data)) = true
  /\ nle (recommendedSize opp) (Num 1000) = true.

End Accepted.

(** ** What scanning never changes in the service *)

Module ServiceInvariants.

Import Service.

(** [svc'] is [svc] after some scanning: the configuration, the start
    time and the captured profit are the same, the two counters have
    not decreased, the terminal server and the bot are present as
    before, the terminal server keeps its configuration and an alert log
    of at most 100 records, and the bot keeps its configuration and its
    cooldown window and forgets no notification. *)
Definition evolves (svc svc' : PolyClaudeService) : Prop :=
  config svc' = config svc
  /\ Terminal.uptime (stats svc') = Terminal.uptime (stats svc)
  /\ Terminal.totalProfitCaptured (stats svc')
     = Terminal.totalProfitCaptured (stats svc)
  /\ Terminal.totalScans (stats svc) <= Terminal.totalScans (stats svc')
  /\ Terminal.totalOpportunitiesFound (stats svc)
     <= Terminal.totalOpportunitiesFound (stats svc')
  /\ match terminalServer svc, terminalServer svc' with
     | Some t, Some t' =>
         Terminal.config t' = Terminal.config t
         /\ ((length (Terminal.alerts t) <= 100)%nat ->
             (length (Terminal.alerts t') <= 100)%nat)
     | None, None => True
     | _, _ => False
     end
  /\ match telegramBot svc, telegramBot svc' with
     | Some b, Some b' =>
         Telegram.config b' = Telegram.config b
         /\ Telegram.cooldownMs b' = Telegram.cooldownMs b
         /\ dom (Telegram.lastAlertTime b) ⊆ dom (Telegram.lastAlertTime b')
     | None, None => True
     | _, _ => False
     end.

End ServiceInvariants.

(** * Properties *)

(** ** Facts about the number model *)

Module JsNumFacts.

Lemma Qlt_bool_iff (x y : Q) : Qlt_bool x y = true <-> (x < y)%Q.
Proof.
  unfold Qlt_bool. rewrite negb_true_iff. split.
  - intros Hb. apply Qnot_le_lt. intros Hle.
    apply Qle_bool_iff in Hle. congruence.
  - intros Hlt. destruct (Qle_bool y x) eqn:E; [|reflexivity].
    apply Qle_bool_iff in E. exfalso. exact (Qlt_not_le _ _ Hlt E).
Qed.

Lemma nlt_Num (x y : Q) : nlt (Num x) (Num y) = true <-> (x < y)%Q.
Proof. apply Qlt_bool_iff. Qed.

Lemma nle_Num (x y : Q) : nle (Num x) (Num y) = true <-> (x <= y)%Q.
Proof. apply Qle_bool_iff. Qed.

Lemma nle_nlt_trans (a b c : num) :
  nle a b = true -> nlt b c = true -> nlt a c = true.
Proof.
  destruct a as [|x], b as [|y], c as [|z]; simpl; try discriminate.
  rewrite Qle_bool_iff, !Qlt_bool_iff. apply Qle_lt_trans.
Qed.

Lemma nlt_nle_trans (a b c : num) :
  nlt a b = true -> nle b c = true -> nlt a c = true.
Proof.
  destruct a as [|x], b as [|y], c as [|z]; simpl; try discriminate.
  rewrite Qle_bool_iff, !Qlt_bool_iff. apply Qlt_le_trans.
Qed.

Lemma num_eq_refl (a : num) : num_eq a a.
Proof. destruct a; simpl; [exact I | reflexivity]. Qed.

Lemma nlt_num_eq_false (a b : num) : num_eq a b -> nlt a b = false.
Proof.
  destruct a as [|x], b as [|y]; simpl; try tauto.
  intros Heq. apply not_true_is_false. rewrite Qlt_bool_iff.
  rewrite Heq. apply Qlt_irrefl.
Qed.

Lemma falsy_zero (q : Q) : (q == 0)%Q -> falsy (Some (Num q)) = true.
Proof.
  intros Hq. simpl. apply Qeq_eq_bool in Hq. rewrite Hq. reflexivity.
Qed.

Lemma nlt_nle (a b : num) : nlt a b = true -> nle a b = true.
Proof.
  destruct a as [|x], b as [|y]; simpl; try discriminate.
  rewrite Qlt_bool_iff, Qle_bool_iff. apply Qlt_le_weak.
Qed.

Lemma nle_trans (a b c : num) :
  nle a b = true -> nle b c = true -> nle a c = true.
Proof.
  destruct a as [|x], b as [|y], c as [|z]; simpl; try discriminate.
  rewrite !Qle_bool_iff. apply Qle_trans.
Qed.

Lemma nlt_false_nle (a b : num) :
  a <> NaN -> b <> NaN -> nlt b a = false -> nle a b = true.
Proof.
  destruct a as [|x], b as [|y]; simpl; try congruence.
  intros _ _ Hlt. apply Qle_bool_iff. apply Qnot_lt_le.
  intros Hyx. apply Qlt_bool_iff in Hyx. congruence.
Qed.

End JsNumFacts.

(** ** The risk scorer *)

Module RiskFacts.

Import Risk JsNumFacts.

Ltac case_checks :=
  repeat match goal with
         | |- context [if ?b then _ else _] => destruct b eqn:?
         end.

(** The score is three plus the penalties: the cap at 10 is never the
    smaller side strictly. *)
Lemma score_penalties (p l s d : num) :
  score (calculateRiskScore p l s d) = 3 + penalties p l s d.
Proof.
  unfold calculateRiskScore, penalties, liquidityPenalty, spreadPenalty,
    expiryPenalty, marginPenalty.
  case_checks; simpl; lia.
Qed.

(** C2.  For all inputs the scorer returns [min (3 + p) 10], where [p]
    is the sum of the four penalties of the table; the factor tags are
    the triggered tags in check order; the score never exceeds 10, the
    sum of the worst penalties being 2+2+2+1 = 7, and an input that
    triggers all four worst penalties scores exactly 10. *)
Theorem calculateRiskScore_table (profitPercent liquidity spread daysToExpiry : num) :
  let r := calculateRiskScore profitPercent liquidity spread daysToExpiry in
  let p := penalties profitPercent liquidity spread daysToExpiry in
  score r = Z.min (3 + p) 10
  /\ factors r = liquidityTags liquidity ++ spreadTags spread
                 ++ expiryTags daysToExpiry ++ marginTags profitPercent
  /\ 3 <= score r <= 10
  /\ p <= 2 + 2 + 2 + 1
  /\ 3 + (2 + 2 + 2 + 1) = 10
  /\ (liquidityPenalty liquidity = 2 /\ spreadPenalty spread = 2
      /\ expiryPenalty daysToExpiry = 2 /\ marginPenalty profitPercent = 1
      -> score r = 10)
  /\ score (calculateRiskScore (Num 0) (Num 0) (Num 1) (Num 0)) = 10.
Proof.
  cbv zeta.
  repeat match goal with |- _ /\ _ => split end;
    try (vm_compute; reflexivity);
    unfold calculateRiskScore, penalties, liquidityPenalty, spreadPenalty,
      expiryPenalty, marginPenalty, liquidityTags, spreadTags, expiryTags,
      marginTags;
    case_checks; simpl; try reflexivity; try lia;
    intros (? & ? & ? & ?); lia.
Qed.

(** C2 at an input that triggers the four worst penalties: profit 0.5%,
    liquidity 100, spread 0.1, half a day to expiry. *)
Lemma calculateRiskScore_table_witness :
  score (calculateRiskScore (Num 0.5) (Num 100) (Num 0.1) (Num 0.5)) = 10
  /\ factors (calculateRiskScore (Num 0.5) (Num 100) (Num 0.1) (Num 0.5))
     = ["low_liquidity"; "wide_spread"; "expiring_soon"; "thin_margin"]%string.
Proof.
  destruct (calculateRiskScore_table (Num 0.5) (Num 100) (Num 0.1) (Num 0.5))
    as (_ & Hf & _ & _ & _ & Hworst & _).
  split.
  - apply Hworst. repeat split; reflexivity.
  - rewrite Hf. reflexivity.
Defined.

Lemma liquidityPenalty_mono (l l' : num) :
  nle l' l = true -> liquidityPenalty l <= liquidityPenalty l'.
Proof.
  intros Hle. unfold liquidityPenalty.
  destruct (nlt l (Num 500)) eqn:E1.
  - rewrite (nle_nlt_trans _ _ _ Hle E1). lia.
  - destruct (nlt l (Num 1000)) eqn:E2.
    + rewrite (nle_nlt_trans _ _ _ Hle E2). destruct (nlt l' (Num 500)); lia.
    + destruct (nlt l' (Num 500)); [lia|]. destruct (nlt l' (Num 1000)); lia.
Qed.

Lemma spreadPenalty_mono (s s' : num) :
  nle s s' = true -> spreadPenalty s <= spreadPenalty s'.
Proof.
  intros Hle. unfold spreadPenalty, ngt.
  destruct (nlt (Num 0.05) s) eqn:E1.
  - rewrite (nlt_nle_trans _ _ _ E1 Hle). lia.
  - destruct (nlt (Num 0.02) s) eqn:E2.
    + rewrite (nlt_nle_trans _ _ _ E2 Hle). destruct (nlt (Num 0.05) s'); lia.
    + destruct (nlt (Num 0.05) s'); [lia|]. destruct (nlt (Num 0.02) s'); lia.
Qed.

Lemma expiryPenalty_mono (d d' : num) :
  nle d' d = true -> expiryPenalty d <= expiryPenalty d'.
Proof.
  intros Hle. unfold expiryPenalty.
  destruct (nlt d (Num 1)) eqn:E1.
  - rewrite (nle_nlt_trans _ _ _ Hle E1). lia.
  - destruct (nlt d (Num 7)) eqn:E2.
    + rewrite (nle_nlt_trans _ _ _ Hle E2). destruct (nlt d' (Num 1)); lia.
    + destruct (nlt d' (Num 1)); [lia|]. destruct (nlt d' (Num 7)); lia.
Qed.

Lemma marginPenalty_mono (p p' : num) :
  nle p' p = true -> marginPenalty p <= marginPenalty p'.
Proof.
  intros Hle. unfold marginPenalty.
  destruct (nlt p (Num 1)) eqn:E1.
  - rewrite (nle_nlt_trans _ _ _ Hle E1). lia.
  - destruct (nlt p' (Num 1)); lia.
Qed.

(** C8.  The scorer is monotonic in each argument separately: with the
    other three inputs fixed, a smaller liquidity, a larger spread, a
    smaller time to expiry or a smaller profit never gives a smaller
    score. *)
Theorem calculateRiskScore_monotone :
  (forall p l s d l', nle l' l = true ->
     score (calculateRiskScore p l s d) <= score (calculateRiskScore p l' s d))
  /\ (forall p l s d s', nle s s' = true ->
     score (calculateRiskScore p l s d) <= score (calculateRiskScore p l s' d))
  /\ (forall p l s d d', nle d' d = true ->
     score (calculateRiskScore p l s d) <= score (calculateRiskScore p l s d'))
  /\ (forall p l s d p', nle p' p = true ->
     score (calculateRiskScore p l s d) <= score (calculateRiskScore p' l s d)).
Proof.
  repeat split; intros p l s d x Hle; rewrite !score_penalties; unfold penalties.
  - pose proof (liquidityPenalty_mono _ _ Hle). lia.
  - pose proof (spreadPenalty_mono _ _ Hle). lia.
  - pose proof (expiryPenalty_mono _ _ Hle). lia.
  - pose proof (marginPenalty_mono _ _ Hle). lia.
Qed.

(** The four directions at concrete inputs: liquidity 1200 down to 400,
    spread 0.01 up to 0.06, expiry 10 days down to half a day, profit 2%
    down to 0.5%. *)
Lemma calculateRiskScore_monotone_witness :
  score (calculateRiskScore (Num 2) (Num 1200) (Num 0.01) (Num 10))
    <= score (calculateRiskScore (Num 2) (Num 400) (Num 0.01) (Num 10))
  /\ score (calculateRiskScore (Num 2) (Num 1200) (Num 0.01) (Num 10))
    <= score (calculateRiskScore (Num 2) (Num 1200) (Num 0.06) (Num 10))
  /\ score (calculateRiskScore (Num 2) (Num 1200) (Num 0.01) (Num 10))
    <= score (calculateRiskScore (Num 2) (Num 1200) (Num 0.01) (Num 0.5))
  /\ score (calculateRiskScore (Num 2) (Num 1200) (Num 0.01) (Num 10))
    <= score (calculateRiskScore (Num 0.5) (Num 1200) (Num 0.01) (Num 10)).
Proof.
  destruct calculateRiskScore_monotone as (Hl & Hs & Hd & Hp).
  repeat split.
  - apply Hl. reflexivity.
  - apply Hs. reflexivity.
  - apply Hd. reflexivity.
  - apply Hp. reflexivity.
Defined.

End RiskFacts.

(** ** The per-market scanner of the service *)

Module ScannerFacts.

Import Service SpecWords JsNumFacts.

(** The two worked examples of the pricing step, in exact arithmetic. *)
Lemma pricing_example_buy :
  let pr := pricing (Num 0.40) (Num 0.38) (Num 0.55) (Num 0.53) in
  num_eq (p_combinedAsk pr) (Num 0.95)
  /\ num_eq (p_buyBothProfit pr) (Num 0.05)
  /\ p_arbDirection pr = BUY_BOTH
  /\ num_eq (p_grossProfitPercent pr) (Num (100 # 19))
  /\ approx3 (p_grossProfitPercent pr) 5.263.
Proof. vm_compute. repeat split; discriminate. Qed.

Lemma pricing_example_sell :
  let pr := pricing (Num 0.60) (Num 0.58) (Num 0.60) (Num 0.58) in
  num_eq (p_combinedAsk pr) (Num 1.20)
  /\ num_eq (p_combinedBid pr) (Num 1.16)
  /\ num_eq (p_buyBothProfit pr) (Num (-0.20))
  /\ ngt (p_buyBothProfit pr) (Num 0) = false
  /\ num_eq (p_sellBothProfit pr) (Num 0.16)
  /\ p_arbDirection pr = SELL_BOTH
  /\ num_eq (p_grossProfitPercent pr) (Num 16).
Proof. vm_compute. repeat split; discriminate. Qed.

(** The two worked examples in the arithmetic of the code. *)
Lemma binary64_example_buy :
  let pr := Binary64.pricing 0.40 0.38 0.55 0.53 in
  Binary64.p_arbDirection pr = BUY_BOTH
  /\ Binary64.p_grossProfitPercent pr = 5.2631578947368345%float
  /\ Binary64.within 0.0005 (Binary64.p_grossProfitPercent pr) 5.263 = true.
Proof. vm_compute. repeat split. Qed.

Lemma binary64_example_sell :
  let pr := Binary64.pricing 0.60 0.58 0.60 0.58 in
  Binary64.p_arbDirection pr = SELL_BOTH
  /\ Binary64.p_grossProfitPercent pr = 15.999999999999993%float
  /\ Binary64.within 0.0005 (Binary64.p_grossProfitPercent pr) 16 = true.
Proof. vm_compute. repeat split. Qed.

(** The second worked example as the specification words it: with
    bids 0.58 and 0.58 the code picks SELL_BOTH, but the gross profit
    percent it computes, ((0.58 + 0.58) - 1) / 1 * 100 in binary64, is
    15.999999999999993 and not 16. *)
Lemma sell_example_gross_is_not_16 :
  ~ (Binary64.p_arbDirection (Binary64.pricing 0.60 0.58 0.60 0.58) = SELL_BOTH
     /\ Binary64.p_grossProfitPercent (Binary64.pricing 0.60 0.58 0.60 0.58)
        = 16%float).
Proof.
  intros [_ Hgross].
  discriminate (f_equal (fun x => PrimFloat.eqb x 16) Hgross).
Qed.

Section WithBuiltins.
Context `{Builtins}.

(** With two tokens, both books and four truthy best prices the scanner
    is the shared tail [assess]. *)
Lemma scanMarket_analyzable (w : World) (cfg : ScannerConfig) (m : Market)
    (yesTok noTok : Token) (rest : list Token) (yesBook noBook : OrderBook)
    (bp : BestPrices) :
  tokens m = Some (yesTok :: noTok :: rest) ->
  getOrderBook w (token_id yesTok) = Some yesBook ->
  getOrderBook w (token_id noTok) = Some noBook ->
  bestPrices yesBook noBook = Some bp ->
  scanMarket w cfg m
  = assess false cfg m yesTok noTok bp
      (sideLiquidity (asks yesBook)) (sideLiquidity (asks noBook))
      (clock w) (uuidv4 w (condition_id m)) (stamps w (condition_id m)).
Proof.
  intros Ht Hy Hn Hb. unfold scanMarket, scanMarketBody.
  rewrite Ht, Hy, Hn, Hb. reflexivity.
Qed.

(** The three rejection points of [assess]. *)
Lemma assess_None (standalone : bool) (cfg : ScannerConfig) (m : Market)
    (yesTok noTok : Token) (bp : BestPrices) (yl nl : num) (now : Z)
    (uuid : string) (stamps : Z * Z) :
  let pr := pricing (yesBestAsk bp) (yesBestBid bp) (noBestAsk bp) (noBestBid bp) in
  let minLiq := nmin yl nl in
  let risk := Risk.score (Risk.calculateRiskScore (p_grossProfitPercent pr) minLiq
                            (avgSpread bp) (daysToExpiry m now)) in
  assess standalone cfg m yesTok noTok bp yl nl now uuid stamps = None
  <-> (dir_eqb (p_arbDirection pr) NONE
       || nlt (p_grossProfitPercent pr) (minProfitPercent cfg) = true)
      \/ belowMinLiquidity cfg minLiq = true
      \/ ngt (of_Z risk) (maxRiskScore cfg) = true.
Proof.
  cbv zeta. unfold assess.
  destruct (dir_eqb _ NONE || nlt _ (minProfitPercent cfg)) eqn:E1.
  { split; auto. }
  destruct (belowMinLiquidity cfg _) eqn:E2.
  { split; auto. }
  destruct (ngt _ (maxRiskScore cfg)) eqn:E3.
  { split; auto. }
  split; [discriminate|]. intros [?|[?|?]]; discriminate.
Qed.

(** What an accepted opportunity records is the pricing of the four
    best prices. *)
Lemma assess_Some_pricing (standalone : bool) (cfg : ScannerConfig) (m : Market)
    (yesTok noTok : Token) (bp : BestPrices) (yl nl : num) (now : Z)
    (uuid : string) (stamps : Z * Z) (opp : Opportunity) :
  assess standalone cfg m yesTok noTok bp yl nl now uuid stamps = Some opp ->
  let pr := pricing (yesBestAsk bp) (yesBestBid bp) (noBestAsk bp) (noBestBid bp) in
  combinedAsk (intraMarketData opp) = p_combinedAsk pr
  /\ combinedBid (intraMarketData opp) = p_combinedBid pr
  /\ arbDirection (intraMarketData opp) = p_arbDirection pr
  /\ grossProfitPercent opp = p_grossProfitPercent pr.
Proof.
  unfold assess.
  destruct (dir_eqb _ NONE || nlt _ (minProfitPercent cfg)); [discriminate|].
  destruct (belowMinLiquidity cfg _); [discriminate|].
  destruct (ngt _ (maxRiskScore cfg)); [discriminate|].
  intros [= <-]. cbv zeta. simpl. auto.
Qed.

Lemma dir_eqb_NONE (d : ArbDirection) : dir_eqb d NONE = true <-> d = NONE.
Proof. destruct d; simpl; split; congruence. Qed.

(** C1, amended.  The pricing step computes the two combined prices,
    picks BUY_BOTH with gross profit (1 - combinedAsk) / combinedAsk *
    100 when 1 - combinedAsk > 0, else SELL_BOTH with gross profit
    (combinedBid - 1) * 100 when combinedBid - 1 > 0, else NONE, in the
    exact model and in the binary64 arithmetic of the code alike; every
    opportunity the scanner returns for a market whose books yield the
    four best prices records exactly this pricing; and for each of the
    two worked examples the scanner does return an opportunity, of
    direction BUY_BOTH with a gross profit of about 5.263 percent and of
    direction SELL_BOTH with a gross profit of about 16 percent, which
    the code computes as 5.2631578947368345 and 15.999999999999993. *)
Theorem pricing_direction_and_profit :
  (forall ya yb na nb : num,
     let pr := pricing ya yb na nb in
     let cA := nadd ya na in
     let cB := nadd yb nb in
     p_combinedAsk pr = cA
     /\ p_combinedBid pr = cB
     /\ (ngt (nsub (Num 1) cA) (Num 0) = true ->
           p_arbDirection pr = BUY_BOTH
           /\ p_grossProfitPercent pr
              = nmul (ndiv (nsub (Num 1) cA) cA) (Num 100))
     /\ (ngt (nsub (Num 1) cA) (Num 0) = false ->
         ngt (nsub cB (Num 1)) (Num 0) = true ->
           p_arbDirection pr = SELL_BOTH
           /\ p_grossProfitPercent pr
              = nmul (ndiv (nsub cB (Num 1)) (Num 1)) (Num 100)
           /\ num_eq (p_grossProfitPercent pr) (nmul (nsub cB (Num 1)) (Num 100)))
     /\ (ngt (nsub (Num 1) cA) (Num 0) = false ->
         ngt (nsub cB (Num 1)) (Num 0) = false ->
           p_arbDirection pr = NONE))
  /\ (forall ya yb na nb : float,
        let pr := Binary64.pricing ya yb na nb in
        let cA := (ya + na)%float in
        let cB := (yb + nb)%float in
        Binary64.p_combinedAsk pr = cA
        /\ Binary64.p_combinedBid pr = cB
        /\ ((0 <? 1 - cA)%float = true ->
              Binary64.p_arbDirection pr = BUY_BOTH
              /\ Binary64.p_grossProfitPercent pr
                 = ((1 - cA) / cA * 100)%float)
        /\ ((0 <? 1 - cA)%float = false ->
            (0 <? cB - 1)%float = true ->
              Binary64.p_arbDirection pr = SELL_BOTH
              /\ Binary64.p_grossProfitPercent pr
                 = ((cB - 1) / 1 * 100)%float)
        /\ ((0 <? 1 - cA)%float = false ->
            (0 <? cB - 1)%float = false ->
              Binary64.p_arbDirection pr = NONE))
  /\ (forall (w : World) (cfg : ScannerConfig) (m : Market)
        (yesTok noTok : Token) (rest : list Token)
        (yesBook noBook : OrderBook) (bp : BestPrices) (opp : Opportunity),
        tokens m = Some (yesTok :: noTok :: rest) ->
        getOrderBook w (token_id yesTok) = Some yesBook ->
        getOrderBook w (token_id noTok) = Some noBook ->
        bestPrices yesBook noBook = Some bp ->
        scanMarket w cfg m = Some opp ->
        let pr := pricing (yesBestAsk bp) (yesBestBid bp)
                          (noBestAsk bp) (noBestBid bp) in
        combinedAsk (intraMarketData opp) = p_combinedAsk pr
        /\ combinedBid (intraMarketData opp) = p_combinedBid pr
        /\ arbDirection (intraMarketData opp) = p_arbDirection pr
        /\ grossProfitPercent opp = p_grossProfitPercent pr)
  /\ (let pr := pricing (Num 0.40) (Num 0.38) (Num 0.55) (Num 0.53) in
      p_arbDirection pr = BUY_BOTH /\ approx3 (p_grossProfitPercent pr) 5.263)
  /\ (let pr := pricing (Num 0.60) (Num 0.58) (Num 0.60) (Num 0.58) in
      p_arbDirection pr = SELL_BOTH /\ approx3 (p_grossProfitPercent pr) 16)
  /\ (let pr := Binary64.pricing 0.40 0.38 0.55 0.53 in
      Binary64.p_arbDirection pr = BUY_BOTH
      /\ Binary64.p_grossProfitPercent pr = 5.2631578947368345%float
      /\ Binary64.within 0.0005 (Binary64.p_grossProfitPercent pr) 5.263 = true)
  /\ (let pr := Binary64.pricing 0.60 0.58 0.60 0.58 in
      Binary64.p_arbDirection pr = SELL_BOTH
      /\ Binary64.p_grossProfitPercent pr = 15.999999999999993%float
      /\ Binary64.within 0.0005 (Binary64.p_grossProfitPercent pr) 16 = true)
  /\ (exists opp,
        @scanMarket Samples.sampleBuiltins
          (Samples.serviceWorld [] (Samples.quotes "0.40" "0.38" "0.55" "0.53"))
          DEFAULT_CONFIG Samples.sampleMarket = Some opp
        /\ arbDirection (intraMarketData opp) = BUY_BOTH
        /\ approx3 (grossProfitPercent opp) 5.263)
  /\ (exists opp,
        @scanMarket Samples.sampleBuiltins
          (Samples.serviceWorld [] (Samples.quotes "0.60" "0.58" "0.60" "0.58"))
          DEFAULT_CONFIG Samples.sampleMarket = Some opp
        /\ arbDirection (intraMarketData opp) = SELL_BOTH
        /\ approx3 (grossProfitPercent opp) 16).
Proof.
  split; [|split; [|split; [|split; [|split; [|split; [|split; [|split]]]]]]].
  - intros ya yb na nb. cbv zeta. unfold pricing.
    destruct (ngt (nsub (Num 1) (nadd ya na)) (Num 0)) eqn:E1;
      [|destruct (ngt (nsub (nadd yb nb) (Num 1)) (Num 0)) eqn:E2];
      simpl; repeat split; try congruence.
    destruct (nadd yb nb) as [|cB]; [discriminate|].
    simpl. apply Qmult_comp; [|reflexivity].
    unfold Qdiv. change (/ 1)%Q with 1%Q. apply Qmult_1_r.
  - intros ya yb na nb. cbv zeta. unfold Binary64.pricing.
    destruct (0 <? 1 - (ya + na))%float eqn:E1;
      [|destruct (0 <? yb + nb - 1)%float eqn:E2];
      cbn [Binary64.p_combinedAsk Binary64.p_combinedBid
           Binary64.p_arbDirection Binary64.p_grossProfitPercent];
      repeat split; congruence.
  - intros w cfg m yesTok noTok rest yesBook noBook bp opp Ht Hy Hn Hb Hs.
    rewrite (scanMarket_analyzable _ _ _ _ _ _ _ _ _ Ht Hy Hn Hb) in Hs.
    exact (assess_Some_pricing _ _ _ _ _ _ _ _ _ _ _ _ Hs).
  - destruct pricing_example_buy as (_ & _ & Hd & _ & Ha). split; assumption.
  - destruct pricing_example_sell as (_ & _ & _ & _ & _ & Hd & _).
    split; [exact Hd|]. vm_compute. split; reflexivity.
  - exact binary64_example_buy.
  - exact binary64_example_sell.
  - eexists. split; [vm_compute; reflexivity|].
    split; [reflexivity|]. vm_compute. split; reflexivity.
  - eexists. split; [vm_compute; reflexivity|].
    split; [reflexivity|]. vm_compute. split; reflexivity.
Qed.

Lemma sideMissing_bestPrice (side : option (list Level)) :
  sideMissing side -> bestPrice side = None.
Proof.
  unfold sideMissing, bestPrice, headPrice.
  destruct side as [[|l rest]|]; try reflexivity.
  intros [-> | ->]; reflexivity.
Qed.

Lemma zeroPriced_falsy (side : option (list Level)) :
  zeroPriced side -> falsy (bestPrice side) = true.
Proof.
  intros (l & rest & s & q & -> & Hp & Hs & Hq & Hz).
  unfold bestPrice, headPrice. rewrite Hp.
  destruct (String.eqb s "") eqn:E.
  - reflexivity.
  - rewrite Hq. apply falsy_zero. exact Hz.
Qed.

Lemma bestPrices_None (yesBook noBook : OrderBook) :
  falsy (bestPrice (asks yesBook)) = true
  \/ falsy (bestPrice (bids yesBook)) = true
  \/ falsy (bestPrice (asks noBook)) = true
  \/ falsy (bestPrice (bids noBook)) = true ->
  bestPrices yesBook noBook = None.
Proof.
  intros Hf. unfold bestPrices.
  destruct (falsy (bestPrice (asks yesBook)) || falsy (bestPrice (bids yesBook))
            || falsy (bestPrice (asks noBook)) || falsy (bestPrice (bids noBook)))
    eqn:E; [reflexivity|].
  rewrite !orb_false_iff in E. destruct E as (((E1 & E2) & E3) & E4).
  destruct Hf as [Hf|[Hf|[Hf|Hf]]]; congruence.
Qed.

(** C3.  The profit threshold is inclusive at equality.  For an
    analyzable market with a direction other than NONE: a gross profit
    below [minProfitPercent] is rejected; a gross profit not below it is
    rejected only by the later liquidity or risk checks; a gross profit
    equal to the threshold is not below it; and a gross profit any
    positive epsilon under the threshold is rejected. *)
Theorem profit_threshold_inclusive (w : World) (cfg : ScannerConfig)
    (m : Market) (yesTok noTok : Token) (rest : list Token)
    (yesBook noBook : OrderBook) (bp : BestPrices) :
  tokens m = Some (yesTok :: noTok :: rest) ->
  getOrderBook w (token_id yesTok) = Some yesBook ->
  getOrderBook w (token_id noTok) = Some noBook ->
  bestPrices yesBook noBook = Some bp ->
  let pr := pricing (yesBestAsk bp) (yesBestBid bp) (noBestAsk bp) (noBestBid bp) in
  let gross := p_grossProfitPercent pr in
  let minLiq := nmin (sideLiquidity (asks yesBook)) (sideLiquidity (asks noBook)) in
  let risk := Risk.score (Risk.calculateRiskScore gross minLiq (avgSpread bp)
                            (daysToExpiry m (clock w))) in
  p_arbDirection pr <> NONE ->
  (nlt gross (minProfitPercent cfg) = true -> scanMarket w cfg m = None)
  /\ (nlt gross (minProfitPercent cfg) = false ->
      (scanMarket w cfg m = None
       <-> belowMinLiquidity cfg minLiq = true
           \/ ngt (of_Z risk) (maxRiskScore cfg) = true))
  /\ (num_eq gross (minProfitPercent cfg) ->
      nlt gross (minProfitPercent cfg) = false)
  /\ (forall threshold eps : Q,
        minProfitPercent cfg = Num threshold -> (0 < eps)%Q ->
        num_eq gross (Num (threshold - eps)) ->
        scanMarket w cfg m = None).
Proof.
  intros Ht Hy Hn Hb. cbv zeta. intros Hdir.
  rewrite (scanMarket_analyzable _ cfg _ _ _ _ _ _ _ Ht Hy Hn Hb).
  pose proof (assess_None false cfg m yesTok noTok bp
                (sideLiquidity (asks yesBook)) (sideLiquidity (asks noBook))
                (clock w) (uuidv4 w (condition_id m))) as Hnone.
  cbv zeta in Hnone.
  assert (Hd : dir_eqb (p_arbDirection (pricing (yesBestAsk bp) (yesBestBid bp)
                          (noBestAsk bp) (noBestBid bp))) NONE = false).
  { apply not_true_is_false. rewrite dir_eqb_NONE. exact Hdir. }
  rewrite Hd in Hnone. simpl orb in Hnone.
  split; [|split; [|split]].
  - intros Hlt. apply Hnone. left. exact Hlt.
  - intros Hge. rewrite Hnone, Hge. split.
    + intros [Hf|Hr]; [discriminate|exact Hr].
    + intros Hr. right. exact Hr.
  - apply nlt_num_eq_false.
  - intros threshold eps Hmin Heps Heq. apply Hnone. left. rewrite Hmin.
    destruct (p_grossProfitPercent _) as [|g]; [contradiction|].
    simpl in Heq. apply nlt_Num. rewrite Heq.
    rewrite <- (Qplus_0_r threshold) at 2. unfold Qminus.
    apply Qplus_lt_r. apply (Qplus_lt_l _ _ eps). ring_simplify. exact Heps.
Qed.

(** C9.  If either token's snapshot is incomplete (the fetch failed, or
    the best bid or the best ask is missing) the scanner returns no
    opportunity: the body of its [try] returns [null] without throwing,
    whatever the configuration. *)
Theorem incomplete_snapshot_rejected (w : World) (cfg : ScannerConfig)
    (m : Market) (yesTok noTok : Token) (rest : list Token) :
  tokens m = Some (yesTok :: noTok :: rest) ->
  snapshotIncomplete (getOrderBook w (token_id yesTok))
  \/ snapshotIncomplete (getOrderBook w (token_id noTok)) ->
  scanMarketBody w cfg m = Returned None /\ scanMarket w cfg m = None.
Proof.
  intros Ht Hinc.
  assert (Hbody : scanMarketBody w cfg m = Returned None).
  { unfold scanMarketBody. rewrite Ht.
    destruct (getOrderBook w (token_id yesTok)) as [yesBook|];
      [|reflexivity].
    destruct (getOrderBook w (token_id noTok)) as [noBook|];
      [|reflexivity].
    rewrite bestPrices_None; [reflexivity|].
    simpl in Hinc.
    destruct Hinc as [[Hm|Hm]|[Hm|Hm]];
      apply sideMissing_bestPrice in Hm; rewrite Hm; simpl; auto. }
  split; [exact Hbody|]. unfold scanMarket. rewrite Hbody. reflexivity.
Qed.

(** C10.  A best bid or best ask whose price parses to exactly zero is
    treated as a missing side: the guard on the four best prices fires,
    the service's scanner and the serverless analysis return nothing,
    and the standalone scanner returns nothing and leaves the near-miss
    and live-market lists as they were. *)
Theorem zero_price_unusable (yesBook noBook : OrderBook) :
  zeroPriced (asks yesBook) \/ zeroPriced (bids yesBook)
  \/ zeroPriced (asks noBook) \/ zeroPriced (bids noBook) ->
  bestPrices yesBook noBook = None
  /\ (forall (w : World) (cfg : ScannerConfig) (m : Market)
        (yesTok noTok : Token) (rest : list Token),
        tokens m = Some (yesTok :: noTok :: rest) ->
        getOrderBook w (token_id yesTok) = Some yesBook ->
        getOrderBook w (token_id noTok) = Some noBook ->
        scanMarket w cfg m = None)
  /\ (forall (w : Serverless.World) (m : Market)
        (yesTok noTok : Token) (rest : list Token),
        tokens m = Some (yesTok :: noTok :: rest) ->
        Serverless.fetchOrderBook w (token_id yesTok) = Some yesBook ->
        Serverless.fetchOrderBook w (token_id noTok) = Some noBook ->
        Serverless.analyzeMarket w m = None)
  /\ (forall (w : Standalone.World) (g : Standalone.Globals)
        (cfg : ScannerConfig) (m : Market)
        (yesTok noTok : Token) (rest : list Token),
        tokens m = Some (yesTok :: noTok :: rest) ->
        Standalone.fetchOrderBook w (token_id yesTok) = Some yesBook ->
        Standalone.fetchOrderBook w (token_id noTok) = Some noBook ->
        Standalone.scanMarketForArbitrage w g m cfg = (None, g)).
Proof.
  intros Hz.
  assert (Hb : bestPrices yesBook noBook = None).
  { apply bestPrices_None.
    destruct Hz as [Hz|[Hz|[Hz|Hz]]]; apply zeroPriced_falsy in Hz; auto. }
  split; [exact Hb|]. split; [|split].
  - intros w cfg m yesTok noTok rest Ht Hy Hn.
    unfold scanMarket, scanMarketBody. rewrite Ht, Hy, Hn, Hb. reflexivity.
  - intros w m yesTok noTok rest Ht Hy Hn.
    unfold Serverless.analyzeMarket. rewrite Ht, Hy, Hn, Hb. reflexivity.
  - intros w g cfg m yesTok noTok rest Ht Hy Hn.
    unfold Standalone.scanMarketForArbitrage. rewrite Ht, Hy, Hn, Hb. reflexivity.
Qed.

End WithBuiltins.

Import Samples.

(** C1 at the worked examples: the pricing of the first one, the
    opportunity the scanner returns for a market quoting it, which
    records that pricing, and the pricing of the second one in
    binary64. *)
Lemma pricing_direction_and_profit_witness :
  (p_arbDirection (pricing (Num 0.40) (Num 0.38) (Num 0.55) (Num 0.53)) = BUY_BOTH
   /\ p_grossProfitPercent (pricing (Num 0.40) (Num 0.38) (Num 0.55) (Num 0.53))
      = nmul (ndiv (nsub (Num 1) (nadd (Num 0.40) (Num 0.55)))
                   (nadd (Num 0.40) (Num 0.55))) (Num 100))
  /\ (exists opp,
        @scanMarket sampleBuiltins
          (serviceWorld [] (quotes "0.40" "0.38" "0.55" "0.53"))
          DEFAULT_CONFIG sampleMarket = Some opp
        /\ arbDirection (intraMarketData opp) = BUY_BOTH
        /\ approx3 (grossProfitPercent opp) 5.263
        /\ grossProfitPercent opp
           = p_grossProfitPercent
               (pricing (Num 0.40) (Num 0.38) (Num 0.55) (Num 0.53)))
  /\ (Binary64.p_arbDirection (Binary64.pricing 0.60 0.58 0.60 0.58) = SELL_BOTH
      /\ Binary64.p_grossProfitPercent (Binary64.pricing 0.60 0.58 0.60 0.58)
         = ((0.58 + 0.58 - 1) / 1 * 100)%float
      /\ Binary64.p_grossProfitPercent (Binary64.pricing 0.60 0.58 0.60 0.58)
         = 15.999999999999993%float).
Proof.
  destruct (@pricing_direction_and_profit sampleBuiltins)
    as (Hp & Hf & Hs & _ & _ & _ & Hsell & Hopp & _).
  split; [|split].
  - destruct (Hp (Num 0.40) (Num 0.38) (Num 0.55) (Num 0.53))
      as (_ & _ & Hbuy & _).
    apply Hbuy. reflexivity.
  - destruct Hopp as (opp & Hscan & Hd & Hg).
    exists opp. split; [exact Hscan|]. split; [exact Hd|]. split; [exact Hg|].
    destruct (Hs (serviceWorld [] (quotes "0.40" "0.38" "0.55" "0.53"))
                DEFAULT_CONFIG sampleMarket
                {| token_id := "yes" |} {| token_id := "no" |} []
                (book "0.40" "0.38" "2000") (book "0.55" "0.53" "2000")
                {| yesBestAsk := Num 0.40; yesBestBid := Num 0.38;
                   noBestAsk := Num 0.55; noBestBid := Num 0.53 |} opp
                eq_refl eq_refl eq_refl eq_refl Hscan)
      as (_ & _ & _ & Hgross).
    exact Hgross.
  - destruct (Hf 0.60 0.58 0.60 0.58)%float as (_ & _ & _ & Hsellf & _).
    destruct (Hsellf eq_refl eq_refl) as [Hd Hg].
    split; [exact Hd|]. split; [exact Hg|]. exact (proj1 (proj2 Hsell)).
Defined.

(** C3 at the first worked example: a threshold equal to the gross
    profit 100/19 accepts the market, a threshold 0.001 above it rejects
    the market. *)
Lemma profit_threshold_inclusive_witness :
  (exists opp,
     @scanMarket sampleBuiltins
       (serviceWorld [] (quotes "0.40" "0.38" "0.55" "0.53"))
       (thresholdConfig (100 # 19)) sampleMarket = Some opp)
  /\ @scanMarket sampleBuiltins
       (serviceWorld [] (quotes "0.40" "0.38" "0.55" "0.53"))
       (thresholdConfig ((100 # 19) + 0.001)) sampleMarket = None.
Proof.
  split.
  - destruct (@profit_threshold_inclusive sampleBuiltins
                (serviceWorld [] (quotes "0.40" "0.38" "0.55" "0.53"))
                (thresholdConfig (100 # 19)) sampleMarket
                {| token_id := "yes" |} {| token_id := "no" |} []
                (book "0.40" "0.38" "2000") (book "0.55" "0.53" "2000")
                {| yesBestAsk := Num 0.40; yesBestBid := Num 0.38;
                   noBestAsk := Num 0.55; noBestBid := Num 0.53 |}
                eq_refl eq_refl eq_refl eq_refl)
      as (_ & Hlater & Heq & _).
    { vm_compute. discriminate. }
    destruct (@scanMarket sampleBuiltins _ (thresholdConfig (100 # 19)) sampleMarket)
      as [opp|] eqn:E.
    + exists opp. reflexivity.
    + exfalso.
      assert (Hnone : @None Opportunity = None) by reflexivity.
      apply Hlater in Hnone.
      * destruct Hnone as [Hl|Hl]; vm_compute in Hl; discriminate.
      * apply Heq. vm_compute. reflexivity.
  - destruct (@profit_threshold_inclusive sampleBuiltins
                (serviceWorld [] (quotes "0.40" "0.38" "0.55" "0.53"))
                (thresholdConfig ((100 # 19) + 0.001)) sampleMarket
                {| token_id := "yes" |} {| token_id := "no" |} []
                (book "0.40" "0.38" "2000") (book "0.55" "0.53" "2000")
                {| yesBestAsk := Num 0.40; yesBestBid := Num 0.38;
                   noBestAsk := Num 0.55; noBestBid := Num 0.53 |}
                eq_refl eq_refl eq_refl eq_refl)
      as (_ & _ & _ & Heps).
    { vm_compute. discriminate. }
    apply (Heps ((100 # 19) + 0.001)%Q 0.001%Q).
    + reflexivity.
    + reflexivity.
    + vm_compute. reflexivity.
Defined.

(** C9 at a market whose [no] book cannot be fetched. *)
Lemma incomplete_snapshot_rejected_witness :
  @scanMarketBody sampleBuiltins (serviceWorld [] (yesOnly "0.40" "0.38"))
    DEFAULT_CONFIG sampleMarket = Returned None
  /\ @scanMarket sampleBuiltins (serviceWorld [] (yesOnly "0.40" "0.38"))
       DEFAULT_CONFIG sampleMarket = None.
Proof.
  apply (@incomplete_snapshot_rejected sampleBuiltins
           (serviceWorld [] (yesOnly "0.40" "0.38")) DEFAULT_CONFIG sampleMarket
           {| token_id := "yes" |} {| token_id := "no" |} []).
  - reflexivity.
  - right. exact I.
Defined.

(** C10 at a market whose [yes] book has a best bid of ["0"]. *)
Lemma zero_price_unusable_witness :
  @bestPrices sampleBuiltins (book "0.40" "0" "2000") (book "0.55" "0.53" "2000")
    = None
  /\ @scanMarket sampleBuiltins
       (serviceWorld [] (quotes "0.40" "0" "0.55" "0.53"))
       DEFAULT_CONFIG sampleMarket = None
  /\ @Serverless.analyzeMarket sampleBuiltins
       (serverlessWorld [] (quotes "0.40" "0" "0.55" "0.53")) sampleMarket = None
  /\ @Standalone.scanMarketForArbitrage sampleBuiltins
       (standaloneWorld [] (quotes "0.40" "0" "0.55" "0.53"))
       emptyGlobals sampleMarket standaloneConfig = (None, emptyGlobals).
Proof.
  destruct (@zero_price_unusable sampleBuiltins
              (book "0.40" "0" "2000") (book "0.55" "0.53" "2000"))
    as (Hb & Hsvc & Hsl & Hst).
  { right. left.
    exists (level "0" "2000"), [], "0"%string, 0%Q.
    repeat split; try reflexivity. discriminate. }
  split; [exact Hb|]. split; [|split].
  - apply (Hsvc _ _ _ {| token_id := "yes" |} {| token_id := "no" |} []);
      reflexivity.
  - apply (Hsl _ _ {| token_id := "yes" |} {| token_id := "no" |} []);
      reflexivity.
  - apply (Hst _ _ _ _ {| token_id := "yes" |} {| token_id := "no" |} []);
      reflexivity.
Defined.

End ScannerFacts.

(** ** The Telegram alert gate *)

Module TelegramFacts.

Import Telegram Samples.

Lemma shouldSendAlert_false (svc : TelegramBotService) (key : string) (now : Z) :
  shouldSendAlert svc key now = false
  <-> exists lastNotified,
        lastAlertTime svc !! key = Some lastNotified
        /\ lastNotified <> 0
        /\ now - lastNotified <= cooldownMs svc.
Proof.
  unfold shouldSendAlert. destruct (lastAlertTime svc !! key) as [t|].
  - destruct (Z.eqb_spec t 0) as [->|Hne].
    + split; [discriminate|]. intros (t' & [= <-] & Hz & _). congruence.
    + split.
      * intros Hgt. exists t. repeat split; [assumption|]. lia.
      * intros (t' & [= <-] & _ & Hle). lia.
  - split; [discriminate|]. intros (t' & Hnone & _). discriminate.
Qed.

(** The gate at the boundary: sixty seconds after the last notification
    the code still suppresses the alert, and nothing is sent although
    the API is up, while the time elapsed is not below the cooldown
    window. *)
Lemma gate_suppresses_at_cooldown_boundary :
  ~ (shouldSendAlert (botWith {[ "0xabc"%string := 1000 ]}) "0xabc" 61000 = false
     <-> specSuppress 1000 61000 60000).
Proof.
  intros [Hcode _].
  assert (Hs : specSuppress 1000 61000 60000) by (apply Hcode; reflexivity).
  unfold specSuppress in Hs. lia.
Qed.

(** C6, amended.  For a market key the gate suppresses a send attempt,
    returning not-sent without sending anything and without touching its
    state, exactly when a non-zero last notification time is recorded
    for the key and the time since it is at most the cooldown window.
    When the gate allows the attempt, the alert counts as sent exactly
    when the MarkdownV2 message or its plain-text fallback is delivered;
    the last notification time of the key becomes the current time on
    delivery and the gate is unchanged on failure, so that after a
    failure a later attempt more than the cooldown after the recorded
    notification is allowed. *)
Theorem alert_gate_contract (svc : TelegramBotService) (api : Api)
    (opp : Opportunity) (now stamp : Z) :
  let key := marketId (market opp) in
  let r := sendArbitrageAlert svc api opp now stamp in
  let suppressed :=
    exists lastNotified,
      lastAlertTime svc !! key = Some lastNotified
      /\ lastNotified <> 0
      /\ now - lastNotified <= cooldownMs svc in
  (shouldSendAlert svc key now = false <-> suppressed)
  /\ (suppressed -> sent r = false /\ after r = svc /\ outbox r = [])
  /\ (~ suppressed ->
        sent r = delivered svc api opp
        /\ outbox r
           = snd (sendMessage svc api (FormatTelegramMessage opp) MarkdownV2)
             ++ (if fst (sendMessage svc api (FormatTelegramMessage opp) MarkdownV2)
                 then []
                 else snd (sendMessage svc api (FormatPlainMessage opp) NoParseMode))
        /\ (sent r = true ->
              lastAlertTime (after r) = <[key := stamp]> (lastAlertTime svc)
              /\ cooldownMs (after r) = cooldownMs svc
              /\ config (after r) = config svc)
        /\ (sent r = false ->
              after r = svc
              /\ forall later lastNotified,
                   lastAlertTime svc !! key = Some lastNotified ->
                   later - lastNotified > cooldownMs svc ->
                   shouldSendAlert (after r) key later = true)).
Proof.
  cbv zeta. unfold sendArbitrageAlert, sent, after, outbox, delivered.
  split; [apply shouldSendAlert_false|]. split.
  - intros Hs. apply shouldSendAlert_false in Hs. rewrite Hs. simpl. auto.
  - intros Hs.
    destruct (shouldSendAlert svc (marketId (market opp)) now) eqn:E.
    2: { exfalso. apply Hs. apply shouldSendAlert_false. exact E. }
    simpl negb. cbv iota.
    destruct (sendMessage svc api (FormatTelegramMessage opp) MarkdownV2)
      as [ok1 out1].
    destruct ok1; simpl.
    + repeat split; try reflexivity; discriminate.
    + destruct (sendMessage svc api (FormatPlainMessage opp) NoParseMode)
        as [ok2 out2].
      destruct ok2; simpl.
      * repeat split; try reflexivity; discriminate.
      * repeat split; try reflexivity; try discriminate.
        intros later t Hl Hgt. unfold shouldSendAlert. rewrite Hl.
        destruct (t =? 0); [reflexivity|]. lia.
Qed.

(** C6 on the three attempts of the specification's scenario and on a
    failed delivery: the first alert for a market is delivered and
    stamped; a second attempt within the window is suppressed; after a
    failed delivery the gate is unchanged. *)
Lemma alert_gate_contract_witness :
  (sent (sendArbitrageAlert (botWith {[ "0xabc"%string := 1000 ]}) telegramUp
           (opportunityFor "0xabc" 4) 31000 31005) = false
   /\ outbox (sendArbitrageAlert (botWith {[ "0xabc"%string := 1000 ]}) telegramUp
                (opportunityFor "0xabc" 4) 31000 31005) = [])
  /\ (sent (sendArbitrageAlert (botWith {[ "0xabc"%string := 1000 ]}) telegramUp
              (opportunityFor "0xabc" 4) 61001 61005) = true
      /\ lastAlertTime
           (after (sendArbitrageAlert (botWith {[ "0xabc"%string := 1000 ]})
                     telegramUp (opportunityFor "0xabc" 4) 61001 61005))
         = <[ "0xabc"%string := 61005 ]> {[ "0xabc"%string := 1000 ]})
  /\ after (sendArbitrageAlert (botWith {[ "0xabc"%string := 1000 ]}) telegramDown
              (opportunityFor "0xabc" 4) 61001 61005)
     = botWith {[ "0xabc"%string := 1000 ]}.
Proof.
  split; [|split].
  - destruct (alert_gate_contract (botWith {[ "0xabc"%string := 1000 ]})
                telegramUp (opportunityFor "0xabc" 4) 31000 31005)
      as (_ & Hsup & _).
    destruct Hsup as (Hs & _ & Ho).
    + exists 1000. repeat split; [discriminate | vm_compute; discriminate].
    + split; assumption.
  - destruct (alert_gate_contract (botWith {[ "0xabc"%string := 1000 ]})
                telegramUp (opportunityFor "0xabc" 4) 61001 61005)
      as (_ & _ & Hallow).
    destruct Hallow as (Hd & _ & Hstamp & _).
    + intros (t & Ht & _ & Hle).
      assert (t = 1000) by (vm_compute in Ht; congruence). subst t.
      vm_compute in Hle. apply Hle. reflexivity.
    + split; [exact Hd|]. apply Hstamp. exact Hd.
  - destruct (alert_gate_contract (botWith {[ "0xabc"%string := 1000 ]})
                telegramDown (opportunityFor "0xabc" 4) 61001 61005)
      as (_ & _ & Hallow).
    destruct Hallow as (Hd & _ & _ & Hfail).
    + intros (t & Ht & _ & Hle).
      assert (t = 1000) by (vm_compute in Ht; congruence). subst t.
      vm_compute in Hle. apply Hle. reflexivity.
    + apply Hfail. exact Hd.
Defined.

End TelegramFacts.

(** ** Facts about the array helpers *)

Module JsArrayFacts.

Section Generic.
Context {A : Type}.
Implicit Types (p : A -> bool) (l : list A).

Lemma findIndex_Some p l i :
  findIndex p l = Some i -> exists x, l !! i = Some x /\ p x = true.
Proof.
  revert i. induction l as [|y l IH]; intros i; simpl; [discriminate|].
  destruct (p y) eqn:E.
  - intros [= <-]. exists y. auto.
  - destruct (findIndex p l) as [j|]; simpl; [|discriminate].
    intros [= <-]. destruct (IH j eq_refl) as (x & Hx & Hp). exists x. auto.
Qed.

Lemma findIndex_None p l :
  findIndex p l = None -> Forall (fun x => p x = false) l.
Proof.
  induction l as [|y l IH]; simpl; [constructor|].
  destruct (p y) eqn:E; [discriminate|].
  destruct (findIndex p l); simpl; [discriminate|].
  intros _. constructor; auto.
Qed.

Lemma removeFirst_cons p y l :
  removeFirst p (y :: l) = if p y then l else y :: removeFirst p l.
Proof.
  unfold removeFirst. simpl. destruct (p y); [reflexivity|].
  destruct (findIndex p l); reflexivity.
Qed.

Lemma insertBefore_cons p x y l :
  insertBefore p x (y :: l) = if p y then x :: y :: l else y :: insertBefore p x l.
Proof.
  unfold insertBefore, spliceIn. simpl. destruct (p y); [reflexivity|].
  destruct (findIndex p l); reflexivity.
Qed.

Lemma removeFirst_sublist p l : removeFirst p l `sublist_of` l.
Proof.
  unfold removeFirst. destruct (findIndex p l); [apply sublist_delete|reflexivity].
Qed.

Lemma elem_of_insertBefore p x l z :
  z ∈ insertBefore p x l <-> z = x \/ z ∈ l.
Proof.
  induction l as [|y l IH].
  - unfold insertBefore. simpl. rewrite list_elem_of_singleton, elem_of_nil. tauto.
  - rewrite insertBefore_cons. destruct (p y).
    + rewrite elem_of_cons. tauto.
    + rewrite !elem_of_cons, IH. tauto.
Qed.

Lemma length_insertBefore p x l : length (insertBefore p x l) = S (length l).
Proof.
  induction l as [|y l IH]; [reflexivity|].
  rewrite insertBefore_cons. destruct (p y); simpl; [reflexivity|].
  rewrite IH. reflexivity.
Qed.

Lemma iter_removelast (n : nat) l :
  Nat.iter n (@removelast A) l = take (length l - n) l.
Proof.
  induction n as [|n IH]; simpl.
  - rewrite Nat.sub_0_r, firstn_all. reflexivity.
  - rewrite IH, removelast_firstn_len, take_take, length_take. f_equal. lia.
Qed.

(** Popping while the array is over the bound keeps its first [max]
    elements. *)
Lemma popWhileOver_take (max : nat) l : popWhileOver max l = take max l.
Proof.
  unfold popWhileOver. rewrite iter_removelast.
  destruct (Nat.le_gt_cases (length l) max) as [Hle|Hgt].
  - rewrite !take_ge by lia. reflexivity.
  - f_equal. lia.
Qed.

Lemma concat_batchesAux (fuel n : nat) l :
  (0 < n)%nat -> (length l <= fuel)%nat ->
  concat (batchesAux fuel n l) = l.
Proof.
  intros Hn. revert l. induction fuel as [|fuel IH]; intros l Hlen.
  - destruct l; [reflexivity|]. simpl in Hlen. lia.
  - destruct l as [|x l]; [reflexivity|].
    cbn [batchesAux concat]. rewrite IH.
    + apply take_drop.
    + rewrite length_drop. simpl in *. lia.
Qed.

(** The batches of a non-zero size cover the array, in order. *)
Lemma concat_batches (n : nat) l : (0 < n)%nat -> concat (batches n l) = l.
Proof.
  intros Hn. unfold batches. apply concat_batchesAux; [exact Hn|lia].
Qed.

End Generic.

End JsArrayFacts.

(** ** The near-miss list of the standalone server *)

Module NearMissFacts.

Import Standalone SpecWords JsNumFacts JsArrayFacts.

Lemma StronglySorted_sublist {A : Type} (R : relation A) (l1 l2 : list A) :
  l1 `sublist_of` l2 -> StronglySorted R l2 -> StronglySorted R l1.
Proof.
  induction 1 as [|x l1 l2 Hsub IH|x l1 l2 Hsub IH]; intros Hs.
  - constructor.
  - apply StronglySorted_cons in Hs as [Hf Hs].
    apply StronglySorted_cons. split; [|auto].
    rewrite Forall_forall in *. intros z Hz. apply Hf.
    eapply elem_of_sublist; eauto.
  - apply StronglySorted_cons in Hs as [_ Hs]. auto.
Qed.

Lemma Forall_sublist {A : Type} (P : A -> Prop) (l1 l2 : list A) :
  l1 `sublist_of` l2 -> Forall P l2 -> Forall P l1.
Proof.
  intros Hsub. rewrite !Forall_forall. intros HP z Hz.
  apply HP. eapply elem_of_sublist; eauto.
Qed.

Lemma NoDup_fmap_sublist {A B : Type} (f : A -> B) (l1 l2 : list A) :
  l1 `sublist_of` l2 -> NoDup (f <$> l2) -> NoDup (f <$> l1).
Proof.
  intros Hsub Hnd.
  exact (sublist_NoDup _ _ Hnd (fmap_sublist f _ _ Hsub)).
Qed.

Lemma insertBefore_Permutation {A : Type} (p : A -> bool) (x : A) (l : list A) :
  insertBefore p x l ≡ₚ x :: l.
Proof.
  induction l as [|y l IH].
  - reflexivity.
  - rewrite insertBefore_cons. destruct (p y); [reflexivity|].
    rewrite IH. apply Permutation_swap.
Qed.

(** Inserting before the first entry of larger deviation keeps the list
    sorted by deviation ascending. *)
Lemma insertBefore_sorted (x : NearMiss) (l : list NearMiss) :
  nm_deviation x <> NaN ->
  Forall (fun n => nm_deviation n <> NaN) l ->
  StronglySorted byDeviation l ->
  StronglySorted byDeviation
    (insertBefore (fun n => ngt (nm_deviation n) (nm_deviation x)) x l).
Proof.
  intros Hx Hnum Hs. induction l as [|y l IH].
  - unfold insertBefore. simpl. repeat constructor.
  - rewrite insertBefore_cons.
    apply Forall_cons in Hnum as [Hy Hnum].
    apply StronglySorted_cons in Hs as [Hyl Hs].
    destruct (ngt (nm_deviation y) (nm_deviation x)) eqn:E.
    + apply StronglySorted_cons. split.
      * assert (Hxy : byDeviation x y) by (apply nlt_nle; exact E).
        constructor; [exact Hxy|].
        rewrite Forall_forall in *. intros z Hz.
        exact (nle_trans _ _ _ Hxy (Hyl z Hz)).
      * apply StronglySorted_cons. auto.
    + apply StronglySorted_cons. split; [|auto].
      rewrite Forall_forall in *. intros z Hz.
      apply elem_of_insertBefore in Hz as [->|Hz]; [|auto].
      apply nlt_false_nle; assumption.
Qed.

Lemma removeFirst_key_absent (k : string) (l : list NearMiss) :
  NoDup (nm_slug <$> l) ->
  k ∉ nm_slug <$> removeFirst (fun n => String.eqb (nm_slug n) k) l.
Proof.
  induction l as [|y l IH]; intros Hnd.
  - unfold removeFirst. simpl. apply not_elem_of_nil.
  - rewrite removeFirst_cons. rewrite fmap_cons in Hnd.
    apply NoDup_cons in Hnd as [Hy Hnd].
    destruct (String.eqb_spec (nm_slug y) k) as [<-|Hne].
    + exact Hy.
    + rewrite fmap_cons, not_elem_of_cons. split; [congruence|auto].
Qed.

Lemma elem_of_removeFirst (k : string) (l : list NearMiss) (z : NearMiss) :
  NoDup (nm_slug <$> l) ->
  z ∈ removeFirst (fun n => String.eqb (nm_slug n) k) l
  <-> z ∈ l /\ nm_slug z <> k.
Proof.
  intros Hnd. split.
  - intros Hz. split.
    + eapply elem_of_sublist; [exact Hz|apply removeFirst_sublist].
    + intros Hk. apply (removeFirst_key_absent k l Hnd).
      apply list_elem_of_fmap. exists z. split; [symmetry; exact Hk|exact Hz].
  - clear Hnd. induction l as [|y l IH]; intros [Hz Hk].
    + apply elem_of_nil in Hz. contradiction.
    + rewrite removeFirst_cons.
      destruct (String.eqb_spec (nm_slug y) k) as [Hy|Hne].
      * apply elem_of_cons in Hz as [->|Hz]; [congruence|exact Hz].
      * apply elem_of_cons in Hz as [->|Hz]; [left|right; auto].
Qed.

(** Every near-miss update inserts or replaces by market key, keeps the
    list sorted by deviation ascending and within capacity, and what it
    evicts lies at the large-deviation end. *)
Lemma addNearMiss_keeps_list_ok (g : Globals) (w : World) (m : Market)
    (yesAsk noAsk yesBid noBid combinedAsk combinedBid : num)
    (volume : option string) :
  nabs (nsub (Num 1) combinedAsk) <> NaN ->
  nearMissListOk (nearMisses g) ->
  let entry := newNearMiss w m yesAsk noAsk yesBid noBid combinedAsk
                 combinedBid volume in
  let g' := addNearMiss g w m yesAsk noAsk yesBid noBid combinedAsk
              combinedBid volume in
  nearMissListOk (nearMisses g')
  /\ (exists full,
        nearMisses g' = take MAX_NEAR_MISSES full
        /\ StronglySorted byDeviation full
        /\ (forall n, n ∈ full
              <-> n = entry \/ (n ∈ nearMisses g /\ nm_slug n <> market_slug m))
        /\ (forall a b, a ∈ nearMisses g' -> b ∈ drop MAX_NEAR_MISSES full ->
              byDeviation a b))
  /\ terminalLogs g' = terminalLogs g
  /\ liveMarkets g' = liveMarkets g.
Proof.
  intros Hdev (Hs & Hnum & Hnd & Hlen). cbv zeta.
  unfold addNearMiss. simpl. rewrite popWhileOver_take.
  set (entry := newNearMiss w m yesAsk noAsk yesBid noBid combinedAsk
                  combinedBid volume).
  set (rest := removeFirst (fun n => String.eqb (nm_slug n) (market_slug m))
                 (nearMisses g)).
  change (nabs (nsub (Num 1) combinedAsk)) with (nm_deviation entry).
  set (full := insertBefore (fun n => ngt (nm_deviation n) (nm_deviation entry))
                 entry rest).
  assert (Hsub : rest `sublist_of` nearMisses g) by apply removeFirst_sublist.
  assert (Hfull : StronglySorted byDeviation full).
  { apply insertBefore_sorted.
    - exact Hdev.
    - exact (Forall_sublist _ _ _ Hsub Hnum).
    - exact (StronglySorted_sublist _ _ _ Hsub Hs). }
  assert (Hperm : full ≡ₚ entry :: rest) by apply insertBefore_Permutation.
  split; [|split; [|split; reflexivity]].
  - split; [|split; [|split]].
    + exact (StronglySorted_sublist _ (take MAX_NEAR_MISSES full) full
               (sublist_take _ _) Hfull).
    + apply (Forall_sublist _ (take MAX_NEAR_MISSES full) full (sublist_take _ _)).
      rewrite Hperm. constructor; [exact Hdev|].
      exact (Forall_sublist _ _ _ Hsub Hnum).
    + apply (NoDup_fmap_sublist nm_slug (take MAX_NEAR_MISSES full) full
               (sublist_take _ _)).
      rewrite Hperm, fmap_cons. apply NoDup_cons. split.
      * apply removeFirst_key_absent. exact Hnd.
      * exact (NoDup_fmap_sublist nm_slug _ _ Hsub Hnd).
    + rewrite length_take. lia.
  - exists full. split; [reflexivity|]. split; [exact Hfull|]. split.
    + intros n. rewrite Hperm, elem_of_cons.
      unfold rest. rewrite (elem_of_removeFirst _ _ _ Hnd). reflexivity.
    + intros a b Ha Hb.
      rewrite <- (take_drop MAX_NEAR_MISSES full) in Hfull.
      exact (StronglySorted_app_1_elem_of _ _ _ _ _ Hfull Ha Hb).
Qed.

(** A list is sorted when every entry is in order with all later ones,
    which a boolean test of the order can check. *)
Lemma sorted_by_bool {A : Type} (R : A -> A -> Prop) (r : A -> A -> bool)
    (l : list A) :
  (forall a b, r a b = true -> R a b) ->
  (fix go (l : list A) : bool :=
     match l with
     | [] => true
     | x :: rest => forallb (r x) rest && go rest
     end) l = true ->
  StronglySorted R l.
Proof.
  intros Hr. induction l as [|x l IH]; intros Hl; [constructor|].
  apply andb_true_iff in Hl as [Hx Hl]. constructor; [auto|].
  apply Forall_forall. intros y Hy. apply Hr.
  rewrite forallb_forall in Hx. apply Hx. apply list_elem_of_In. exact Hy.
Qed.

(** The sample list at capacity is in good order. *)
Lemma fullNearMisses_ok : nearMissListOk (nearMisses Samples.fullGlobals).
Proof.
  split; [|split; [|split]].
  - apply (sorted_by_bool _ (fun a b => nle (nm_deviation a) (nm_deviation b))).
    + intros a b E. exact E.
    + vm_compute. reflexivity.
  - apply Forall_fmap, Forall_forall. intros n _. discriminate.
  - apply (bool_decide_unpack _). vm_compute. exact I.
  - vm_compute. lia.
Qed.

(** The list at capacity, twenty near misses of the markets a to t with
    deviations 0.001 to 0.020.  A near miss of the new market z with
    deviation 0.0105 goes in between j and k, and t, of the largest
    deviation, is evicted.  A new quote of the market c with deviation
    0.0185 replaces the entry of c, which moves from third place to
    between r and s. *)
Lemma addNearMiss_keeps_list_ok_witness :
  (length (nearMisses Samples.fullGlobals) = 20%nat
   /\ nm_slug <$> nearMisses Samples.fullGlobals
      = ["a"; "b"; "c"; "d"; "e"; "f"; "g"; "h"; "i"; "j"; "k"; "l"; "m";
         "n"; "o"; "p"; "q"; "r"; "s"; "t"]%string)
  /\ (nearMissListOk
        (nearMisses
           (addNearMiss Samples.fullGlobals
              (Samples.standaloneWorld [] (Samples.quotes "0.40" "0.39" "0.5895" "0.57"))
              (Samples.marketAt 25) (Num 0.40) (Num 0.5895) (Num 0.39) (Num 0.57)
              (Num 0.9895) (Num 0.96) (Some "12000"%string)))
      /\ nm_slug
           <$> nearMisses
                 (addNearMiss Samples.fullGlobals
                    (Samples.standaloneWorld []
                       (Samples.quotes "0.40" "0.39" "0.5895" "0.57"))
                    (Samples.marketAt 25) (Num 0.40) (Num 0.5895) (Num 0.39)
                    (Num 0.57) (Num 0.9895) (Num 0.96) (Some "12000"%string))
         = ["a"; "b"; "c"; "d"; "e"; "f"; "g"; "h"; "i"; "j"; "z"; "k"; "l";
            "m"; "n"; "o"; "p"; "q"; "r"; "s"]%string)
  /\ (nearMissListOk
        (nearMisses
           (addNearMiss Samples.fullGlobals
              (Samples.standaloneWorld [] (Samples.quotes "0.40" "0.39" "0.5815" "0.57"))
              (Samples.marketAt 2) (Num 0.40) (Num 0.5815) (Num 0.39) (Num 0.57)
              (Num 0.9815) (Num 0.96) (Some "12000"%string)))
      /\ nm_slug
           <$> nearMisses
                 (addNearMiss Samples.fullGlobals
                    (Samples.standaloneWorld []
                       (Samples.quotes "0.40" "0.39" "0.5815" "0.57"))
                    (Samples.marketAt 2) (Num 0.40) (Num 0.5815) (Num 0.39)
                    (Num 0.57) (Num 0.9815) (Num 0.96) (Some "12000"%string))
         = ["a"; "b"; "d"; "e"; "f"; "g"; "h"; "i"; "j"; "k"; "l"; "m"; "n";
            "o"; "p"; "q"; "r"; "c"; "s"; "t"]%string).
Proof.
  split; [split; vm_compute; reflexivity|].
  split.
  - split; [|vm_compute; reflexivity].
    apply (addNearMiss_keeps_list_ok Samples.fullGlobals).
    + discriminate.
    + exact fullNearMisses_ok.
  - split; [|vm_compute; reflexivity].
    apply (addNearMiss_keeps_list_ok Samples.fullGlobals).
    + discriminate.
    + exact fullNearMisses_ok.
Defined.

End NearMissFacts.

(** ** The alert lists: one record per market *)

Module AlertFacts.

Import SpecWords JsNumFacts JsArrayFacts NearMissFacts Samples.

Lemma cap_take {A : Type} (l : list A) :
  (if (100 <? length l)%nat then take 100 l else l) = take 100 l.
Proof.
  destruct (Nat.ltb_spec 100 (length l)); [reflexivity|].
  rewrite take_ge by lia. reflexivity.
Qed.

(** [PolyClaudeServer.addAlert] keeps one record per market key: a
    record for a key already present replaces the old one at its index,
    a record for a new key goes to the front. *)
Lemma standalone_addAlert_dedup (srv : Standalone.PolyClaudeServer)
    (opp : Opportunity) :
  NoDup (Standalone.alertKeys srv) ->
  NoDup (Standalone.alertKeys (Standalone.addAlert srv opp))
  /\ (Standalone.marketKey opp ∈ Standalone.alertKeys srv ->
      exists idx old,
        Standalone.alerts srv !! idx = Some old
        /\ Standalone.marketKey old = Standalone.marketKey opp
        /\ Standalone.alerts (Standalone.addAlert srv opp)
           = take 100 (<[idx := opp]> (Standalone.alerts srv))
        /\ Standalone.alertKeys (Standalone.addAlert srv opp)
           = take 100 (Standalone.alertKeys srv))
  /\ (Standalone.marketKey opp ∉ Standalone.alertKeys srv ->
      Standalone.alerts (Standalone.addAlert srv opp)
      = take 100 (opp :: Standalone.alerts srv)).
Proof.
  intros Hnd. unfold Standalone.alertKeys, Standalone.addAlert in *.
  destruct (findIndex (Standalone.sameMarket opp) (Standalone.alerts srv))
    as [idx|] eqn:E; cbn [Standalone.alerts]; rewrite cap_take.
  - destruct (findIndex_Some _ _ _ E) as (old & Hold & Hsame).
    apply String.eqb_eq in Hsame.
    assert (Hkeys : Standalone.marketKey <$> <[idx := opp]> (Standalone.alerts srv)
                    = Standalone.marketKey <$> Standalone.alerts srv).
    { rewrite list_fmap_insert. apply list_insert_id.
      rewrite list_lookup_fmap, Hold. simpl. f_equal. exact Hsame. }
    split; [|split].
    + rewrite fmap_take, Hkeys.
      apply (sublist_NoDup _ _ Hnd). apply sublist_take.
    + intros _. exists idx, old. repeat split; try assumption.
      rewrite fmap_take, Hkeys. reflexivity.
    + intros Hout. exfalso. apply Hout.
      apply list_elem_of_fmap. exists old. split; [symmetry; exact Hsame|].
      eapply list_elem_of_lookup_2. exact Hold.
  - apply findIndex_None in E. rewrite Forall_forall in E.
    assert (Hout : Standalone.marketKey opp ∉ Standalone.marketKey <$> Standalone.alerts srv).
    { intros Hin. apply list_elem_of_fmap in Hin as (a & Ha & Hin).
      specialize (E a Hin). unfold Standalone.sameMarket in E.
      apply String.eqb_neq in E. apply E. symmetry. exact Ha. }
    split; [|split].
    + rewrite fmap_take, fmap_cons.
      apply (sublist_NoDup _ (Standalone.marketKey opp
                                :: (Standalone.marketKey <$> Standalone.alerts srv))).
      * apply NoDup_cons. split; assumption.
      * apply sublist_take.
    + intros Hin. contradiction.
    + intros _. reflexivity.
Qed.

(** A second record for the market [0xabc] replaces the first. *)
Lemma standalone_addAlert_dedup_witness :
  Standalone.alertKeys
    (Standalone.addAlert (Standalone.addAlert newServer (opportunityFor "0xabc" 4))
       (opportunityFor "0xabc" 5))
  = take 100 ["0xabc"%string]
  /\ NoDup (Standalone.alertKeys
              (Standalone.addAlert
                 (Standalone.addAlert newServer (opportunityFor "0xabc" 4))
                 (opportunityFor "0xabc" 5))).
Proof.
  destruct (standalone_addAlert_dedup
              (Standalone.addAlert newServer (opportunityFor "0xabc" 4))
              (opportunityFor "0xabc" 5)) as (Hnd & Hin & _).
  { vm_compute. apply NoDup_singleton. }
  split; [|exact Hnd].
  destruct Hin as (idx & old & _ & _ & _ & Hkeys).
  { vm_compute. left. }
  exact Hkeys.
Defined.

(** C4 at a catalogue that lists one market twice.  The service returns
    two opportunities for the market and its terminal server then holds
    two alert records with the same market key; the standalone server,
    on the same catalogue, holds one. *)
Lemma duplicate_catalogue_entry_duplicates_alert :
  Standalone.marketKey
    <$> fst (fst (@Service.runScan sampleBuiltins
                    (serviceWorld [sampleMarket; sampleMarket]
                       (quotes "0.40" "0.38" "0.55" "0.53"))
                    newService))
  = ["0xabc"; "0xabc"]%string
  /\ Terminal.alertKeys
       <$> Service.terminalServer
             (snd (fst (@Service.runScan sampleBuiltins
                          (serviceWorld [sampleMarket; sampleMarket]
                             (quotes "0.40" "0.38" "0.55" "0.53"))
                          newService)))
     = Some ["0xabc"; "0xabc"]%string
  /\ Standalone.alertKeys
       (fst (@Standalone.runScan sampleBuiltins
               (standaloneWorld [sampleMarket; sampleMarket]
                  (quotes "0.40" "0.38" "0.55" "0.53"))
               newServer emptyGlobals))
     = ["0xabc"]%string.
Proof. vm_compute. repeat split. Qed.

Section WithBuiltins.
Context `{Builtins}.

(** In the standalone scanner the near-miss list is updated whenever
    the deviation is in (0, 0.05], whether or not the market is then
    accepted as an opportunity. *)
Lemma standalone_near_miss_update (w : Standalone.World)
    (g : Standalone.Globals) (cfg : ScannerConfig) (m : Market)
    (yesTok noTok : Token) (rest : list Token)
    (yesBook noBook : OrderBook) (bp : BestPrices) :
  tokens m = Some (yesTok :: noTok :: rest) ->
  Standalone.fetchOrderBook w (token_id yesTok) = Some yesBook ->
  Standalone.fetchOrderBook w (token_id noTok) = Some noBook ->
  bestPrices yesBook noBook = Some bp ->
  let combinedAsk := nadd (yesBestAsk bp) (noBestAsk bp) in
  let combinedBid := nadd (yesBestBid bp) (noBestBid bp) in
  Standalone.nearMisses (snd (Standalone.scanMarketForArbitrage w g m cfg))
  = if Standalone.nearMissRange combinedAsk
    then Standalone.nearMisses
           (Standalone.addNearMiss g w m (yesBestAsk bp) (noBestAsk bp)
              (yesBestBid bp) (noBestBid bp) combinedAsk combinedBid (volume m))
    else Standalone.nearMisses g.
Proof.
  intros Ht Hy Hn Hb. cbv zeta.
  unfold Standalone.scanMarketForArbitrage. rewrite Ht, Hy, Hn, Hb.
  destruct (assess true cfg m yesTok noTok bp _ _ _ _ _);
    destruct (Standalone.nearMissRange _); reflexivity.
Qed.

(** In the serverless analysis a market is a near miss exactly when
    the deviation is in (0, 0.05] and no arbitrage was found for it. *)
Lemma serverless_near_miss (w : Serverless.World) (m : Market)
    (a : Serverless.Analysis) :
  Serverless.analyzeMarket w m = Some a ->
  Serverless.an_isNearMiss a
  = Standalone.nearMissRange (Serverless.an_combinedAsk a)
    && negb (Serverless.isSome (Serverless.an_arbitrage a)).
Proof.
  unfold Serverless.analyzeMarket.
  destruct (tokens m) as [[|yesTok [|noTok rest]]|]; try discriminate.
  destruct (Serverless.fetchOrderBook w (token_id yesTok)); [|discriminate].
  destruct (Serverless.fetchOrderBook w (token_id noTok)); [|discriminate].
  destruct (bestPrices _ _); [|discriminate].
  intros [= <-]. reflexivity.
Qed.

End WithBuiltins.

(** C5 at a market quoting 0.40 + 0.56.  The deviation is 0.04, the
    market is accepted as an opportunity (gross profit about 4.17
    percent), and the standalone scanner has put the same market on the
    near-miss list; the serverless analysis of the same books reports an
    arbitrage and no near miss. *)
Lemma near_miss_recorded_for_accepted_opportunity :
  Standalone.marketKey
    <$> fst (@Standalone.scanMarketForArbitrage sampleBuiltins
               (standaloneWorld [] (quotes "0.40" "0.39" "0.56" "0.55"))
               emptyGlobals sampleMarket standaloneConfig)
  = Some "0xabc"%string
  /\ Standalone.nm_slug
       <$> Standalone.nearMisses
             (snd (@Standalone.scanMarketForArbitrage sampleBuiltins
                     (standaloneWorld [] (quotes "0.40" "0.39" "0.56" "0.55"))
                     emptyGlobals sampleMarket standaloneConfig))
     = ["will-it-rain-tomorrow"]%string
  /\ (fun a => (Serverless.an_isNearMiss a,
                Serverless.isSome (Serverless.an_arbitrage a)))
       <$> @Serverless.analyzeMarket sampleBuiltins
             (serverlessWorld [] (quotes "0.40" "0.39" "0.56" "0.55"))
             sampleMarket
     = Some (false, true).
Proof. vm_compute. repeat split. Qed.

End AlertFacts.

(** ** The scan cycle is single-flight *)

Module SingleFlightFacts.

Import Samples.

Section WithBuiltins.
Context `{Builtins}.

Lemma leaveScan_idle (svc : Service.PolyClaudeService) :
  Service.isScanning (Service.leaveScan svc) = false
  /\ (forall t, Service.terminalServer (Service.leaveScan svc) = Some t ->
        Terminal.isScanning t = false).
Proof.
  split; [reflexivity|]. unfold Service.leaveScan. simpl.
  destruct (Service.terminalServer svc) as [t0|]; simpl; intros t [= <-];
    reflexivity.
Qed.

(** Requests dropped while a cycle is in flight leave no trace. *)
Lemma dropped_requests (svc : Service.PolyClaudeService) (n : nat) :
  Service.isScanning svc = true ->
  Service.steps svc (repeat Service.Request n) = svc.
Proof.
  intros Hbusy. induction n as [|n IH]; [reflexivity|].
  unfold Service.steps in *. simpl. rewrite Hbusy. simpl. exact IH.
Qed.

Lemma steps_app (svc : Service.PolyClaudeService) (es1 es2 : list Service.event) :
  Service.steps svc (es1 ++ es2) = Service.steps (Service.steps svc es1) es2.
Proof. unfold Service.steps. apply fold_left_app. Qed.

(** C7.  The scan state machine is single-flight.  In the service and
    in the standalone server a scan request that finds the scanning flag
    set returns at once with an empty result and leaves the whole state
    as it was; any number of such requests during a cycle changes
    nothing about how the cycle ends (none is queued); and after every
    cycle, completed or failed, the scanning flag is false again. *)
Theorem scan_is_single_flight :
  (forall (w : Service.World) (svc : Service.PolyClaudeService),
     Service.isScanning svc = true ->
     Service.runScan w svc = ([], svc, [])
     /\ Service.step svc Service.Request = (svc, Some []))
  /\ (forall (w : Service.World) (svc : Service.PolyClaudeService),
        Service.isScanning svc = false ->
        Service.isScanning (snd (fst (Service.runScan w svc))) = false
        /\ (forall t,
              Service.terminalServer (snd (fst (Service.runScan w svc))) = Some t ->
              Terminal.isScanning t = false))
  /\ (forall (w : Service.World) (svc : Service.PolyClaudeService),
        Service.isScanning svc = true ->
        Service.isScanning (fst (Service.step svc (Service.Settle w))) = false)
  /\ (forall (w : Service.World) (svc : Service.PolyClaudeService) (n : nat),
        Service.isScanning svc = false ->
        Service.steps svc
          (Service.Request :: repeat Service.Request n ++ [Service.Settle w])
        = Service.steps svc [Service.Request; Service.Settle w]
        /\ Service.steps svc [Service.Request; Service.Settle w]
           = snd (fst (Service.runScan w svc)))
  /\ (forall (w : Standalone.World) (srv : Standalone.PolyClaudeServer)
        (g : Standalone.Globals),
        Standalone.isScanning srv = true ->
        Standalone.runScan w srv g = (srv, g))
  /\ (forall (w : Standalone.World) (srv : Standalone.PolyClaudeServer)
        (g : Standalone.Globals),
        Standalone.isScanning srv = false ->
        Standalone.isScanning (fst (Standalone.runScan w srv g)) = false).
Proof.
  split; [|split; [|split; [|split; [|split]]]].
  - intros w svc Hbusy. unfold Service.runScan, Service.step.
    rewrite Hbusy. split; reflexivity.
  - intros w svc Hidle. unfold Service.runScan. rewrite Hidle.
    destruct (Service.scanCycle w (Service.enterScan svc)) as [[result svc'] out].
    simpl. apply leaveScan_idle.
  - intros w svc Hbusy. unfold Service.step. rewrite Hbusy.
    destruct (Service.scanCycle w svc) as [[result svc'] out]. reflexivity.
  - intros w svc n Hidle.
    assert (Hfirst : Service.steps svc [Service.Request] = Service.enterScan svc).
    { unfold Service.steps. simpl. rewrite Hidle. reflexivity. }
    split.
    + change (Service.Request :: repeat Service.Request n ++ [Service.Settle w])
        with ([Service.Request] ++ repeat Service.Request n ++ [Service.Settle w]).
      change [Service.Request; Service.Settle w]
        with ([Service.Request] ++ [Service.Settle w]).
      rewrite !steps_app, Hfirst, dropped_requests; reflexivity.
    + unfold Service.steps, Service.runScan. simpl. rewrite Hidle. simpl.
      destruct (Service.scanCycle w (Service.enterScan svc)) as [[result svc'] out].
      reflexivity.
  - intros w srv g Hbusy. unfold Standalone.runScan. rewrite Hbusy. reflexivity.
  - intros w srv g Hidle. unfold Standalone.runScan. rewrite Hidle.
    destruct (Standalone.fetchMarkets w _ 200) as [markets g'].
    destruct markets as [|m markets]; [reflexivity|].
    destruct (Standalone.scanBatches w _ _ _) as [[srv' g''] found].
    reflexivity.
Qed.

End WithBuiltins.

(** C7 on the sample service and server: a request during a scan is
    dropped; five requests during a cycle leave the same state as none;
    a cycle over a market and a cycle whose catalogue fetch fails both
    end with the flag cleared. *)
Lemma scan_is_single_flight_witness :
  @Service.runScan sampleBuiltins
    (serviceWorld [sampleMarket] (quotes "0.40" "0.38" "0.55" "0.53"))
    busyService
  = ([], busyService, [])
  /\ Service.isScanning
       (snd (fst (@Service.runScan sampleBuiltins
                    (serviceWorld [sampleMarket] (quotes "0.40" "0.38" "0.55" "0.53"))
                    newService))) = false
  /\ Service.isScanning
       (snd (fst (@Service.runScan sampleBuiltins outage newService))) = false
  /\ Service.isScanning
       (fst (@Service.step sampleBuiltins busyService (Service.Settle outage)))
     = false
  /\ @Service.steps sampleBuiltins newService
       (Service.Request :: repeat Service.Request 5 ++ [Service.Settle outage])
     = @Service.steps sampleBuiltins newService
         [Service.Request; Service.Settle outage]
  /\ @Standalone.runScan sampleBuiltins
       (standaloneWorld [sampleMarket] (quotes "0.40" "0.38" "0.55" "0.53"))
       busyServer emptyGlobals
     = (busyServer, emptyGlobals)
  /\ Standalone.isScanning
       (fst (@Standalone.runScan sampleBuiltins
               (standaloneWorld [sampleMarket] (quotes "0.40" "0.38" "0.55" "0.53"))
               newServer emptyGlobals)) = false.
Proof.
  destruct (@scan_is_single_flight sampleBuiltins)
    as (Hdrop & Hend & Hsettle & Hqueue & Hdrop' & Hend').
  split; [|split; [|split; [|split; [|split; [|split]]]]].
  - apply Hdrop. reflexivity.
  - apply Hend. reflexivity.
  - apply Hend. reflexivity.
  - apply Hsettle. reflexivity.
  - apply Hqueue. reflexivity.
  - apply Hdrop'. reflexivity.
  - apply Hend'. reflexivity.
Defined.

End SingleFlightFacts.

(** ** Sorting and sorted insertion *)

Module SortFacts.

Import JsNumFacts JsArrayFacts.

Section Generic.
Context {A : Type}.
Implicit Types (l : list A) (R : relation A).

Lemma insertSorted_Permutation (after : A -> A -> bool) (x : A) l :
  insertSorted after x l ≡ₚ x :: l.
Proof.
  induction l as [|y l IH]; simpl; [reflexivity|].
  destruct (after x y); [|reflexivity].
  rewrite IH. apply Permutation_swap.
Qed.

(** Sorting keeps every element, as often as it occurs. *)
Lemma sortBy_Permutation (after : A -> A -> bool) l : sortBy after l ≡ₚ l.
Proof.
  induction l as [|x l IH]; simpl; [reflexivity|].
  unfold sortBy in *. simpl. rewrite insertSorted_Permutation, IH. reflexivity.
Qed.

Lemma insertSorted_sorted R (ok : A -> Prop) (after : A -> A -> bool) (x : A) l :
  (forall a b c, R a b -> R b c -> R a c) ->
  (forall a b, ok a -> ok b -> after a b = true -> R b a) ->
  (forall a b, ok a -> ok b -> after a b = false -> R a b) ->
  ok x -> Forall ok l -> StronglySorted R l ->
  StronglySorted R (insertSorted after x l).
Proof.
  intros Htrans Hafter Hbefore Hx Hok Hs.
  induction l as [|y l IH]; simpl; [repeat constructor|].
  apply Forall_cons in Hok as [Hy Hok].
  apply StronglySorted_cons in Hs as [Hyl Hs].
  destruct (after x y) eqn:E.
  - apply StronglySorted_cons. split; [|auto].
    rewrite Forall_forall in *. intros z Hz.
    rewrite insertSorted_Permutation in Hz.
    apply elem_of_cons in Hz as [->|Hz]; [apply Hafter; assumption|auto].
  - assert (Hxy : R x y) by (apply Hbefore; assumption).
    apply StronglySorted_cons. split.
    + constructor; [exact Hxy|].
      rewrite Forall_forall in *. intros z Hz. exact (Htrans _ _ _ Hxy (Hyl z Hz)).
    + apply StronglySorted_cons. auto.
Qed.

Lemma sortBy_sorted R (ok : A -> Prop) (after : A -> A -> bool) l :
  (forall a b c, R a b -> R b c -> R a c) ->
  (forall a b, ok a -> ok b -> after a b = true -> R b a) ->
  (forall a b, ok a -> ok b -> after a b = false -> R a b) ->
  Forall ok l -> StronglySorted R (sortBy after l).
Proof.
  intros Htrans Hafter Hbefore Hok.
  induction l as [|x l IH]; [constructor|].
  apply Forall_cons in Hok as [Hx Hok].
  unfold sortBy in *. simpl.
  apply (insertSorted_sorted R ok); auto.
  change (foldr (insertSorted after) [] l) with (sortBy after l).
  rewrite sortBy_Permutation. exact Hok.
Qed.

(** A sort in descending order of a numeric key. *)
Lemma sortBy_desc (key : A -> num) l :
  Forall (fun a => key a <> NaN) l ->
  StronglySorted (descBy key) (sortBy (fun a b => ngt (key b) (key a)) l).
Proof.
  apply (sortBy_sorted (descBy key) (fun a => key a <> NaN)).
  - intros a b c Hab Hbc. exact (nle_trans _ _ _ Hbc Hab).
  - intros a b _ _ Hlt. apply nlt_nle. exact Hlt.
  - intros a b Ha Hb Hlt. apply nlt_false_nle; assumption.
Qed.

(** A sort in ascending order of a numeric key. *)
Lemma sortBy_asc (key : A -> num) l :
  Forall (fun a => key a <> NaN) l ->
  StronglySorted (ascBy key) (sortBy (fun a b => ngt (key a) (key b)) l).
Proof.
  apply (sortBy_sorted (ascBy key) (fun a => key a <> NaN)).
  - intros a b c Hab Hbc. exact (nle_trans _ _ _ Hab Hbc).
  - intros a b _ _ Hlt. apply nlt_nle. exact Hlt.
  - intros a b Ha Hb Hlt. apply nlt_false_nle; assumption.
Qed.

Lemma insertBefore_sorted_by R (p : A -> bool) (x : A) l :
  (forall a b c, R a b -> R b c -> R a c) ->
  (forall y, y ∈ l -> p y = true -> R x y) ->
  (forall y, y ∈ l -> p y = false -> R y x) ->
  StronglySorted R l ->
  StronglySorted R (insertBefore p x l).
Proof.
  intros Htrans Hlater Hearlier Hs. induction l as [|y l IH].
  - unfold insertBefore. simpl. repeat constructor.
  - rewrite insertBefore_cons.
    apply StronglySorted_cons in Hs as [Hyl Hs].
    destruct (p y) eqn:E.
    + assert (Hxy : R x y) by (apply Hlater; [left|exact E]).
      apply StronglySorted_cons. split.
      * constructor; [exact Hxy|].
        rewrite Forall_forall in *. intros z Hz. exact (Htrans _ _ _ Hxy (Hyl z Hz)).
      * apply StronglySorted_cons. auto.
    + apply StronglySorted_cons. split.
      * rewrite Forall_forall in *. intros z Hz.
        apply elem_of_insertBefore in Hz as [->|Hz]; [|auto].
        apply Hearlier; [left|exact E].
      * apply IH; [| |exact Hs].
        -- intros z Hz. apply Hlater. right. exact Hz.
        -- intros z Hz. apply Hearlier. right. exact Hz.
Qed.

Lemma removeFirst_key_gone (f : A -> string) (k : string) l :
  NoDup (f <$> l) ->
  k ∉ f <$> removeFirst (fun n => String.eqb (f n) k) l.
Proof.
  induction l as [|y l IH]; intros Hnd.
  - unfold removeFirst. simpl. apply not_elem_of_nil.
  - rewrite removeFirst_cons. rewrite fmap_cons in Hnd.
    apply NoDup_cons in Hnd as [Hy Hnd].
    destruct (String.eqb_spec (f y) k) as [<-|Hne].
    + exact Hy.
    + rewrite fmap_cons, not_elem_of_cons. split; [congruence|auto].
Qed.

(** Remove the entry of a key, insert the new entry in order, cut to
    the bound: the list stays sorted, keyed once, and bounded, and holds
    nothing but the new entry and old entries of other keys. *)
Lemma upsert_keeps_order R (f : A -> string) (p : A -> bool) (x : A) l (max : nat) :
  (forall a b c, R a b -> R b c -> R a c) ->
  (forall y, y ∈ l -> p y = true -> R x y) ->
  (forall y, y ∈ l -> p y = false -> R y x) ->
  StronglySorted R l ->
  NoDup (f <$> l) ->
  let l' := popWhileOver max
              (insertBefore p x (removeFirst (fun n => String.eqb (f n) (f x)) l)) in
  StronglySorted R l'
  /\ NoDup (f <$> l')
  /\ (length l' <= max)%nat
  /\ (forall z, z ∈ l' -> z = x \/ (z ∈ l /\ f z <> f x)).
Proof.
  intros Htrans Hlater Hearlier Hs Hnd. cbv zeta. rewrite popWhileOver_take.
  set (rest := removeFirst (fun n => String.eqb (f n) (f x)) l).
  assert (Hsub : rest `sublist_of` l) by apply removeFirst_sublist.
  assert (Hin : forall z, z ∈ rest -> z ∈ l).
  { intros z Hz. eapply elem_of_sublist; eauto. }
  assert (Hgone : f x ∉ f <$> rest) by (apply removeFirst_key_gone; exact Hnd).
  assert (Hfull : StronglySorted R (insertBefore p x rest)).
  { apply insertBefore_sorted_by; auto.
    exact (NearMissFacts.StronglySorted_sublist _ _ _ Hsub Hs). }
  assert (Hperm : insertBefore p x rest ≡ₚ x :: rest)
    by apply NearMissFacts.insertBefore_Permutation.
  assert (Hnd' : NoDup (f <$> insertBefore p x rest)).
  { rewrite Hperm, fmap_cons. apply NoDup_cons. split; [exact Hgone|].
    exact (sublist_NoDup _ _ Hnd (fmap_sublist f _ _ Hsub)). }
  split; [|split; [|split]].
  - rewrite <- (take_drop max (insertBefore p x rest)) in Hfull.
    exact (StronglySorted_app_1_l _ _ _ Hfull).
  - refine (sublist_NoDup _ _ Hnd' (fmap_sublist f _ _ _)). apply sublist_take.
  - rewrite length_take. lia.
  - intros z Hz.
    assert (Hz' : z ∈ insertBefore p x rest).
    { eapply elem_of_sublist; [exact Hz|apply sublist_take]. }
    rewrite Hperm in Hz'. apply elem_of_cons in Hz' as [->|Hz']; [left; reflexivity|].
    right. split; [auto|]. intros Heq. apply Hgone.
    apply list_elem_of_fmap. exists z. split; [symmetry; exact Heq|exact Hz'].
Qed.

End Generic.

(** [Math.max(...xs)] of numbers is one of them and at least each. *)
Lemma maxOf_upper (x : num) (xs : list num) :
  Forall (fun y => y <> NaN) (x :: xs) ->
  Standalone.maxOf (x :: xs) ∈ x :: xs
  /\ Forall (fun y => nle y (Standalone.maxOf (x :: xs)) = true) (x :: xs).
Proof.
  unfold Standalone.maxOf. revert x.
  induction xs as [|y xs IH]; intros x Hnum.
  - simpl. apply Forall_cons in Hnum as [Hx _]. split; [apply elem_of_cons; auto|].
    constructor; [|constructor]. destruct x; [congruence|]. simpl.
    apply Qle_bool_iff. apply Qle_refl.
  - apply Forall_cons in Hnum as [Hx Hnum].
    apply Forall_cons in Hnum as [Hy Hnum]. simpl.
    destruct x as [|qx]; [congruence|]. destruct y as [|qy]; [congruence|].
    simpl. destruct (Qle_bool qx qy) eqn:E.
    + destruct (IH (Num qy)) as [Hin Hall]; [constructor; assumption|].
      split; [apply elem_of_cons; right; exact Hin|].
      apply Forall_cons in Hall as [Hqy Hall].
      constructor; [|constructor; assumption].
      exact (nle_trans (Num qx) (Num qy) _ E Hqy).
    + destruct (IH (Num qx)) as [Hin Hall]; [constructor; assumption|].
      split.
      * rewrite !elem_of_cons. apply elem_of_cons in Hin as [Hin|Hin]; auto.
      * apply Forall_cons in Hall as [Hqx Hall].
        constructor; [exact Hqx|]. constructor; [|exact Hall].
        refine (nle_trans (Num qy) (Num qx) _ _ Hqx).
        apply nlt_nle. simpl. unfold Qlt_bool. rewrite E. reflexivity.
Qed.

End SortFacts.

(** ** Risk levels and factors *)

Module RiskLevelFacts.

Import Risk RiskFacts.

(** The level is LOW exactly when no factor was triggered and EXTREME
    exactly when the penalties reach five points; there are at most four
    factors, each standing for one or two points of the score. *)
Theorem riskLevel_and_factors (profitPercent liquidity spread daysToExpiry : num) :
  let r := calculateRiskScore profitPercent liquidity spread daysToExpiry in
  (getRiskLevel (score r) = LOW <-> factors r = [])
  /\ (getRiskLevel (score r) = EXTREME
      <-> 5 <= penalties profitPercent liquidity spread daysToExpiry)
  /\ (length (factors r) <= 4)%nat
  /\ Z.of_nat (length (factors r)) <= score r - 3 <= 2 * Z.of_nat (length (factors r)).
Proof.
  cbv zeta.
  unfold calculateRiskScore, penalties, liquidityPenalty, spreadPenalty,
    expiryPenalty, marginPenalty.
  case_checks; simpl; unfold getRiskLevel; simpl;
    (split; [split; intros; (reflexivity || discriminate)|]);
    (split; [split; intros; (reflexivity || discriminate || lia)|]);
    (split; [lia|lia]).
Qed.

(** The level of a score is monotone, and its thresholds are 3, 5, 7. *)
Theorem getRiskLevel_thresholds (a : Z) :
  (getRiskLevel a = LOW <-> a <= 3)
  /\ (getRiskLevel a = MEDIUM <-> 3 < a <= 5)
  /\ (getRiskLevel a = HIGH <-> 5 < a <= 7)
  /\ (getRiskLevel a = EXTREME <-> 7 < a).
Proof.
  unfold getRiskLevel.
  destruct (Z.leb_spec a 3), (Z.leb_spec a 5), (Z.leb_spec a 7);
    repeat split; intros; try reflexivity; try discriminate; lia.
Qed.

End RiskLevelFacts.

(** ** Pricing on valid books *)

Module PricingFacts.

Import JsNumFacts.

Lemma ngt_Num (x y : Q) : ngt (Num x) (Num y) = true <-> (y < x)%Q.
Proof. unfold ngt. apply nlt_Num. Qed.

Lemma ngt_Num_false (x y : Q) : ngt (Num x) (Num y) = false <-> (x <= y)%Q.
Proof.
  rewrite <- not_true_iff_false, ngt_Num. split.
  - apply Qnot_lt_le.
  - intros Hle Hlt. exact (Qlt_not_le _ _ Hlt Hle).
Qed.

(** On books whose best bid is not above the best ask for both tokens,
    the combined bid is not above the combined ask, the two profits are
    never positive together (so the precedence of BUY_BOTH hides no
    SELL_BOTH), the direction is NONE exactly when the combined bid is
    at most 1 and the combined ask at least 1, and with a positive
    combined ask every direction other than NONE has a positive gross
    profit percent. *)
Theorem pricing_valid_book (ya yb na nb : Q) :
  (yb <= ya)%Q -> (nb <= na)%Q ->
  let pr := pricing (Num ya) (Num yb) (Num na) (Num nb) in
  nle (p_combinedBid pr) (p_combinedAsk pr) = true
  /\ (ngt (p_sellBothProfit pr) (Num 0) = true ->
      ngt (p_buyBothProfit pr) (Num 0) = false)
  /\ (p_arbDirection pr = BUY_BOTH <-> (ya + na < 1)%Q)
  /\ (p_arbDirection pr = SELL_BOTH <-> (1 < yb + nb)%Q)
  /\ (p_arbDirection pr = NONE <-> (yb + nb <= 1 /\ 1 <= ya + na)%Q)
  /\ ((0 < ya + na)%Q -> p_arbDirection pr <> NONE ->
      ngt (p_grossProfitPercent pr) (Num 0) = true).
Proof.
  intros Hy Hn. cbv zeta. unfold pricing. simpl nadd. simpl nsub.
  destruct (ngt (Num (1 - (ya + na))) (Num 0)) eqn:E1.
  - apply ngt_Num in E1.
    cbn [p_combinedAsk p_combinedBid p_buyBothProfit p_sellBothProfit
         p_arbDirection p_grossProfitPercent].
    repeat split; try discriminate; try (intros; lra).
    + apply nle_Num. lra.
    + intros Hs. apply ngt_Num in Hs. lra.
    + intros Hpos _. unfold ndiv.
      destruct (Qeq_bool (ya + na) 0) eqn:Ez.
      { apply Qeq_bool_iff in Ez. lra. }
      simpl nmul. apply ngt_Num. apply Qmult_lt_0_compat; [|reflexivity].
      apply Qlt_shift_div_l; lra.
  - apply ngt_Num_false in E1.
    destruct (ngt (Num (yb + nb - 1)) (Num 0)) eqn:E2.
    + apply ngt_Num in E2.
      cbn [p_combinedAsk p_combinedBid p_buyBothProfit p_sellBothProfit
           p_arbDirection p_grossProfitPercent].
      repeat split; try discriminate; try (intros; lra).
      * apply nle_Num. lra.
      * intros _. apply ngt_Num_false. lra.
      * intros _ _. simpl. apply Qlt_bool_iff.
        unfold Qdiv. change (/ 1)%Q with 1%Q. lra.
    + apply ngt_Num_false in E2.
      cbn [p_combinedAsk p_combinedBid p_buyBothProfit p_sellBothProfit
           p_arbDirection p_grossProfitPercent].
      repeat split; try discriminate; try (intros; lra); try congruence.
      * apply nle_Num. lra.
      * intros Hs. apply ngt_Num in Hs. lra.
Qed.

(** The statement on the first worked example. *)
Lemma pricing_valid_book_witness :
  nle (p_combinedBid (pricing (Num 0.40) (Num 0.38) (Num 0.55) (Num 0.53)))
      (p_combinedAsk (pricing (Num 0.40) (Num 0.38) (Num 0.55) (Num 0.53))) = true
  /\ ngt (p_grossProfitPercent (pricing (Num 0.40) (Num 0.38) (Num 0.55) (Num 0.53)))
         (Num 0) = true.
Proof.
  destruct (pricing_valid_book 0.40 0.38 0.55 0.53) as (Hle & _ & _ & _ & _ & Hpos).
  - vm_compute. discriminate.
  - vm_compute. discriminate.
  - split; [exact Hle|]. apply Hpos.
    + vm_compute. reflexivity.
    + vm_compute. discriminate.
Defined.

End PricingFacts.

(** ** Accepted opportunities *)

Module AcceptedFacts.

Import JsNumFacts RiskFacts ScannerFacts Accepted.

Lemma penalties_range (p l s d : num) : 0 <= Risk.penalties p l s d <= 7.
Proof.
  unfold Risk.penalties, Risk.liquidityPenalty, Risk.spreadPenalty,
    Risk.expiryPenalty, Risk.marginPenalty.
  case_checks; lia.
Qed.

Lemma falsy_false_truthy (x : option num) (n : num) :
  x = Some n -> falsy x = false -> truthy n = true.
Proof. intros -> Hf. simpl in Hf. apply negb_false_iff in Hf. exact Hf. Qed.

Section WithBuiltins.
Context `{Builtins}.

(** The liquidity of a side is always a number. *)
Lemma sideLiquidity_num (side : option (list Level)) :
  exists q, sideLiquidity side = Num q.
Proof.
  unfold sideLiquidity. destruct side as [levels|]; [|exists 0%Q; reflexivity].
  unfold nor. destruct (truthy _) eqn:E; [|exists 0%Q; reflexivity].
  destruct (fold_left _ levels (Num 0)) as [|q]; [discriminate|].
  exists q. reflexivity.
Qed.

Lemma bestPrices_truthy (yesBook noBook : OrderBook) (bp : BestPrices) :
  bestPrices yesBook noBook = Some bp ->
  truthy (yesBestAsk bp) = true /\ truthy (yesBestBid bp) = true
  /\ truthy (noBestAsk bp) = true /\ truthy (noBestBid bp) = true.
Proof.
  unfold bestPrices.
  destruct (falsy (bestPrice (asks yesBook)) || falsy (bestPrice (bids yesBook))
            || falsy (bestPrice (asks noBook)) || falsy (bestPrice (bids noBook)))
    eqn:E; [discriminate|].
  rewrite !orb_false_iff in E. destruct E as (((E1 & E2) & E3) & E4).
  destruct (bestPrice (asks yesBook)) as [ya|] eqn:Ha; [|discriminate].
  destruct (bestPrice (bids yesBook)) as [yb|] eqn:Hb; [|discriminate].
  destruct (bestPrice (asks noBook)) as [na|] eqn:Hc; [|discriminate].
  destruct (bestPrice (bids noBook)) as [nb|] eqn:Hd; [|discriminate].
  intros [= <-]. cbn [yesBestAsk yesBestBid noBestAsk noBestBid].
  simpl in E1, E2, E3, E4.
  apply negb_false_iff in E1, E2, E3, E4. auto.
Qed.

Lemma pricing_fields (ya yb na nb : num) :
  let pr := pricing ya yb na nb in
  p_combinedAsk pr = nadd ya na
  /\ p_combinedBid pr = nadd yb nb
  /\ p_buyBothProfit pr = nsub (Num 1) (nadd ya na)
  /\ p_sellBothProfit pr = nsub (nadd yb nb) (Num 1)
  /\ (p_arbDirection pr = BUY_BOTH -> ngt (p_buyBothProfit pr) (Num 0) = true)
  /\ (p_arbDirection pr = SELL_BOTH ->
      ngt (p_sellBothProfit pr) (Num 0) = true
      /\ ngt (p_buyBothProfit pr) (Num 0) = false).
Proof.
  cbv zeta. unfold pricing.
  destruct (ngt (nsub (Num 1) (nadd ya na)) (Num 0)) eqn:E1;
    [|destruct (ngt (nsub (nadd yb nb) (Num 1)) (Num 0)) eqn:E2];
    cbn [p_combinedAsk p_combinedBid p_buyBothProfit p_sellBothProfit
         p_arbDirection];
    repeat split; auto; discriminate.
Qed.

(** Whatever [assess] accepts is well formed. *)
Lemma assess_wellFormed (standalone : bool) (cfg : ScannerConfig) (m : Market)
    (yesTok noTok : Token) (yesBook noBook : OrderBook) (bp : BestPrices)
    (now : Z) (uuid : string) (stamps : Z * Z) (opp : Opportunity) :
  bestPrices yesBook noBook = Some bp ->
  assess standalone cfg m yesTok noTok bp
    (sideLiquidity (asks yesBook)) (sideLiquidity (asks noBook)) now uuid stamps
  = Some opp ->
  wellFormed cfg m opp.
Proof.
  intros Hbp. unfold assess.
  destruct (dir_eqb _ NONE || nlt _ (minProfitPercent cfg)) eqn:E1; [discriminate|].
  destruct (belowMinLiquidity cfg _) eqn:E2; [discriminate|].
  destruct (ngt _ (maxRiskScore cfg)) eqn:E3; [discriminate|].
  apply orb_false_iff in E1 as [Ed Eg].
  intros [= <-]. unfold wellFormed.
  cbn [status market marketId conditionId intraMarketData
       arbDirection grossProfitPercent riskScore riskLevel confidenceScore
       estimatedFees estimatedGas
       netProfitPercent grossProfitAbsolute netProfitAbsolute breakeven
       buyBothProfit sellBothProfit combinedAsk combinedBid yesToken noToken
       bestAsk bestBid recommendedSize].
  set (pr := pricing (yesBestAsk bp) (yesBestBid bp) (noBestAsk bp) (noBestBid bp)) in *.
  destruct (pricing_fields (yesBestAsk bp) (yesBestBid bp) (noBestAsk bp) (noBestBid bp))
    as (HcA & HcB & Hbuy & Hsell & Hdb & Hds). fold pr in HcA, HcB, Hbuy, Hsell, Hdb, Hds.
  destruct (bestPrices_truthy _ _ _ Hbp) as (T1 & T2 & T3 & T4).
  set (risk := Risk.calculateRiskScore _ _ _ _) in *.
  assert (Hrange : 3 <= Risk.score risk <= 10).
  { unfold risk. rewrite score_penalties.
    pose proof (penalties_range (p_grossProfitPercent pr)
                  (nmin (sideLiquidity (asks yesBook)) (sideLiquidity (asks noBook)))
                  (avgSpread bp) (daysToExpiry m now)). lia. }
  repeat match goal with |- _ /\ _ => split end; try reflexivity; try assumption.
  - intros Hnone. apply dir_eqb_NONE in Hnone. congruence.
  - lia.
  - lia.
  - unfold Risk.getRiskLevel.
    destruct (Risk.score risk <=? 3); [reflexivity|].
    destruct (Risk.score risk <=? 5); [reflexivity|].
    destruct (Risk.score risk <=? 7); reflexivity.
  - intros Hd. rewrite Hd. simpl. split; [reflexivity|]. auto.
  - intros Hd. rewrite Hd. simpl. split; [reflexivity|]. auto.
  - rewrite HcA. exact Hbuy.
  - rewrite HcB. exact Hsell.
  - destruct (sideLiquidity_num (asks yesBook)) as [qy ->].
    destruct (sideLiquidity_num (asks noBook)) as [qn ->].
    simpl. destruct (Qle_bool qy qn); simpl;
      match goal with
      | |- context [Qle_bool ?a ?b] => destruct (Qle_bool a b) eqn:E
      end; simpl; try exact E; apply Qle_bool_iff; apply Qle_refl.
Qed.

(** Every opportunity returned by [scanMarket] of the service is well
    formed for the configuration and the market it was scanned with: it
    is active, carries the market's condition id, has a direction, a
    gross profit not below the threshold, a risk score between 3 and 10
    that is not above the ceiling, the level and the confidence of that
    score, fees of 0.01 and gas of 0.002, a net profit percent obtained
    from the gross one by subtracting fees times 100 and then gas times
    100, a net absolute profit obtained by subtracting fees and then
    gas, four usable prices with the profits and combined prices
    computed from them, and a recommended size of at most 1000. *)
Theorem service_scanMarket_wellFormed (w : Service.World) (cfg : ScannerConfig)
    (m : Market) (opp : Opportunity) :
  Service.scanMarket w cfg m = Some opp ->
  wellFormed cfg m opp.
Proof.
  unfold Service.scanMarket, Service.scanMarketBody.
  destruct (tokens m) as [[|yesTok [|noTok rest]]|]; try discriminate.
  destruct (Service.getOrderBook w (token_id yesTok)) as [yesBook|]; [|discriminate].
  destruct (Service.getOrderBook w (token_id noTok)) as [noBook|]; [|discriminate].
  destruct (bestPrices yesBook noBook) as [bp|] eqn:Hbp; [|discriminate].
  apply assess_wellFormed. exact Hbp.
Qed.

(** Every opportunity returned by [scanMarketForArbitrage] of the
    scan action is well formed in the same sense. *)
Theorem action_scan_wellFormed (w : Service.World) (cfg : ScannerConfig)
    (m : Market) (opp : Opportunity) :
  Action.scanMarketForArbitrage w m cfg = Some opp ->
  wellFormed cfg m opp.
Proof.
  unfold Action.scanMarketForArbitrage, Action.scanMarketForArbitrageBody.
  destruct (tokens m) as [[|yesTok [|noTok rest]]|]; try discriminate.
  destruct (Service.getOrderBook w (token_id yesTok)) as [yesBook|]; [|discriminate].
  destruct (Service.getOrderBook w (token_id noTok)) as [noBook|]; [|discriminate].
  destruct (bestPrices yesBook noBook) as [bp|] eqn:Hbp; [|discriminate].
  apply assess_wellFormed. exact Hbp.
Qed.

(** Every opportunity returned by [scanMarketForArbitrage] of the
    standalone server is well formed in the same sense, and carries the
    slug of its market. *)
Theorem standalone_scan_wellFormed (w : Standalone.World) (g : Standalone.Globals)
    (cfg : ScannerConfig) (m : Market) (opp : Opportunity) :
  fst (Standalone.scanMarketForArbitrage w g m cfg) = Some opp ->
  wellFormed cfg m opp
  /\ opp_slug (market opp) = Some (market_slug m).
Proof.
  unfold Standalone.scanMarketForArbitrage.
  destruct (tokens m) as [[|yesTok [|noTok rest]]|]; try discriminate.
  destruct (Standalone.fetchOrderBook w (token_id yesTok)) as [yesBook|];
    [|discriminate].
  destruct (Standalone.fetchOrderBook w (token_id noTok)) as [noBook|];
    [|discriminate].
  destruct (bestPrices yesBook noBook) as [bp|] eqn:Hbp; [|discriminate].
  destruct (assess true cfg m yesTok noTok bp _ _ _ _ _) as [o|] eqn:Ha;
    [|discriminate].
  simpl. intros [= <-]. split.
  - exact (assess_wellFormed _ _ _ _ _ _ _ _ _ _ _ _ Hbp Ha).
  - revert Ha. unfold assess.
    destruct (dir_eqb _ NONE || nlt _ (minProfitPercent cfg)); [discriminate|].
    destruct (belowMinLiquidity cfg _); [discriminate|].
    destruct (ngt _ (maxRiskScore cfg)); [discriminate|].
    intros [= <-]. reflexivity.
Qed.

End WithBuiltins.

Import Samples.

(** The sample market quoted at 0.40 / 0.39 and 0.55 / 0.54, away from
    every threshold of the risk score: the service accepts it as a
    BUY_BOTH opportunity of risk score 3, and the opportunity is well
    formed. *)
Lemma service_scanMarket_wellFormed_witness :
  exists opp,
    @Service.scanMarket sampleBuiltins
      (serviceWorld [] (quotes "0.40" "0.39" "0.55" "0.54"))
      Service.DEFAULT_CONFIG sampleMarket = Some opp
    /\ arbDirection (intraMarketData opp) = BUY_BOTH
    /\ riskScore opp = 3
    /\ wellFormed Service.DEFAULT_CONFIG sampleMarket opp.
Proof.
  destruct (@Service.scanMarket sampleBuiltins
              (serviceWorld [] (quotes "0.40" "0.39" "0.55" "0.54"))
              Service.DEFAULT_CONFIG sampleMarket) as [opp|] eqn:E.
  - exists opp. split; [reflexivity|].
    split; [vm_compute in E; injection E as <-; reflexivity|].
    split; [vm_compute in E; injection E as <-; reflexivity|].
    exact (@service_scanMarket_wellFormed sampleBuiltins _ _ _ _ E).
  - vm_compute in E. discriminate.
Defined.

Lemma action_scan_wellFormed_witness :
  exists opp,
    @Action.scanMarketForArbitrage sampleBuiltins
      (serviceWorld [] (quotes "0.40" "0.39" "0.55" "0.54"))
      sampleMarket Service.DEFAULT_CONFIG = Some opp
    /\ arbDirection (intraMarketData opp) = BUY_BOTH
    /\ riskScore opp = 3
    /\ wellFormed Service.DEFAULT_CONFIG sampleMarket opp.
Proof.
  destruct (@Action.scanMarketForArbitrage sampleBuiltins
              (serviceWorld [] (quotes "0.40" "0.39" "0.55" "0.54"))
              sampleMarket Service.DEFAULT_CONFIG) as [opp|] eqn:E.
  - exists opp. split; [reflexivity|].
    split; [vm_compute in E; injection E as <-; reflexivity|].
    split; [vm_compute in E; injection E as <-; reflexivity|].
    exact (@action_scan_wellFormed sampleBuiltins _ _ _ _ E).
  - vm_compute in E. discriminate.
Defined.

Lemma standalone_scan_wellFormed_witness :
  exists opp,
    fst (@Standalone.scanMarketForArbitrage sampleBuiltins
           (standaloneWorld [] (quotes "0.40" "0.39" "0.55" "0.54"))
           emptyGlobals sampleMarket standaloneConfig) = Some opp
    /\ arbDirection (intraMarketData opp) = BUY_BOTH
    /\ riskScore opp = 3
    /\ wellFormed standaloneConfig sampleMarket opp
    /\ opp_slug (market opp) = Some (market_slug sampleMarket).
Proof.
  destruct (fst (@Standalone.scanMarketForArbitrage sampleBuiltins
                   (standaloneWorld [] (quotes "0.40" "0.39" "0.55" "0.54"))
                   emptyGlobals sampleMarket standaloneConfig)) as [opp|] eqn:E.
  - exists opp. split; [reflexivity|].
    split; [vm_compute in E; injection E as <-; reflexivity|].
    split; [vm_compute in E; injection E as <-; reflexivity|].
    exact (@standalone_scan_wellFormed sampleBuiltins _ _ _ _ _ E).
  - vm_compute in E. discriminate.
Defined.

End AcceptedFacts.

(** ** The alert log of the terminal server *)

Module TerminalLogFacts.

Import Terminal Http Samples.

Lemma take_app_take {A : Type} (n : nat) (l k : list A) :
  take n (l ++ take n k) = take n (l ++ k).
Proof.
  rewrite !take_app. f_equal. rewrite take_take. f_equal. lia.
Qed.

Lemma addAlert_alerts (st : TerminalState) (opp : Opportunity) (now : Z) :
  opportunity <$> alerts (addAlert st opp now)
  = take 100 (opp :: (opportunity <$> alerts st)).
Proof.
  unfold addAlert. cbn [alerts].
  destruct (100 <? length _)%nat eqn:E.
  - rewrite fmap_take. reflexivity.
  - apply Nat.ltb_ge in E. rewrite fmap_cons. cbn [opportunity].
    rewrite take_ge; [reflexivity|].
    simpl in *. rewrite length_fmap. exact E.
Qed.

Lemma addAlert_length (st : TerminalState) (opp : Opportunity) (now : Z) :
  (length (alerts (addAlert st opp now)) <= 100)%nat.
Proof.
  unfold addAlert. cbn [alerts].
  destruct (100 <? length _)%nat eqn:E.
  - rewrite length_take. lia.
  - apply Nat.ltb_ge in E. exact E.
Qed.

Lemma addAlerts_alerts (opps : list Opportunity) (now : Z) (st : TerminalState) :
  (length (alerts st) <= 100)%nat ->
  opportunity <$> alerts (addAlerts st opps now)
  = take 100 (rev opps ++ (opportunity <$> alerts st)).
Proof.
  unfold addAlerts. revert st.
  induction opps as [|o opps IH]; intros st Hlen; simpl.
  - rewrite take_ge; [reflexivity|]. rewrite length_fmap. exact Hlen.
  - rewrite IH by apply addAlert_length.
    rewrite addAlert_alerts, take_app_take, <- app_assoc. reflexivity.
Qed.

Lemma addAlerts_length (opps : list Opportunity) (now : Z) (st : TerminalState) :
  (length (alerts st) <= 100)%nat ->
  (length (alerts (addAlerts st opps now)) <= 100)%nat.
Proof.
  unfold addAlerts. revert st.
  induction opps as [|o opps IH]; intros st Hlen; simpl; [exact Hlen|].
  apply IH. apply addAlert_length.
Qed.

Lemma addAlerts_stats (opps : list Opportunity) (now : Z) (st : TerminalState) :
  let st' := addAlerts st opps now in
  totalOpportunitiesFound (stats st')
  = totalOpportunitiesFound (stats st) + Z.of_nat (length opps)
  /\ totalScans (stats st') = totalScans (stats st)
  /\ marketsScanned (stats st') = marketsScanned (stats st)
  /\ lastScanAt (stats st') = lastScanAt (stats st)
  /\ totalProfitCaptured (stats st') = totalProfitCaptured (stats st)
  /\ uptime (stats st') = uptime (stats st)
  /\ isScanning st' = isScanning st
  /\ config st' = config st.
Proof.
  cbv zeta. unfold addAlerts. revert st.
  induction opps as [|o opps IH]; intros st.
  - simpl. repeat match goal with |- _ /\ _ => split end; try reflexivity. lia.
  - cbn [fold_left].
    destruct (IH (addAlert st o now)) as (H1 & H2 & H3 & H4 & H5 & H6 & H7 & H8).
    rewrite H1, H2, H3, H4, H5, H6, H7, H8.
    unfold addAlert.
    cbn [stats totalOpportunitiesFound totalScans marketsScanned lastScanAt
         totalProfitCaptured uptime isScanning config length].
    repeat match goal with |- _ /\ _ => split end; try reflexivity. lia.
Qed.

(** After a batch of alerts the log of a terminal server holds the
    opportunities of the batch, newest first, in front of the older
    ones, cut to 100 records; the counter of opportunities found has
    grown by the size of the batch; and the state route shows the first
    50 records of that log, while the alerts route shows all of it. *)
Theorem terminal_addAlerts_log (st : TerminalState) (opps : list Opportunity)
    (now : Z) :
  (length (alerts st) <= 100)%nat ->
  let st' := addAlerts st opps now in
  let log := take 100 (rev opps ++ (opportunity <$> alerts st)) in
  opportunity <$> alerts st' = log
  /\ (length (alerts st') <= 100)%nat
  /\ totalOpportunitiesFound (stats st')
     = totalOpportunitiesFound (stats st) + Z.of_nat (length opps)
  /\ (exists shown marketsScanned activeOpps totalFound bestProfit isScanning
             lastUpdate,
        terminalHandleRequest st' GET (Some "/api/state"%string)
        = TState shown marketsScanned activeOpps totalFound bestProfit
                 isScanning lastUpdate
        /\ opportunity <$> shown = take 50 log
        /\ totalFound
           = totalOpportunitiesFound (stats st) + Z.of_nat (length opps))
  /\ terminalHandleRequest st' GET (Some "/api/alerts"%string) = TAlerts (alerts st').
Proof.
  intros Hlen. cbv zeta.
  pose proof (addAlerts_alerts opps now st Hlen) as Ha.
  pose proof (addAlerts_length opps now st Hlen) as Hl.
  destruct (addAlerts_stats opps now st) as (Hs & _).
  split; [exact Ha|]. split; [exact Hl|]. split; [exact Hs|]. split.
  - unfold terminalHandleRequest. simpl.
    eexists _, _, _, _, _, _, _. split; [reflexivity|].
    split; [|exact Hs]. rewrite fmap_take, Ha. reflexivity.
  - reflexivity.
Qed.

(** Two alerts added to the fresh terminal server. *)
Lemma terminal_addAlerts_log_witness :
  opportunity <$> alerts (addAlerts newTerminal
                            [opportunityFor "0xabc" 4; opportunityFor "0xdef" 2]
                            sampleNow)
  = [opportunityFor "0xdef" 2; opportunityFor "0xabc" 4].
Proof.
  destruct (terminal_addAlerts_log newTerminal
              [opportunityFor "0xabc" 4; opportunityFor "0xdef" 2] sampleNow)
    as (Hlog & _).
  - simpl. lia.
  - rewrite Hlog. reflexivity.
Defined.

End TerminalLogFacts.

(** ** One cycle of the service *)

Module ServiceScanFacts.

Import JsNumFacts JsArrayFacts SortFacts Telegram TelegramOps Terminal Service Samples.

Lemma flat_map_omap {A B : Type} (f : A -> option B) (ls : list (list A)) :
  flat_map (fun batch => omap f batch) ls = omap f (concat ls).
Proof.
  induction ls as [|l ls IH]; simpl; [reflexivity|].
  rewrite omap_app, IH. reflexivity.
Qed.

(** Scanning in batches scans every market once, in order. *)
Lemma scan_in_batches {A B : Type} (f : A -> option B) (n : nat) (l : list A) :
  (0 < n)%nat ->
  flat_map (fun batch => omap f batch) (batches n l) = omap f l.
Proof. intros Hn. rewrite flat_map_omap, concat_batches by exact Hn. reflexivity. Qed.

Lemma sendMessage_outbox (svc : TelegramBotService) (api : Api) (text : Message)
    (mode : ParseMode) :
  Forall (fun p => fst p = text) (snd (sendMessage svc api text mode))
  /\ (length (snd (sendMessage svc api text mode)) <= 1)%nat.
Proof.
  unfold sendMessage.
  destruct (negb _ || _ || _); [split; [constructor|simpl; lia]|].
  destruct (api text mode); simpl; (split; [repeat constructor|lia]).
Qed.

Lemma sendArbitrageAlert_outbox (svc : TelegramBotService) (api : Api)
    (opp : Opportunity) (now stamp : Z) :
  Forall (fun p => subject p = opp) (outbox (sendArbitrageAlert svc api opp now stamp))
  /\ (length (outbox (sendArbitrageAlert svc api opp now stamp)) <= 2)%nat.
Proof.
  unfold sendArbitrageAlert, outbox.
  destruct (negb (shouldSendAlert _ _ _)); [split; [constructor|simpl; lia]|].
  destruct (sendMessage_outbox svc api (FormatTelegramMessage opp) MarkdownV2)
    as [F1 L1].
  destruct (sendMessage_outbox svc api (FormatPlainMessage opp) NoParseMode)
    as [F2 L2].
  destruct (sendMessage svc api (FormatTelegramMessage opp) MarkdownV2)
    as [ok1 out1].
  destruct (sendMessage svc api (FormatPlainMessage opp) NoParseMode)
    as [ok2 out2].
  simpl in F1, F2, L1, L2.
  assert (S1 : Forall (fun p => subject p = opp) out1).
  { eapply Forall_impl; [exact F1|]. intros p Hp. unfold subject. rewrite Hp.
    reflexivity. }
  assert (S2 : Forall (fun p => subject p = opp) out2).
  { eapply Forall_impl; [exact F2|]. intros p Hp. unfold subject. rewrite Hp.
    reflexivity. }
  destruct ok1; simpl.
  - rewrite app_nil_r. split; [exact S1|lia].
  - split; [apply Forall_app; auto|]. rewrite length_app. lia.
Qed.

Lemma sendAlerts_outbox (api : Api) (l : list (Opportunity * (Z * Z)))
    (bot : TelegramBotService) :
  Forall (fun p => subject p ∈ (fst <$> l)) (snd (sendAlerts bot api l))
  /\ (length (snd (sendAlerts bot api l)) <= 2 * length l)%nat.
Proof.
  revert bot. induction l as [|[opp [now stamp]] l IH]; intros bot.
  - simpl. split; [constructor|lia].
  - cbn [sendAlerts].
    destruct (sendArbitrageAlert_outbox bot api opp now stamp) as [F1 L1].
    unfold outbox in F1, L1.
    destruct (sendArbitrageAlert bot api opp now stamp) as [[ok bot'] out].
    destruct (IH bot') as [F2 L2].
    destruct (sendAlerts bot' api l) as [bot'' out'].
    rewrite fmap_cons. cbn [fst snd length] in *. split.
    + apply Forall_app. split.
      * eapply Forall_impl; [exact F1|]. intros p ->. left.
      * eapply Forall_impl; [exact F2|]. intros p Hp. right. exact Hp.
    + rewrite length_app. lia.
Qed.

(** The opportunities of the alert loop are those it was given. *)
Lemma fst_withAlertClock (w : World) (opps : list Opportunity) :
  fst <$> withAlertClock w opps = opps.
Proof.
  unfold withAlertClock. rewrite fmap_imap.
  rewrite (imap_ext _ (const (fun o => o))) by reflexivity.
  rewrite imap_const. apply list_fmap_id.
Qed.

Lemma length_withAlertClock (w : World) (opps : list Opportunity) :
  length (withAlertClock w opps) = length opps.
Proof. apply length_imap. Qed.

Section WithBuiltins.
Context `{Builtins}.

(** One call of [runScan] on an idle service.  The result holds exactly
    the opportunities of the active, open markets of the catalogue, each
    as often as [scanMarket] returned it, in descending order of net
    profit when the net profits are numbers.  The service is idle again
    and keeps its configuration.  With an empty or unavailable catalogue
    the statistics stay as they were and nothing is sent; otherwise the
    scan counter grows by one and the other statistics describe the
    cycle.  At most six requests go to Telegram, none without a bot,
    each about a returned opportunity with a net profit of at least one
    percent. *)
Theorem runScan_summary (w : World) (svc : PolyClaudeService) :
  Service.isScanning svc = false ->
  let markets := default [] (getMarkets w) in
  let activeMarkets :=
    filter (fun m => active m && negb (closed m) = true) markets in
  let found := omap (scanMarket w (Service.config svc)) activeMarkets in
  let '(result, svc', out) := runScan w svc in
  result ≡ₚ found
  /\ (Forall (fun o => netProfitPercent o <> NaN) found ->
      StronglySorted (descBy netProfitPercent) result)
  /\ Service.isScanning svc' = false
  /\ Service.config svc' = Service.config svc
  /\ (markets = [] -> Service.stats svc' = Service.stats svc /\ out = [])
  /\ (markets <> [] ->
      totalScans (Service.stats svc') = totalScans (Service.stats svc) + 1
      /\ totalOpportunitiesFound (Service.stats svc')
         = totalOpportunitiesFound (Service.stats svc) + Z.of_nat (length result)
      /\ activeOpportunities (Service.stats svc') = Z.of_nat (length result)
      /\ marketsScanned (Service.stats svc') = Z.of_nat (length activeMarkets)
      /\ lastScanAt (Service.stats svc') = Some (clock w))
  /\ (length out <= 6)%nat
  /\ (telegramBot svc = None -> out = [])
  /\ Forall (fun p => subject p ∈ result
                      /\ nge (netProfitPercent (subject p)) (Num 1) = true) out.
Proof.
  intros Hidle. cbv zeta. unfold runScan. rewrite Hidle.
  unfold scanCycle.
  destruct (getMarkets w) as [[|m markets]|].
  3: { simpl. repeat match goal with |- _ /\ _ => split end;
         try reflexivity; try constructor; try lia; auto; try congruence. }
  1: { simpl. repeat match goal with |- _ /\ _ => split end;
         try reflexivity; try constructor; try lia; auto; try congruence. }
  change (default [] (Some (m :: markets))) with (m :: markets).
  cbn [enterScan Service.config Service.stats telegramBot terminalServer
       Service.isScanning].
  set (activeMarkets := filter _ (m :: markets)).
  rewrite scan_in_batches by lia.
  set (found := omap _ activeMarkets).
  set (result := sortByNetProfit found).
  assert (Hperm : result ≡ₚ found) by apply sortBy_Permutation.
  set (significant := filter (fun o => nge (netProfitPercent o) (Num 1) = true) result).
  assert (Hout : forall bot,
            let out := snd (sendAlerts bot (telegramApi w)
                              (withAlertClock w (take 3 significant))) in
            (length out <= 6)%nat
            /\ Forall (fun p => subject p ∈ result
                                /\ nge (netProfitPercent (subject p)) (Num 1) = true) out).
  { intros bot. cbv zeta.
    destruct (sendAlerts_outbox (telegramApi w)
                (withAlertClock w (take 3 significant)) bot) as [F L].
    rewrite fst_withAlertClock in F. rewrite length_withAlertClock in L.
    split.
    - rewrite length_take in L. lia.
    - eapply Forall_impl; [exact F|]. intros p Hp. cbv beta in Hp.
      apply elem_of_take in Hp as (i & Hp & _).
      apply list_elem_of_lookup_2 in Hp.
      apply list_elem_of_filter in Hp. destruct Hp; auto. }
  assert (Hstats : forall (a b c d : Z) (e : option Z),
            a = a /\ b = b /\ c = c /\ d = d /\ e = e) by (intros; auto).
  destruct (telegramBot svc) as [bot|].
  - specialize (Hout bot).
    destruct (sendAlerts bot (telegramApi w)
                (withAlertClock w (take 3 significant))) as [bot' out].
    cbv zeta in Hout. simpl in Hout. destruct Hout as [Hl Hf].
    cbn [leaveScan Service.config Service.stats Service.isScanning].
    cbn [totalScans totalOpportunitiesFound activeOpportunities marketsScanned
         lastScanAt].
    split; [exact Hperm|].
    split; [intros Hnum; apply sortBy_desc; exact Hnum|].
    split; [reflexivity|]. split; [reflexivity|]. split; [discriminate|].
    split; [intros _; apply Hstats|].
    split; [exact Hl|]. split; [discriminate|exact Hf].
  - cbn [leaveScan Service.config Service.stats Service.isScanning].
    cbn [totalScans totalOpportunitiesFound activeOpportunities marketsScanned
         lastScanAt].
    split; [exact Hperm|].
    split; [intros Hnum; apply sortBy_desc; exact Hnum|].
    split; [reflexivity|]. split; [reflexivity|]. split; [discriminate|].
    split; [intros _; apply Hstats|].
    split; [simpl; lia|]. split; [reflexivity|constructor].
Qed.

End WithBuiltins.

(** A cycle over the sample market, quoted at 0.40 + 0.55. *)
Lemma runScan_summary_witness :
  exists opp svc',
    @runScan sampleBuiltins
      (serviceWorld [sampleMarket] (quotes "0.40" "0.38" "0.55" "0.53"))
      newService = ([opp], svc', [])
    /\ totalScans (Service.stats svc') = 1
    /\ Service.isScanning svc' = false.
Proof.
  pose proof (@runScan_summary sampleBuiltins
                (serviceWorld [sampleMarket] (quotes "0.40" "0.38" "0.55" "0.53"))
                newService eq_refl) as Hsum.
  cbv zeta in Hsum.
  destruct (@runScan sampleBuiltins
              (serviceWorld [sampleMarket] (quotes "0.40" "0.38" "0.55" "0.53"))
              newService) as [[result svc'] out] eqn:E.
  destruct Hsum as (_ & _ & Hidle & _ & _ & Hstats & _ & Hout & _).
  destruct Hstats as (Hscans & _); [discriminate|].
  rewrite (Hout eq_refl).
  destruct result as [|opp [|opp' rest]].
  - vm_compute in E. discriminate.
  - exists opp, svc'. split; [reflexivity|]. split; [exact Hscans|exact Hidle].
  - vm_compute in E. discriminate.
Defined.

End ServiceScanFacts.

(** ** What a cycle of the service leaves in its terminal server *)

Module ServiceTerminalFacts.

Import TerminalLogFacts ServiceScanFacts Terminal Service Samples.

Section WithBuiltins.
Context `{Builtins}.

(** After a cycle over a catalogue that is not empty, the terminal
    server of the service shows the returned opportunities in reverse
    order of the result, the last of the result first, in front of the
    older alerts, cut to 100 records; it is no longer marked as
    scanning; its scan and market counters are those of the service;
    and its counter of opportunities found is the one of the service
    plus the number of opportunities of this cycle, which it has
    counted a second time. *)
Theorem runScan_feeds_terminal (w : World) (svc : PolyClaudeService)
    (t : TerminalState) (markets : list Market) :
  Service.isScanning svc = false ->
  terminalServer svc = Some t ->
  (length (alerts t) <= 100)%nat ->
  getMarkets w = Some markets ->
  markets <> [] ->
  let '(result, svc', _) := runScan w svc in
  exists t',
    terminalServer svc' = Some t'
    /\ opportunity <$> alerts t'
       = take 100 (rev result ++ (opportunity <$> alerts t))
    /\ Terminal.isScanning t' = false
    /\ totalScans (Terminal.stats t') = totalScans (Service.stats svc')
    /\ marketsScanned (Terminal.stats t') = marketsScanned (Service.stats svc')
    /\ lastScanAt (Terminal.stats t') = lastScanAt (Service.stats svc')
    /\ totalOpportunitiesFound (Terminal.stats t')
       = totalOpportunitiesFound (Service.stats svc') + Z.of_nat (length result)
    /\ totalOpportunitiesFound (Terminal.stats t')
       = totalOpportunitiesFound (Service.stats svc)
         + 2 * Z.of_nat (length result).
Proof.
  intros Hidle Ht Hlen Hm Hne. unfold runScan. rewrite Hidle.
  unfold scanCycle. rewrite Hm.
  destruct markets as [|m markets]; [congruence|].
  cbn [enterScan Service.config Service.stats telegramBot terminalServer
       Service.isScanning].
  rewrite Ht. cbn [option_map].
  set (result := sortByNetProfit _).
  set (stats' := Build_ScannerStats _ _ _ _ _ _ _).
  set (t1 := updateStats (setScanning t true) stats' (clock w)).
  assert (Hlen1 : (length (alerts t1) <= 100)%nat) by exact Hlen.
  pose proof (addAlerts_alerts result (clock w) t1 Hlen1) as Ha.
  destruct (addAlerts_stats result (clock w) t1)
    as (Hfound & Hscans & Hmarkets & Hlast & _ & _ & _ & _).
  set (t2 := addAlerts t1 result (clock w)) in *.
  destruct (match telegramBot svc with
            | Some bot => _
            | None => _
            end) as [bot' out].
  cbn [leaveScan terminalServer option_map Service.stats].
  exists (setScanning t2 false).
  split; [reflexivity|].
  cbn [setScanning Terminal.alerts Terminal.isScanning Terminal.stats].
  split; [exact Ha|]. split; [reflexivity|].
  split; [exact Hscans|]. split; [exact Hmarkets|]. split; [exact Hlast|].
  split.
  - rewrite Hfound. reflexivity.
  - rewrite Hfound. subst t1 stats'.
    cbn [updateStats Terminal.stats totalOpportunitiesFound]. lia.
Qed.

End WithBuiltins.

(** A cycle over the sample market: the terminal server has counted the
    one opportunity twice. *)
Lemma runScan_feeds_terminal_witness :
  exists t',
    terminalServer
      (snd (fst (@runScan sampleBuiltins
                   (serviceWorld [sampleMarket]
                      (quotes "0.40" "0.38" "0.55" "0.53"))
                   newService))) = Some t'
    /\ totalOpportunitiesFound (Terminal.stats t') = 2.
Proof.
  pose proof (@runScan_feeds_terminal sampleBuiltins
                (serviceWorld [sampleMarket] (quotes "0.40" "0.38" "0.55" "0.53"))
                newService newTerminal [sampleMarket] eq_refl eq_refl) as Hfeed.
  destruct (@runScan sampleBuiltins
              (serviceWorld [sampleMarket] (quotes "0.40" "0.38" "0.55" "0.53"))
              newService) as [[result svc'] out] eqn:E.
  destruct Hfeed as (t' & Ht & _ & _ & _ & _ & _ & _ & Htwice).
  - simpl. lia.
  - reflexivity.
  - discriminate.
  - exists t'. split; [exact Ht|]. rewrite Htwice.
    assert (Hres : result = fst (fst (@runScan sampleBuiltins
              (serviceWorld [sampleMarket] (quotes "0.40" "0.38" "0.55" "0.53"))
              newService))) by (rewrite E; reflexivity).
    rewrite Hres. vm_compute. reflexivity.
Defined.

End ServiceTerminalFacts.

(** ** The Telegram bot: cooldowns and batches *)

Module TelegramOpsFacts.

Import Telegram TelegramOps ServiceScanFacts Samples.

Lemma sendArbitrageAlert_sent (svc : TelegramBotService) (api : Api)
    (opp : Opportunity) (now stamp : Z) :
  sent (sendArbitrageAlert svc api opp now stamp) = true ->
  shouldSendAlert svc (marketId (market opp)) now = true
  /\ after (sendArbitrageAlert svc api opp now stamp)
     = {| config := config svc;
          lastAlertTime := <[marketId (market opp) := stamp]> (lastAlertTime svc);
          cooldownMs := cooldownMs svc |}.
Proof.
  unfold sendArbitrageAlert, sent, after.
  destruct (shouldSendAlert svc (marketId (market opp)) now); simpl;
    [|discriminate].
  destruct (sendMessage svc api (FormatTelegramMessage opp) MarkdownV2)
    as [ok1 out1].
  destruct ok1; simpl; [auto|].
  destruct (sendMessage svc api (FormatPlainMessage opp) NoParseMode)
    as [ok2 out2].
  destruct ok2; simpl; [auto|discriminate].
Qed.

Lemma sendArbitrageAlert_unsent (svc : TelegramBotService) (api : Api)
    (opp : Opportunity) (now stamp : Z) :
  sent (sendArbitrageAlert svc api opp now stamp) = false ->
  after (sendArbitrageAlert svc api opp now stamp) = svc.
Proof.
  unfold sendArbitrageAlert, sent, after.
  destruct (shouldSendAlert svc (marketId (market opp)) now); simpl;
    [|reflexivity].
  destruct (sendMessage svc api (FormatTelegramMessage opp) MarkdownV2)
    as [ok1 out1].
  destruct ok1; simpl; [discriminate|].
  destruct (sendMessage svc api (FormatPlainMessage opp) NoParseMode)
    as [ok2 out2].
  destruct ok2; simpl; [discriminate|reflexivity].
Qed.

Lemma shouldSendAlert_stamped (svc : TelegramBotService) (key : string)
    (stamp later : Z) :
  lastAlertTime svc !! key = Some stamp -> stamp <> 0 ->
  shouldSendAlert svc key later = negb (later - stamp <=? cooldownMs svc).
Proof.
  intros Hl Hs. unfold shouldSendAlert. rewrite Hl.
  destruct (Z.eqb_spec stamp 0); [congruence|].
  destruct (Z.leb_spec (later - stamp) (cooldownMs svc)); simpl; lia.
Qed.

(** After an alert for a market was delivered and stamped at a time
    other than the epoch, the bot suppresses the next alert for that
    market, sending nothing, as long as the time since the stamp is at
    most the cooldown window, and allows it afterwards; the other
    markets are gated as before.  Clearing the cooldown of the market
    allows it again at once and leaves the other markets as they were;
    clearing all cooldowns allows every market; and a new cooldown
    window applies to the stamps already recorded. *)
Theorem cooldown_round_trip (svc : TelegramBotService) (api : Api)
    (opp : Opportunity) (now stamp : Z) :
  sent (sendArbitrageAlert svc api opp now stamp) = true ->
  stamp <> 0 ->
  let key := marketId (market opp) in
  let svc' := after (sendArbitrageAlert svc api opp now stamp) in
  (forall later,
     shouldSendAlert svc' key later = negb (later - stamp <=? cooldownMs svc))
  /\ (forall later stamp',
        later - stamp <= cooldownMs svc ->
        sendArbitrageAlert svc' api opp later stamp' = (false, svc', []))
  /\ (forall other later,
        other <> key ->
        shouldSendAlert svc' other later = shouldSendAlert svc other later)
  /\ (forall later, shouldSendAlert (clearCooldown svc' key) key later = true)
  /\ (forall other later,
        other <> key ->
        shouldSendAlert (clearCooldown svc' key) other later
        = shouldSendAlert svc other later)
  /\ (forall k later, shouldSendAlert (clearAllCooldowns svc') k later = true)
  /\ (forall ms later,
        shouldSendAlert (setCooldown svc' ms) key later
        = negb (later - stamp <=? ms)).
Proof.
  intros Hsent Hstamp. cbv zeta.
  destruct (sendArbitrageAlert_sent _ _ _ _ _ Hsent) as [_ ->].
  set (key := marketId (market opp)).
  set (svc' := Build_TelegramBotService _ _ _).
  assert (Hl : lastAlertTime svc' !! key = Some stamp)
    by (apply lookup_insert_eq).
  assert (Hgate : forall later,
            shouldSendAlert svc' key later
            = negb (later - stamp <=? cooldownMs svc)).
  { intros later. exact (shouldSendAlert_stamped svc' key stamp later Hl Hstamp). }
  split; [exact Hgate|]. split.
  { intros later stamp' Hle. unfold sendArbitrageAlert.
    change (marketId (market opp)) with key. rewrite Hgate.
    destruct (Z.leb_spec (later - stamp) (cooldownMs svc)); [reflexivity|lia]. }
  split.
  { intros other later Hne. unfold shouldSendAlert, svc'. cbn [lastAlertTime cooldownMs].
    rewrite lookup_insert_ne by congruence. reflexivity. }
  split.
  { intros later. unfold shouldSendAlert, clearCooldown. cbn [lastAlertTime].
    rewrite lookup_delete_eq. reflexivity. }
  split.
  { intros other later Hne. unfold shouldSendAlert, clearCooldown, svc'.
    cbn [lastAlertTime cooldownMs].
    rewrite lookup_delete_ne by congruence.
    rewrite lookup_insert_ne by congruence. reflexivity. }
  split.
  { intros k later. unfold shouldSendAlert, clearAllCooldowns. cbn [lastAlertTime].
    rewrite lookup_empty. reflexivity. }
  intros ms later.
  exact (shouldSendAlert_stamped (setCooldown svc' ms) key stamp later Hl Hstamp).
Qed.

(** The first alert for a market, delivered at 31005, then a second
    attempt 59 seconds later and one 61 seconds later. *)
Lemma cooldown_round_trip_witness :
  shouldSendAlert
    (after (sendArbitrageAlert (botWith ∅) telegramUp
              (opportunityFor "0xabc" 4) 31000 31005))
    "0xabc" 90005 = false
  /\ shouldSendAlert
       (after (sendArbitrageAlert (botWith ∅) telegramUp
                 (opportunityFor "0xabc" 4) 31000 31005))
       "0xabc" 92005 = true
  /\ shouldSendAlert
       (clearCooldown
          (after (sendArbitrageAlert (botWith ∅) telegramUp
                    (opportunityFor "0xabc" 4) 31000 31005))
          "0xabc")
       "0xabc" 90005 = true.
Proof.
  destruct (cooldown_round_trip (botWith ∅) telegramUp (opportunityFor "0xabc" 4)
              31000 31005) as (Hgate & _ & _ & Hclear & _).
  - vm_compute. reflexivity.
  - discriminate.
  - split; [|split].
    + exact (Hgate 90005).
    + exact (Hgate 92005).
    + exact (Hclear 90005).
Defined.

(** The batch, one opportunity at a time. *)
Lemma sendBatchAlerts_acc (api : Api) (l : list (Opportunity * (Z * Z)))
    (n : Z) (svc : TelegramBotService) (out : list Post) :
  fold_left
    (fun '(sent, svc, out) '(opp, (now, stamp)) =>
       let '(success, svc', out') := sendArbitrageAlert svc api opp now stamp in
       (if success then sent + 1 else sent, svc', out ++ out'))
    l (n, svc, out)
  = let '(c, svc', o) := sendBatchAlerts svc api l in (n + c, svc', out ++ o).
Proof.
  unfold sendBatchAlerts. revert n svc out.
  induction l as [|[opp [now stamp]] l IH]; intros n svc out.
  - simpl. rewrite Z.add_0_r, app_nil_r. reflexivity.
  - cbn [fold_left].
    destruct (sendArbitrageAlert svc api opp now stamp) as [[ok svc1] out1].
    rewrite (IH (if ok then n + 1 else n) svc1 (out ++ out1)).
    rewrite (IH (if ok then 0 + 1 else 0) svc1 ([] ++ out1)).
    destruct (fold_left _ l (0, svc1, [])) as [[c svc2] o].
    destruct ok; simpl; rewrite <- ?app_assoc; f_equal; f_equal; lia.
Qed.

Lemma sendBatchAlerts_cons (api : Api) (svc : TelegramBotService)
    (opp : Opportunity) (now stamp : Z) (l : list (Opportunity * (Z * Z))) :
  sendBatchAlerts svc api ((opp, (now, stamp)) :: l)
  = let r := sendArbitrageAlert svc api opp now stamp in
    let '(c, svc', o) := sendBatchAlerts (after r) api l in
    ((if sent r then 1 else 0) + c, svc', outbox r ++ o).
Proof.
  cbv zeta. unfold sendBatchAlerts at 1. cbn [fold_left].
  unfold sent, after, outbox.
  destruct (sendArbitrageAlert svc api opp now stamp) as [[ok svc1] out1].
  rewrite sendBatchAlerts_acc. cbn [fst snd].
  destruct (sendBatchAlerts svc1 api l) as [[c svc2] o].
  destruct ok; reflexivity.
Qed.

(** The accepted requests of one alert: one if it was sent, none
    otherwise. *)
Lemma accepted_outbox (svc : TelegramBotService) (api : Api)
    (opp : Opportunity) (now stamp : Z) :
  let r := sendArbitrageAlert svc api opp now stamp in
  length (filter (fun p => accepted api p = true) (outbox r))
  = if sent r then 1%nat else 0%nat.
Proof.
  cbv zeta. unfold sendArbitrageAlert, sent, outbox, sendMessage.
  destruct (shouldSendAlert svc (marketId (market opp)) now); simpl;
    [|reflexivity].
  destruct (negb _ || _ || _); simpl; [reflexivity|].
  destruct (api (FormatTelegramMessage opp) MarkdownV2) as [[|]|] eqn:E1; simpl.
  - rewrite filter_cons_True; [reflexivity|].
    unfold accepted. simpl. rewrite E1. reflexivity.
  - destruct (api (FormatPlainMessage opp) NoParseMode) as [[|]|] eqn:E2; simpl.
    + rewrite filter_cons_False by (unfold accepted; simpl; rewrite E1; discriminate).
      rewrite filter_cons_True; [reflexivity|].
      unfold accepted. simpl. rewrite E2. reflexivity.
    + rewrite filter_cons_False by (unfold accepted; simpl; rewrite E1; discriminate).
      rewrite filter_cons_False by (unfold accepted; simpl; rewrite E2; discriminate).
      reflexivity.
    + rewrite filter_cons_False by (unfold accepted; simpl; rewrite E1; discriminate).
      rewrite filter_cons_False by (unfold accepted; simpl; rewrite E2; discriminate).
      reflexivity.
  - destruct (api (FormatPlainMessage opp) NoParseMode) as [[|]|] eqn:E2; simpl.
    + rewrite filter_cons_False by (unfold accepted; simpl; rewrite E1; discriminate).
      rewrite filter_cons_True; [reflexivity|].
      unfold accepted. simpl. rewrite E2. reflexivity.
    + rewrite filter_cons_False by (unfold accepted; simpl; rewrite E1; discriminate).
      rewrite filter_cons_False by (unfold accepted; simpl; rewrite E2; discriminate).
      reflexivity.
    + rewrite filter_cons_False by (unfold accepted; simpl; rewrite E1; discriminate).
      rewrite filter_cons_False by (unfold accepted; simpl; rewrite E2; discriminate).
      reflexivity.
Qed.

(** What a batch of alerts returns and sends: the count is the number
    of requests the API accepted, it lies between zero and the size of
    the batch, at most two requests go out per opportunity, each about
    an opportunity of the batch; the bot keeps its configuration and its
    cooldown window; and when the count is zero the bot is as it was. *)
Theorem sendBatchAlerts_count (svc : TelegramBotService) (api : Api)
    (l : list (Opportunity * (Z * Z))) :
  let '(count, svc', out) := sendBatchAlerts svc api l in
  count = Z.of_nat (length (filter (fun p => accepted api p = true) out))
  /\ 0 <= count <= Z.of_nat (length l)
  /\ (length out <= 2 * length l)%nat
  /\ Forall (fun p => subject p ∈ (fst <$> l)) out
  /\ config svc' = config svc
  /\ cooldownMs svc' = cooldownMs svc
  /\ (count = 0 -> svc' = svc).
Proof.
  revert svc. induction l as [|[opp [now stamp]] l IH]; intros svc.
  - simpl. repeat match goal with |- _ /\ _ => split end;
      try reflexivity; try lia; try constructor.
  - rewrite sendBatchAlerts_cons. cbv zeta.
    pose proof (accepted_outbox svc api opp now stamp) as Hacc.
    destruct (sendArbitrageAlert_outbox svc api opp now stamp) as [Hsub Hlen].
    pose proof (sendArbitrageAlert_sent svc api opp now stamp) as Hsent.
    pose proof (sendArbitrageAlert_unsent svc api opp now stamp) as Hunsent.
    cbv zeta in Hacc.
    set (r := sendArbitrageAlert svc api opp now stamp) in *.
    specialize (IH (after r)).
    destruct (sendBatchAlerts (after r) api l) as [[c svc2] o].
    destruct IH as (Hc & Hrange & Hout & Hfor & Hcfg & Hcd & Hzero).
    assert (Hstate : config (after r) = config svc
                     /\ cooldownMs (after r) = cooldownMs svc).
    { destruct (sent r) eqn:E.
      - destruct (Hsent eq_refl) as [_ ->]. split; reflexivity.
      - rewrite (Hunsent eq_refl). split; reflexivity. }
    destruct Hstate as [Hcfg1 Hcd1].
    split.
    { rewrite filter_app, length_app, Hacc, Hc. destruct (sent r); lia. }
    split.
    { cbn [length]. destruct (sent r); lia. }
    split.
    { rewrite length_app. cbn [length]. lia. }
    split.
    { apply Forall_app. split.
      - eapply Forall_impl; [exact Hsub|]. intros p ->. rewrite fmap_cons. left.
      - eapply Forall_impl; [exact Hfor|]. intros p Hp. rewrite fmap_cons.
        right. exact Hp. }
    split; [congruence|]. split; [congruence|].
    intros Hz. destruct (sent r) eqn:E; [lia|].
    rewrite Hzero by lia. apply Hunsent. reflexivity.
Qed.

(** The markets alerted by one attempt. *)
Lemma alerted_outbox (svc : TelegramBotService) (api : Api)
    (opp : Opportunity) (now stamp : Z) :
  let r := sendArbitrageAlert svc api opp now stamp in
  (fun p => marketId (market (subject p)))
    <$> filter (fun p => accepted api p = true) (outbox r)
  = if sent r then [marketId (market opp)] else [].
Proof.
  cbv zeta.
  pose proof (accepted_outbox svc api opp now stamp) as Hlen.
  destruct (sendArbitrageAlert_outbox svc api opp now stamp) as [Hsub _].
  cbv zeta in Hlen.
  set (ps := filter _ _) in *.
  assert (Hps : Forall (fun p => subject p = opp) ps).
  { rewrite Forall_forall in *. intros p Hp. apply Hsub.
    apply list_elem_of_filter in Hp. tauto. }
  destruct (sent _).
  - destruct ps as [|p [|q ps]]; try discriminate.
    apply Forall_cons in Hps as [Hp _]. cbn [fmap list_fmap]. rewrite Hp.
    reflexivity.
  - destruct ps; [reflexivity|discriminate].
Qed.

Lemma batch_once_per_market (api : Api)
    (l : list (Opportunity * (Z * Z))) (svc : TelegramBotService) :
  timely (cooldownMs svc) l ->
  let '(_, _, out) := sendBatchAlerts svc api l in
  let alerted :=
    (fun p => marketId (market (subject p)))
      <$> filter (fun p => accepted api p = true) out in
  NoDup alerted
  /\ (forall k s,
        k ∈ alerted ->
        lastAlertTime svc !! k = Some s ->
        s <> 0 ->
        ~ Forall (fun x => fst (snd x) - s <= cooldownMs svc) l).
Proof.
  revert svc. induction l as [|[opp [now stamp]] l IH]; intros svc Htimely.
  - simpl. split; [constructor|]. intros k s Hk. inversion Hk.
  - destruct Htimely as (Hstamp & Hwindow & Htimely).
    rewrite sendBatchAlerts_cons. cbv zeta.
    pose proof (alerted_outbox svc api opp now stamp) as Hkeys. cbv zeta in Hkeys.
    pose proof (sendArbitrageAlert_sent svc api opp now stamp) as Hsent.
    pose proof (sendArbitrageAlert_unsent svc api opp now stamp) as Hunsent.
    set (r := sendArbitrageAlert svc api opp now stamp) in *.
    set (key := marketId (market opp)) in *.
    specialize (IH (after r)).
    destruct (sent r) eqn:E.
    + destruct (Hsent eq_refl) as [Hallow Hafter].
      assert (Hcd : cooldownMs (after r) = cooldownMs svc)
        by (rewrite Hafter; reflexivity).
      assert (Hlk : lastAlertTime (after r) !! key = Some stamp)
        by (rewrite Hafter; apply lookup_insert_eq).
      assert (Hother : forall k, k <> key ->
                lastAlertTime (after r) !! k = lastAlertTime svc !! k).
      { intros k Hne. rewrite Hafter. cbn [lastAlertTime].
        apply lookup_insert_ne. congruence. }
      rewrite Hcd in IH. specialize (IH Htimely).
      destruct (sendBatchAlerts (after r) api l) as [[c svc2] o].
      cbv zeta in IH. destruct IH as [Hnd Hnb].
      rewrite filter_app, fmap_app, Hkeys. simpl.
      assert (Hhead : forall s, lastAlertTime svc !! key = Some s -> s <> 0 ->
                ~ now - s <= cooldownMs svc).
      { intros s Hs Hne Hle.
        rewrite (shouldSendAlert_stamped svc key s now Hs Hne) in Hallow.
        destruct (Z.leb_spec (now - s) (cooldownMs svc)); [discriminate|lia]. }
      split.
      * constructor; [|exact Hnd].
        intros Hin. exact (Hnb key stamp Hin Hlk Hstamp Hwindow).
      * intros k s Hk Hs Hne Hall.
        apply Forall_cons in Hall as [Hfirst Hrest]. cbn [fst snd] in Hfirst.
        destruct (decide (k = key)) as [->|Hkne].
        -- exact (Hhead s Hs Hne Hfirst).
        -- apply elem_of_cons in Hk as [->|Hk]; [congruence|].
           rewrite <- (Hother k Hkne) in Hs.
           exact (Hnb k s Hk Hs Hne Hrest).
    + rewrite (Hunsent eq_refl) in *. specialize (IH Htimely).
      destruct (sendBatchAlerts svc api l) as [[c svc2] o].
      cbv zeta in IH. destruct IH as [Hnd Hnb].
      rewrite filter_app, fmap_app, Hkeys. simpl.
      split; [exact Hnd|].
      intros k s Hk Hs Hne Hall.
      apply Forall_cons in Hall as [_ Hrest].
      exact (Hnb k s Hk Hs Hne Hrest).
Qed.

Lemma batch_count_accepted (api : Api) (l : list (Opportunity * (Z * Z)))
    (svc : TelegramBotService) :
  fst (fst (sendBatchAlerts svc api l))
  = Z.of_nat (length (filter (fun p => accepted api p = true)
                             (snd (sendBatchAlerts svc api l)))).
Proof.
  revert svc. induction l as [|[opp [now stamp]] l IH]; intros svc.
  - reflexivity.
  - rewrite sendBatchAlerts_cons. cbv zeta.
    pose proof (accepted_outbox svc api opp now stamp) as Hacc. cbv zeta in Hacc.
    set (r := sendArbitrageAlert svc api opp now stamp) in *.
    specialize (IH (after r)).
    destruct (sendBatchAlerts (after r) api l) as [[c svc2] o].
    cbn [fst snd] in *.
    rewrite filter_app, length_app, Hacc, IH. destruct (sent r); lia.
Qed.

(** Within a batch whose clock readings stay inside the cooldown window
    no market is alerted twice, a market whose recorded cooldown covers
    the whole batch is not alerted at all, and the count returned is the
    number of markets alerted. *)
Theorem sendBatchAlerts_once_per_market (api : Api)
    (l : list (Opportunity * (Z * Z))) (svc : TelegramBotService) :
  timely (cooldownMs svc) l ->
  let '(count, _, out) := sendBatchAlerts svc api l in
  let alerted :=
    (fun p => marketId (market (subject p)))
      <$> filter (fun p => accepted api p = true) out in
  NoDup alerted
  /\ (forall k s,
        k ∈ alerted ->
        lastAlertTime svc !! k = Some s ->
        s <> 0 ->
        ~ Forall (fun x => fst (snd x) - s <= cooldownMs svc) l)
  /\ count = Z.of_nat (length alerted).
Proof.
  intros Htimely.
  pose proof (batch_once_per_market api l svc Htimely) as Honce.
  pose proof (batch_count_accepted api l svc) as Hcount.
  destruct (sendBatchAlerts svc api l) as [[count svc'] out].
  cbv zeta in *. cbn [fst snd] in Hcount. destruct Honce as [Hnd Hblocked].
  split; [exact Hnd|]. split; [exact Hblocked|].
  rewrite length_fmap. exact Hcount.
Qed.

(** The same market offered twice within half a second: one request is
    accepted. *)
Lemma sendBatchAlerts_once_per_market_witness :
  (fun p => marketId (market (subject p)))
    <$> filter (fun p => accepted telegramUp p = true)
          (snd (sendBatchAlerts (botWith ∅) telegramUp
                  [(opportunityFor "0xabc" 4, (31000, 31005));
                   (opportunityFor "0xabc" 5, (31505, 31510))]))
  = ["0xabc"%string].
Proof.
  pose proof (sendBatchAlerts_once_per_market telegramUp
                [(opportunityFor "0xabc" 4, (31000, 31005));
                 (opportunityFor "0xabc" 5, (31505, 31510))]
                (botWith ∅)) as Honce.
  destruct (sendBatchAlerts (botWith ∅) telegramUp _) as [[c svc'] out] eqn:E.
  cbv zeta in Honce. destruct Honce as [Hnd _].
  - simpl. repeat split; try discriminate; repeat constructor; simpl; lia.
  - change out with (snd (c, svc', out)). rewrite <- E. vm_compute. reflexivity.
Defined.

(** The bot made from the two environment variables: there is none
    exactly when a variable is missing or empty; otherwise the bot is
    enabled for that token and chat with a cooldown of one minute, its
    gate lets every market through, and each of its messages goes to
    the API once, the answer of the API being its result. *)
Theorem createTelegramBot_configured (token chat : option string) :
  match createTelegramBot token chat with
  | None => strTruthy token = false \/ strTruthy chat = false
  | Some bot =>
      token = Some (botToken (config bot))
      /\ chat = Some (chatId (config bot))
      /\ botToken (config bot) <> ""%string
      /\ chatId (config bot) <> ""%string
      /\ enabled (config bot) = true
      /\ cooldownMs bot = 60000
      /\ (forall key now, shouldSendAlert bot key now = true)
      /\ (forall api text mode,
            sendMessage bot api text mode
            = (accepted api (text, mode), [(text, mode)]))
  end.
Proof.
  unfold createTelegramBot.
  destruct token as [t|]; [|left; reflexivity].
  destruct chat as [c|]; [|simpl; rewrite orb_true_r; right; reflexivity].
  simpl strTruthy.
  destruct (String.eqb_spec t "") as [->|Ht]; [left; reflexivity|].
  destruct (String.eqb_spec c "") as [->|Hc]; [right; reflexivity|].
  simpl negb. cbv iota. simpl orb. cbv iota.
  assert (Et : strOr (Some t) "" = t).
  { simpl. destruct (String.eqb_spec t ""); [congruence|reflexivity]. }
  assert (Ec : strOr (Some c) "" = c).
  { simpl. destruct (String.eqb_spec c ""); [congruence|reflexivity]. }
  rewrite Et, Ec. cbn [config botToken chatId enabled cooldownMs].
  split; [reflexivity|]. split; [reflexivity|]. split; [exact Ht|].
  split; [exact Hc|]. split; [reflexivity|]. split; [reflexivity|]. split.
  - intros key now. unfold shouldSendAlert. cbn [lastAlertTime].
    rewrite lookup_empty. reflexivity.
  - intros api text mode. unfold sendMessage, accepted.
    cbn [config botToken chatId enabled fst snd].
    destruct (String.eqb_spec t ""); [congruence|].
    destruct (String.eqb_spec c ""); [congruence|].
    simpl. destruct (api text mode); reflexivity.
Qed.

End TelegramOpsFacts.

(** ** The lists of the standalone server stay in good order *)

Module StandaloneInvariantFacts.

Import JsNumFacts JsArrayFacts SortFacts AcceptedFacts SpecWords Standalone
  Invariants Samples.

Lemma addLog_ok (g : Globals) (now : Z) (message : LogMsg) (type : LogType) :
  globalsOk g -> globalsOk (addLog g now message type).
Proof.
  intros (Hnm & Hlm & Hlogs). unfold globalsOk, addLog.
  cbn [nearMisses liveMarkets terminalLogs].
  split; [exact Hnm|]. split; [exact Hlm|].
  destruct (MAX_LOGS <? length _)%nat eqn:E.
  - rewrite removelast_firstn_len, length_take. simpl. unfold MAX_LOGS in *. lia.
  - apply Nat.ltb_ge in E. exact E.
Qed.

Lemma fetchMarkets_ok (w : World) (g : Globals) (limit : Z) :
  globalsOk g -> globalsOk (snd (fetchMarkets w g limit)).
Proof.
  intros Hg. unfold fetchMarkets.
  destruct (marketsResponse w); simpl; repeat apply addLog_ok; exact Hg.
Qed.

Section WithBuiltins.
Context `{Builtins}.

Lemma addNearMiss_ok (g : Globals) (w : World) (m : Market)
    (yesAsk noAsk yesBid noBid combinedAsk combinedBid : num)
    (volume : option string) :
  nabs (nsub (Num 1) combinedAsk) <> NaN ->
  globalsOk g ->
  globalsOk (addNearMiss g w m yesAsk noAsk yesBid noBid combinedAsk
               combinedBid volume).
Proof.
  intros Hdev ((Hs & Hnum & Hnd & Hlen) & Hlm & Hlogs).
  set (entry := newNearMiss w m yesAsk noAsk yesBid noBid combinedAsk
                  combinedBid volume).
  destruct (upsert_keeps_order byDeviation nm_slug
              (fun n => ngt (nm_deviation n) (nabs (nsub (Num 1) combinedAsk)))
              entry (nearMisses g) MAX_NEAR_MISSES)
    as (Hs' & Hnd' & Hlen' & Hin'); try assumption.
  - intros a b c Hab Hbc. exact (nle_trans _ _ _ Hab Hbc).
  - intros y _ Hy. apply nlt_nle. exact Hy.
  - intros y Hy Hp. apply nlt_false_nle; [|exact Hdev|exact Hp].
    rewrite Forall_forall in Hnum. exact (Hnum y Hy).
  - unfold globalsOk, addNearMiss. cbn [nearMisses liveMarkets terminalLogs].
    split; [|split; assumption].
    split; [exact Hs'|]. split; [|split; assumption].
    rewrite Forall_forall in *. intros z Hz.
    destruct (Hin' z Hz) as [->|[Hz' _]]; [exact Hdev|exact (Hnum z Hz')].
Qed.

(** Every update of the live-market list inserts or replaces by market
    slug and keeps the list sorted by liquidity descending, free of
    duplicates and within its capacity of 15; the other lists are left
    alone. *)
Theorem addLiveMarket_keeps_list_ok (g : Globals) (w : World) (m : Market)
    (yesAsk noAsk yesBid noBid yesLiquidity noLiquidity : num) :
  nadd yesLiquidity noLiquidity <> NaN ->
  liveMarketListOk (liveMarkets g) ->
  let g' := addLiveMarket g w m yesAsk noAsk yesBid noBid yesLiquidity
              noLiquidity in
  liveMarketListOk (liveMarkets g')
  /\ (forall x, x ∈ liveMarkets g' ->
        (lm_slug x = market_slug m
         /\ lm_liquidity x = nadd yesLiquidity noLiquidity
         /\ lm_timestamp x = clock w)
        \/ (x ∈ liveMarkets g /\ lm_slug x <> market_slug m))
  /\ ((length (liveMarkets g) < MAX_LIVE_MARKETS)%nat ->
      market_slug m ∈ lm_slug <$> liveMarkets g')
  /\ terminalLogs g' = terminalLogs g
  /\ nearMisses g' = nearMisses g.
Proof.
  intros Hliq (Hs & Hnum & Hnd & Hlen). cbv zeta.
  unfold addLiveMarket. cbn [nearMisses liveMarkets terminalLogs].
  set (entry := Build_LiveMarket _ _ _ _ _ _ _ _ _ _ _ _ _ _ _).
  destruct (upsert_keeps_order (descBy lm_liquidity) lm_slug
              (fun x => nlt (lm_liquidity x) (nadd yesLiquidity noLiquidity))
              entry (liveMarkets g) MAX_LIVE_MARKETS)
    as (Hs' & Hnd' & Hlen' & Hin'); try assumption.
  - intros a b c Hab Hbc. exact (nle_trans _ _ _ Hbc Hab).
  - intros y _ Hy. apply nlt_nle. exact Hy.
  - intros y Hy Hp. apply nlt_false_nle; [exact Hliq| |exact Hp].
    rewrite Forall_forall in Hnum. exact (Hnum y Hy).
  - change (lm_slug entry) with (market_slug m) in *.
    split; [|split; [|split; [|split; reflexivity]]].
    + split; [exact Hs'|]. split; [|split; assumption].
      rewrite Forall_forall in *. intros z Hz.
      destruct (Hin' z Hz) as [->|[Hz' _]]; [exact Hliq|exact (Hnum z Hz')].
    + intros x Hx. destruct (Hin' x Hx) as [->|Hold]; [left|right; exact Hold].
      repeat split; reflexivity.
    + intros Hroom. rewrite popWhileOver_take, take_ge.
      * apply list_elem_of_fmap. exists entry. split; [reflexivity|].
        rewrite NearMissFacts.insertBefore_Permutation. left.
      * rewrite length_insertBefore.
        pose proof (sublist_length _ _
                      (removeFirst_sublist
                         (fun n => String.eqb (lm_slug n) (market_slug m))
                         (liveMarkets g))).
        lia.
Qed.

Lemma addLiveMarket_ok (g : Globals) (w : World) (m : Market)
    (yesAsk noAsk yesBid noBid yesLiquidity noLiquidity : num) :
  nadd yesLiquidity noLiquidity <> NaN ->
  globalsOk g ->
  globalsOk (addLiveMarket g w m yesAsk noAsk yesBid noBid yesLiquidity
               noLiquidity).
Proof.
  intros Hliq (Hnm & (Hs & Hnum & Hnd & Hlen) & Hlogs).
  set (entry := {| lm_id := randomUUID w (market_slug m);
                   lm_question := question m;
                   lm_slug := market_slug m;
                   lm_category := strOr (category m) "Other";
                   lm_yesPrice := ndiv (nadd yesBid yesAsk) (Num 2);
                   lm_noPrice := ndiv (nadd noBid noAsk) (Num 2);
                   lm_yesBid := yesBid; lm_yesAsk := yesAsk;
                   lm_noBid := noBid; lm_noAsk := noAsk;
                   lm_spread := ndiv (nadd (nsub yesAsk yesBid) (nsub noAsk noBid))
                                     (Num 2);
                   lm_liquidity := nadd yesLiquidity noLiquidity;
                   lm_volume := parseFloat (strOr (volume m) "0");
                   lm_endDate := end_date_iso m;
                   lm_timestamp := clock w |}).
  destruct (upsert_keeps_order (descBy lm_liquidity) lm_slug
              (fun x => nlt (lm_liquidity x) (nadd yesLiquidity noLiquidity))
              entry (liveMarkets g) MAX_LIVE_MARKETS)
    as (Hs' & Hnd' & Hlen' & Hin'); try assumption.
  - intros a b c Hab Hbc. exact (nle_trans _ _ _ Hbc Hab).
  - intros y _ Hy. apply nlt_nle. exact Hy.
  - intros y Hy Hp. apply nlt_false_nle; [exact Hliq| |exact Hp].
    rewrite Forall_forall in Hnum. exact (Hnum y Hy).
  - unfold globalsOk, addLiveMarket. cbn [nearMisses liveMarkets terminalLogs].
    split; [exact Hnm|]. split; [|exact Hlogs].
    split; [exact Hs'|]. split; [|split; assumption].
    rewrite Forall_forall in *. intros z Hz.
    destruct (Hin' z Hz) as [->|[Hz' _]]; [exact Hliq|exact (Hnum z Hz')].
Qed.

End WithBuiltins.

(** The sample lists at capacity are in good order. *)
Lemma fullLiveMarkets_ok : liveMarketListOk (liveMarkets fullGlobals).
Proof.
  split; [|split; [|split]].
  - apply (NearMissFacts.sorted_by_bool _
             (fun a b => nle (lm_liquidity b) (lm_liquidity a))).
    + intros a b E. exact E.
    + vm_compute. reflexivity.
  - apply Forall_fmap, Forall_forall. intros n _. discriminate.
  - apply (bool_decide_unpack _). vm_compute. exact I.
  - vm_compute. lia.
Qed.

Lemma fullGlobals_ok : globalsOk fullGlobals.
Proof.
  split; [exact NearMissFacts.fullNearMisses_ok|].
  split; [exact fullLiveMarkets_ok|]. vm_compute. lia.
Qed.

(** The list at capacity, fifteen live markets a to o with liquidity
    2000 down to 600.  The new market z with liquidity 1350 goes in
    between g and h, and o, of the least liquidity, is dropped.  The
    market c, seen again with liquidity 950, moves from third place to
    between k and l. *)
Lemma addLiveMarket_keeps_list_ok_witness :
  (length (liveMarkets fullGlobals) = 15%nat
   /\ lm_slug <$> liveMarkets fullGlobals
      = ["a"; "b"; "c"; "d"; "e"; "f"; "g"; "h"; "i"; "j"; "k"; "l"; "m";
         "n"; "o"]%string)
  /\ (liveMarketListOk
        (liveMarkets (@addLiveMarket sampleBuiltins fullGlobals
                        (standaloneWorld [] (quotes "0.40" "0.38" "0.55" "0.53"))
                        (marketAt 25) (Num 0.40) (Num 0.55) (Num 0.38) (Num 0.53)
                        (Num 650) (Num 700)))
      /\ lm_slug
           <$> liveMarkets (@addLiveMarket sampleBuiltins fullGlobals
                              (standaloneWorld []
                                 (quotes "0.40" "0.38" "0.55" "0.53"))
                              (marketAt 25) (Num 0.40) (Num 0.55) (Num 0.38)
                              (Num 0.53) (Num 650) (Num 700))
         = ["a"; "b"; "c"; "d"; "e"; "f"; "g"; "z"; "h"; "i"; "j"; "k"; "l";
            "m"; "n"]%string)
  /\ (liveMarketListOk
        (liveMarkets (@addLiveMarket sampleBuiltins fullGlobals
                        (standaloneWorld [] (quotes "0.40" "0.38" "0.55" "0.53"))
                        (marketAt 2) (Num 0.40) (Num 0.55) (Num 0.38) (Num 0.53)
                        (Num 450) (Num 500)))
      /\ lm_slug
           <$> liveMarkets (@addLiveMarket sampleBuiltins fullGlobals
                              (standaloneWorld []
                                 (quotes "0.40" "0.38" "0.55" "0.53"))
                              (marketAt 2) (Num 0.40) (Num 0.55) (Num 0.38)
                              (Num 0.53) (Num 450) (Num 500))
         = ["a"; "b"; "d"; "e"; "f"; "g"; "h"; "i"; "j"; "k"; "c"; "l"; "m";
            "n"; "o"]%string).
Proof.
  split; [split; vm_compute; reflexivity|].
  split.
  - split; [|vm_compute; reflexivity].
    apply (@addLiveMarket_keeps_list_ok sampleBuiltins fullGlobals).
    + discriminate.
    + exact fullLiveMarkets_ok.
  - split; [|vm_compute; reflexivity].
    apply (@addLiveMarket_keeps_list_ok sampleBuiltins fullGlobals).
    + discriminate.
    + exact fullLiveMarkets_ok.
Defined.

Lemma addAlert_keys (srv : PolyClaudeServer) (opp : Opportunity) :
  NoDup (alertKeys srv) ->
  NoDup (alertKeys (addAlert srv opp))
  /\ (length (alerts (addAlert srv opp)) <= 100)%nat
  /\ totalFound (stats srv) <= totalFound (stats (addAlert srv opp))
     <= totalFound (stats srv) + 1.
Proof.
  intros Hnd. unfold alertKeys, addAlert in *.
  destruct (findIndex (sameMarket opp) (alerts srv)) as [idx|] eqn:E;
    cbn [alerts stats totalFound]; rewrite AlertFacts.cap_take.
  - destruct (findIndex_Some _ _ _ E) as (old & Hold & Hsame).
    apply String.eqb_eq in Hsame.
    assert (Hkeys : marketKey <$> <[idx := opp]> (alerts srv)
                    = marketKey <$> alerts srv).
    { rewrite list_fmap_insert. apply list_insert_id.
      rewrite list_lookup_fmap, Hold. simpl. f_equal. exact Hsame. }
    split; [|split; [rewrite length_take; lia|lia]].
    rewrite fmap_take, Hkeys.
    apply (sublist_NoDup _ _ Hnd). apply sublist_take.
  - apply findIndex_None in E. rewrite Forall_forall in E.
    assert (Hout : marketKey opp ∉ marketKey <$> alerts srv).
    { intros Hin. apply list_elem_of_fmap in Hin as (a & Ha & Hin).
      specialize (E a Hin). unfold sameMarket in E.
      apply String.eqb_neq in E. apply E. symmetry. exact Ha. }
    split; [|split; [rewrite length_take; lia|lia]].
    rewrite fmap_take, fmap_cons.
    apply (sublist_NoDup _ (marketKey opp :: (marketKey <$> alerts srv))).
    + apply NoDup_cons. split; assumption.
    + apply sublist_take.
Qed.

Lemma addAlert_ok (srv : PolyClaudeServer) (opp : Opportunity) :
  NoDup (alertKeys srv) ->
  serverOk (addAlert srv opp)
  /\ config (addAlert srv opp) = config srv
  /\ isScanning (addAlert srv opp) = isScanning srv
  /\ totalScans (stats (addAlert srv opp)) = totalScans (stats srv)
  /\ marketsScanned (stats (addAlert srv opp)) = marketsScanned (stats srv)
  /\ totalFound (stats srv) <= totalFound (stats (addAlert srv opp))
     <= totalFound (stats srv) + 1.
Proof.
  intros Hnd. destruct (addAlert_keys srv opp Hnd) as (Hnd' & Hlen & Hfound).
  split; [|split; [|split; [|split; [|split]]]]; try exact Hfound.
  - unfold serverOk. split; [exact Hnd'|]. split; [exact Hlen|].
    unfold addAlert.
    destruct (match findIndex (sameMarket opp) (alerts srv) with
              | Some idx => _
              | None => _
              end) as [alerts1 totalFound1].
    cbn [alerts stats activeOpps bestProfit]. split; reflexivity.
  - unfold addAlert.
    destruct (match findIndex (sameMarket opp) (alerts srv) with
              | Some idx => _
              | None => _
              end) as [alerts1 totalFound1]. reflexivity.
  - unfold addAlert.
    destruct (match findIndex (sameMarket opp) (alerts srv) with
              | Some idx => _
              | None => _
              end) as [alerts1 totalFound1]. reflexivity.
  - unfold addAlert.
    destruct (match findIndex (sameMarket opp) (alerts srv) with
              | Some idx => _
              | None => _
              end) as [alerts1 totalFound1]. reflexivity.
  - unfold addAlert.
    destruct (match findIndex (sameMarket opp) (alerts srv) with
              | Some idx => _
              | None => _
              end) as [alerts1 totalFound1]. reflexivity.
Qed.

(** After any alert added to a list with one record per market, the
    alert list of the standalone server has one record per market and
    at most 100 records, the number of active opportunities is its
    length, and the best profit shown is the net profit of one of its
    records and not below the net profit of any of them, provided the
    net profits are numbers. *)
Theorem standalone_addAlert_keeps_server_ok (srv : PolyClaudeServer)
    (opp : Opportunity) :
  NoDup (alertKeys srv) ->
  let srv' := addAlert srv opp in
  serverOk srv'
  /\ alerts srv' <> []
  /\ (Forall (fun a => netProfitPercent a <> NaN) (opp :: alerts srv) ->
      (exists a, a ∈ alerts srv'
                 /\ netProfitPercent a = bestProfit (stats srv'))
      /\ Forall (fun a => nle (netProfitPercent a) (bestProfit (stats srv')) = true)
                (alerts srv')).
Proof.
  intros Hnd. cbv zeta.
  destruct (addAlert_ok srv opp Hnd) as (Hok & _).
  split; [exact Hok|].
  assert (Hmem : forall a, a ∈ alerts (addAlert srv opp) -> a ∈ opp :: alerts srv).
  { intros a. unfold addAlert.
    destruct (findIndex (sameMarket opp) (alerts srv)) as [idx|];
      cbn [alerts]; rewrite AlertFacts.cap_take; intros Ha.
    - assert (Ha' : a ∈ <[idx := opp]> (alerts srv))
        by (apply (elem_of_sublist _ _ _ Ha), sublist_take).
      apply list_elem_of_lookup in Ha' as (i & Hi).
      destruct (decide (i = idx)) as [->|Hne].
      + rewrite list_lookup_insert_eq in Hi
          by (apply lookup_lt_Some in Hi; rewrite length_insert in Hi; exact Hi).
        injection Hi as <-. left.
      + rewrite list_lookup_insert_ne in Hi by congruence.
        right. eapply list_elem_of_lookup_2. exact Hi.
    - apply (elem_of_sublist _ _ _ Ha). apply sublist_take. }
  assert (Hne : alerts (addAlert srv opp) <> []).
  { unfold addAlert.
    destruct (findIndex (sameMarket opp) (alerts srv)) as [idx|] eqn:E;
      cbn [alerts]; rewrite AlertFacts.cap_take.
    - destruct (findIndex_Some _ _ _ E) as (old & Hold & _).
      apply lookup_lt_Some in Hold.
      destruct (alerts srv) as [|a l]; [simpl in Hold; lia|].
      destruct idx; simpl; discriminate.
    - simpl. discriminate. }
  split; [exact Hne|].
  intros Hnum.
  destruct Hok as (_ & _ & _ & Hbest). rewrite Hbest.
  destruct (alerts (addAlert srv opp)) as [|a l] eqn:El; [congruence|].
  cbn [length Nat.ltb Nat.leb map].
  assert (Hnums : Forall (fun y => y <> NaN)
                    (netProfitPercent a :: map netProfitPercent l)).
  { change (Forall (fun y => y <> NaN) (map netProfitPercent (a :: l))).
    rewrite Forall_forall. intros y Hy.
    apply list_elem_of_fmap in Hy as (b & -> & Hb).
    rewrite Forall_forall in Hnum. apply Hnum. apply Hmem. exact Hb. }
  destruct (maxOf_upper _ _ Hnums) as [Hin Hall].
  split.
  - change (netProfitPercent a :: map netProfitPercent l)
      with (netProfitPercent <$> (a :: l)) in Hin.
    apply list_elem_of_fmap in Hin as (b & Hb & Hbin).
    exists b. split; [exact Hbin|symmetry; exact Hb].
  - apply Forall_forall. intros b Hb.
    rewrite Forall_forall in Hall. apply Hall.
    change (netProfitPercent a :: map netProfitPercent l)
      with (netProfitPercent <$> (a :: l)).
    apply list_elem_of_fmap. exists b. split; [reflexivity|exact Hb].
Qed.

(** Two alerts for the same market: one record, the later one. *)
Lemma standalone_addAlert_keeps_server_ok_witness :
  serverOk (addAlert (addAlert newServer (opportunityFor "0xabc" 4))
              (opportunityFor "0xabc" 2))
  /\ bestProfit (stats (addAlert (addAlert newServer (opportunityFor "0xabc" 4))
                          (opportunityFor "0xabc" 2))) = Num 2.
Proof.
  destruct (standalone_addAlert_keeps_server_ok
              (addAlert newServer (opportunityFor "0xabc" 4))
              (opportunityFor "0xabc" 2)) as (Hok & _).
  - vm_compute. repeat constructor. inversion 1.
  - split; [exact Hok|]. vm_compute. reflexivity.
Defined.

(** What the steps of a scan keep of a server: its good order, its
    configuration, its scanning flag and its two scan counters; the
    number of opportunities found grows by at most [n]. *)
Lemma addResults_ok (results : list (option Opportunity))
    (srv : PolyClaudeServer) (found : Z) :
  serverOk srv ->
  let '(srv', _) := addResults srv found results in
  serverOk srv'
  /\ config srv' = config srv
  /\ isScanning srv' = isScanning srv
  /\ totalScans (stats srv') = totalScans (stats srv)
  /\ marketsScanned (stats srv') = marketsScanned (stats srv)
  /\ totalFound (stats srv) <= totalFound (stats srv')
     <= totalFound (stats srv) + Z.of_nat (length results).
Proof.
  unfold addResults. revert srv found.
  induction results as [|r results IH]; intros srv found Hok.
  - simpl. repeat match goal with |- _ /\ _ => split end;
      try reflexivity; try exact Hok; lia.
  - cbn [fold_left]. destruct r as [opp|].
    + destruct Hok as (Hnd & _).
      destruct (addAlert_ok srv opp Hnd) as (Hok1 & Hc & Hi & Hs & Hm & Hf).
      specialize (IH (addAlert srv opp) (found + 1) Hok1).
      destruct (fold_left _ results (addAlert srv opp, found + 1)) as [srv' found'].
      destruct IH as (Hok' & Hc' & Hi' & Hs' & Hm' & Hf').
      cbn [length].
      repeat match goal with |- _ /\ _ => split end;
        try congruence; try exact Hok'; lia.
    + specialize (IH srv found Hok).
      destruct (fold_left _ results (srv, found)) as [srv' found'].
      destruct IH as (Hok' & Hc' & Hi' & Hs' & Hm' & Hf').
      cbn [length].
      repeat match goal with |- _ /\ _ => split end;
        try congruence; try exact Hok'; lia.
Qed.

Section WithBuiltins.
Context `{Builtins}.

Lemma scanMarket_globals_ok (w : World) (g : Globals) (m : Market)
    (cfg : ScannerConfig) :
  globalsOk g -> globalsOk (snd (scanMarketForArbitrage w g m cfg)).
Proof.
  intros Hg. unfold scanMarketForArbitrage.
  destruct (tokens m) as [[|yesTok [|noTok rest]]|]; try exact Hg.
  destruct (fetchOrderBook w (token_id yesTok)) as [yesBook|]; [|exact Hg].
  destruct (fetchOrderBook w (token_id noTok)) as [noBook|]; [|exact Hg].
  destruct (bestPrices yesBook noBook) as [bp|]; [|exact Hg].
  cbv zeta.
  assert (Hliq : nadd (sideLiquidity (asks yesBook)) (sideLiquidity (asks noBook))
                 <> NaN).
  { destruct (sideLiquidity_num (asks yesBook)) as [qy ->].
    destruct (sideLiquidity_num (asks noBook)) as [qn ->]. discriminate. }
  pose proof (addLiveMarket_ok g w m (yesBestAsk bp) (noBestAsk bp)
                (yesBestBid bp) (noBestBid bp) _ _ Hliq Hg) as Hg1.
  set (g1 := addLiveMarket _ _ _ _ _ _ _ _ _) in *.
  assert (Hg2 : globalsOk
                  (if nearMissRange (nadd (yesBestAsk bp) (noBestAsk bp))
                   then addNearMiss g1 w m (yesBestAsk bp) (noBestAsk bp)
                          (yesBestBid bp) (noBestBid bp)
                          (nadd (yesBestAsk bp) (noBestAsk bp))
                          (nadd (yesBestBid bp) (noBestBid bp)) (volume m)
                   else g1)).
  { destruct (nearMissRange _) eqn:E; [|exact Hg1].
    apply addNearMiss_ok; [|exact Hg1].
    unfold nearMissRange in E. apply andb_true_iff in E as [E _].
    intros Hnan. rewrite Hnan in E. discriminate. }
  destruct (assess true cfg m yesTok noTok bp _ _ _ _ _); simpl;
    [apply addLog_ok|]; exact Hg2.
Qed.

(** Whatever the catalogue entry, the books and the configuration, one
    market scan of the standalone script leaves its three lists in good
    order: near misses sorted by deviation ascending, live markets by
    liquidity descending, one entry per market, each list within its
    capacity (20, 15 and 100 log lines).  It writes a log line exactly
    when it returns an opportunity, and that line is then the newest
    one. *)
Theorem standalone_scan_keeps_globals_ok (w : World) (g : Globals) (m : Market)
    (cfg : ScannerConfig) :
  globalsOk g ->
  let r := scanMarketForArbitrage w g m cfg in
  globalsOk (snd r)
  /\ (fst r = None -> terminalLogs (snd r) = terminalLogs g)
  /\ (forall opp,
        fst r = Some opp ->
        head (terminalLogs (snd r))
        = Some {| log_time := clock w;
                  log_message := MsgOpportunity (question m) (netProfitPercent opp);
                  log_type := LogSuccess |}).
Proof.
  intros Hg. cbv zeta. split; [apply scanMarket_globals_ok; exact Hg|].
  unfold scanMarketForArbitrage.
  destruct (tokens m) as [[|yesTok [|noTok rest]]|];
    try (split; [reflexivity|discriminate]).
  destruct (fetchOrderBook w (token_id yesTok)) as [yesBook|];
    [|split; [reflexivity|discriminate]].
  destruct (fetchOrderBook w (token_id noTok)) as [noBook|];
    [|split; [reflexivity|discriminate]].
  destruct (bestPrices yesBook noBook) as [bp|];
    [|split; [reflexivity|discriminate]].
  cbv zeta.
  destruct (assess true cfg m yesTok noTok bp _ _ _ _ _) as [opp|]; cbn [fst snd].
  - split; [discriminate|]. intros o [= <-].
    unfold addLog. cbn [terminalLogs].
    destruct (MAX_LOGS <? length _)%nat eqn:E; [|reflexivity].
    apply Nat.ltb_lt in E.
    destruct (terminalLogs _) as [|x l];
      [simpl in E; unfold MAX_LOGS in E; lia|reflexivity].
  - split; [|discriminate]. intros _.
    destruct (nearMissRange _); reflexivity.
Qed.

Lemma scanBatch_ok (w : World) (cfg : ScannerConfig) (batch : list Market)
    (acc : list (option Opportunity)) (g : Globals) :
  globalsOk g ->
  let '(results, g') :=
    fold_left
      (fun '(results, g) m =>
         let '(r, g') := scanMarketForArbitrage w g m cfg in
         (results ++ [r], g'))
      batch (acc, g) in
  globalsOk g' /\ length results = (length acc + length batch)%nat.
Proof.
  revert acc g. induction batch as [|m batch IH]; intros acc g Hg.
  - simpl. split; [exact Hg|lia].
  - cbn [fold_left].
    pose proof (scanMarket_globals_ok w g m cfg Hg) as Hg1.
    destruct (scanMarketForArbitrage w g m cfg) as [r g1]. simpl in Hg1.
    specialize (IH (acc ++ [r]) g1 Hg1).
    destruct (fold_left _ batch (acc ++ [r], g1)) as [results g'].
    destruct IH as [Hg' Hlen]. split; [exact Hg'|].
    rewrite Hlen, length_app. simpl. lia.
Qed.

Lemma scanBatches_ok (w : World) (bs : list (list Market))
    (srv : PolyClaudeServer) (g : Globals) (found : Z) :
  serverOk srv -> globalsOk g ->
  let '(srv', g', _) :=
    fold_left
      (fun '(srv, g, found) batch =>
         let '(results, g') := scanBatch w (config srv) g batch in
         let '(srv', found') := addResults srv found results in
         (srv', g', found'))
      bs (srv, g, found) in
  serverOk srv' /\ globalsOk g'
  /\ config srv' = config srv
  /\ isScanning srv' = isScanning srv
  /\ totalScans (stats srv') = totalScans (stats srv)
  /\ marketsScanned (stats srv') = marketsScanned (stats srv)
  /\ totalFound (stats srv) <= totalFound (stats srv')
     <= totalFound (stats srv) + Z.of_nat (length (concat bs)).
Proof.
  revert srv g found. induction bs as [|batch bs IH]; intros srv g found Hs Hg.
  - simpl. repeat match goal with |- _ /\ _ => split end;
      try reflexivity; try assumption; lia.
  - cbn [fold_left].
    pose proof (scanBatch_ok w (config srv) batch [] g Hg) as Hb.
    unfold scanBatch.
    destruct (fold_left _ batch ([], g)) as [results g1].
    destruct Hb as [Hg1 Hlen]. simpl in Hlen.
    pose proof (addResults_ok results srv found Hs) as Ha.
    destruct (addResults srv found results) as [srv1 found1].
    destruct Ha as (Hs1 & Hc & Hi & Ht & Hm & Hf).
    specialize (IH srv1 g1 found1 Hs1 Hg1).
    destruct (fold_left _ bs (srv1, g1, found1)) as [[srv' g'] found'].
    destruct IH as (Hs' & Hg' & Hc' & Hi' & Ht' & Hm' & Hf').
    cbn [concat]. rewrite length_app.
    repeat match goal with |- _ /\ _ => split end;
      try congruence; try assumption; lia.
Qed.

(** What one call of [runScan] on an idle server keeps and what it
    counts. *)
Lemma runScan_idle_ok (w : World) (srv : PolyClaudeServer) (g : Globals) :
  isScanning srv = false ->
  serverOk srv ->
  globalsOk g ->
  let '(srv', g') := runScan w srv g in
  serverOk srv' /\ globalsOk g'
  /\ isScanning srv' = false
  /\ config srv' = config srv
  /\ totalScans (stats srv') = totalScans (stats srv) + 1
  /\ totalFound (stats srv) <= totalFound (stats srv')
     <= totalFound (stats srv) + 100.
Proof.
  intros Ebusy Hs Hg. unfold runScan. rewrite Ebusy.
  cbn [setIsScanning setStats stats config alerts isScanning totalScans
       marketsScanned totalFound activeOpps bestProfit].
  set (g0 := addLog g (clock w) _ LogInfo).
  assert (Hg0 : globalsOk g0) by (apply addLog_ok; exact Hg).
  pose proof (fetchMarkets_ok w g0 200 Hg0) as Hg1.
  destruct (fetchMarkets w g0 200) as [markets g1]. simpl in Hg1.
  destruct markets as [|m markets].
  { cbn [stats config alerts isScanning totalScans totalFound].
    split.
    { destruct Hs as (H1 & H2 & H3 & H4). repeat split; assumption. }
    split; [apply addLog_ok; exact Hg1|].
    split; [reflexivity|]. split; [reflexivity|].
    split; [reflexivity|simpl; lia]. }
  set (srv1 := setStats _ _).
  assert (Hs1 : serverOk srv1).
  { destruct Hs as (H1 & H2 & H3 & H4). repeat split; assumption. }
  set (g2 := addLog g1 (clock w) _ LogInfo).
  assert (Hg2 : globalsOk g2) by (apply addLog_ok; exact Hg1).
  pose proof (scanBatches_ok w (batches 5 (take 100 (m :: markets))) srv1 g2 0
                Hs1 Hg2) as Hb.
  unfold scanBatches.
  destruct (fold_left _ (batches 5 (take 100 (m :: markets))) (srv1, g2, 0))
    as [[srv' g'] found].
  destruct Hb as (Hs' & Hg' & Hc & Hi & Ht & Hm & Hf).
  rewrite concat_batches in Hf by lia.
  rewrite length_take in Hf.
  cbn [setIsScanning stats config alerts isScanning].
  split.
  { destruct Hs' as (H1 & H2 & H3 & H4). repeat split; assumption. }
  split.
  { destruct (found =? 0); apply addLog_ok; exact Hg'. }
  split; [reflexivity|]. split; [exact Hc|]. split; [exact Ht|].
  change (totalFound (stats srv1)) with (totalFound (stats srv)) in Hf. lia.
Qed.

(** Scan after scan the server and the lists stay in good order, and
    the scanning flag is the one the server had. *)
Lemma runScans_ok (ws : list World) (srv : PolyClaudeServer) (g : Globals) :
  serverOk srv ->
  globalsOk g ->
  serverOk (fst (runScans ws srv g))
  /\ globalsOk (snd (runScans ws srv g))
  /\ isScanning (fst (runScans ws srv g)) = isScanning srv.
Proof.
  revert srv g. induction ws as [|w ws IH]; intros srv g Hs Hg.
  - simpl. auto.
  - cbn [runScans]. destruct (isScanning srv) eqn:Ebusy.
    + unfold runScan. rewrite Ebusy.
      destruct (IH srv g Hs Hg) as (Hs' & Hg' & Hflag').
      split; [exact Hs'|]. split; [exact Hg'|]. congruence.
    + pose proof (runScan_idle_ok w srv g Ebusy Hs Hg) as Hstep.
      destruct (runScan w srv g) as [srv1 g1].
      destruct Hstep as (Hs1 & Hg1 & Hflag & _).
      destruct (IH srv1 g1 Hs1 Hg1) as (Hs' & Hg' & Hflag').
      split; [exact Hs'|]. split; [exact Hg'|]. congruence.
Qed.

(** One call of [runScan] on the standalone server keeps the alert list
    and the three lists of the script in good order, whatever the
    catalogue and the books; the server has the scanning flag and the
    configuration it had before; a call on a busy server changes
    nothing; a call on an idle server counts one scan and finds at most
    100 new opportunities. *)
Theorem standalone_runScan_keeps_invariants (w : World) (srv : PolyClaudeServer)
    (g : Globals) :
  serverOk srv ->
  globalsOk g ->
  let '(srv', g') := runScan w srv g in
  serverOk srv' /\ globalsOk g'
  /\ isScanning srv' = isScanning srv
  /\ config srv' = config srv
  /\ (isScanning srv = true -> srv' = srv /\ g' = g)
  /\ (isScanning srv = false ->
      totalScans (stats srv') = totalScans (stats srv) + 1
      /\ totalFound (stats srv) <= totalFound (stats srv')
         <= totalFound (stats srv) + 100).
Proof.
  intros Hs Hg. destruct (isScanning srv) eqn:Ebusy.
  - unfold runScan. rewrite Ebusy.
    split; [exact Hs|]. split; [exact Hg|]. split; [exact Ebusy|].
    split; [reflexivity|]. split; [auto|discriminate].
  - pose proof (runScan_idle_ok w srv g Ebusy Hs Hg) as Hidle.
    destruct (runScan w srv g) as [srv' g'].
    destruct Hidle as (Hs' & Hg' & Hflag & Hcfg & Hscans & Hfound).
    split; [exact Hs'|]. split; [exact Hg'|]. split; [exact Hflag|].
    split; [exact Hcfg|]. split; [discriminate|]. auto.
Qed.

End WithBuiltins.

(** The sample server with three alerts is in good order. *)
Lemma serverWith_3_ok : serverOk (serverWith 3).
Proof.
  split; [apply (bool_decide_unpack _); vm_compute; exact I|].
  split; [vm_compute; lia|]. split; vm_compute; reflexivity.
Qed.

(** So is the sample server with sixty alerts. *)
Lemma serverWith_60_ok : serverOk (serverWith 60).
Proof.
  split; [apply (bool_decide_unpack _); vm_compute; exact I|].
  split; [vm_compute; lia|]. split; vm_compute; reflexivity.
Qed.

(** Scans from the lists at capacity.  The market c at 0.40 + 0.56 is
    returned as an opportunity: its log line is the newest of still 100
    lines, its near miss of deviation 0.04 moves to the end of the
    near-miss list, and with liquidity 4000 it leads the live markets.
    The new market z at 0.50 + 0.53 is rejected: the log is as it was,
    its near miss of deviation 0.03 would be the twenty-first and is
    dropped, and it leads the live markets, of which o is dropped. *)
Lemma standalone_scan_keeps_globals_ok_witness :
  (exists opp g',
     @scanMarketForArbitrage sampleBuiltins
       (standaloneWorld [] (quotes "0.40" "0.39" "0.56" "0.55"))
       fullGlobals (marketAt 2) standaloneConfig = (Some opp, g')
     /\ globalsOk g'
     /\ head (terminalLogs g')
        = Some {| log_time := sampleNow;
                  log_message := MsgOpportunity "Will it rain tomorrow?"
                                   (netProfitPercent opp);
                  log_type := LogSuccess |}
     /\ length (terminalLogs g') = 100%nat
     /\ nm_slug <$> nearMisses g'
        = ["a"; "b"; "d"; "e"; "f"; "g"; "h"; "i"; "j"; "k"; "l"; "m"; "n";
           "o"; "p"; "q"; "r"; "s"; "t"; "c"]%string
     /\ lm_slug <$> liveMarkets g'
        = ["c"; "a"; "b"; "d"; "e"; "f"; "g"; "h"; "i"; "j"; "k"; "l"; "m";
           "n"; "o"]%string)
  /\ (exists g',
        @scanMarketForArbitrage sampleBuiltins
          (standaloneWorld [] (quotes "0.50" "0.49" "0.53" "0.50"))
          fullGlobals (marketAt 25) standaloneConfig = (None, g')
        /\ globalsOk g'
        /\ terminalLogs g' = terminalLogs fullGlobals
        /\ nm_slug <$> nearMisses g' = nm_slug <$> nearMisses fullGlobals
        /\ lm_slug <$> liveMarkets g'
           = ["z"; "a"; "b"; "c"; "d"; "e"; "f"; "g"; "h"; "i"; "j"; "k"; "l";
              "m"; "n"]%string).
Proof.
  split.
  - pose proof (@standalone_scan_keeps_globals_ok sampleBuiltins
                  (standaloneWorld [] (quotes "0.40" "0.39" "0.56" "0.55"))
                  fullGlobals (marketAt 2) standaloneConfig fullGlobals_ok)
      as Hscan.
    cbv zeta in Hscan.
    destruct (@scanMarketForArbitrage sampleBuiltins _ fullGlobals (marketAt 2) _)
      as [[opp|] g'] eqn:E; [|vm_compute in E; discriminate E].
    destruct Hscan as (Hok & _ & Hline). cbn [fst snd] in *.
    exists opp, g'. split; [reflexivity|]. split; [exact Hok|].
    split; [exact (Hline opp eq_refl)|].
    change g' with (snd (Some opp, g')). rewrite <- E.
    repeat split; vm_compute; reflexivity.
  - pose proof (@standalone_scan_keeps_globals_ok sampleBuiltins
                  (standaloneWorld [] (quotes "0.50" "0.49" "0.53" "0.50"))
                  fullGlobals (marketAt 25) standaloneConfig fullGlobals_ok)
      as Hscan.
    cbv zeta in Hscan.
    destruct (@scanMarketForArbitrage sampleBuiltins _ fullGlobals (marketAt 25) _)
      as [[opp|] g'] eqn:E; [vm_compute in E; discriminate E|].
    destruct Hscan as (Hok & Hlogs & _). cbn [fst snd] in *.
    exists g'. split; [reflexivity|]. split; [exact Hok|].
    split; [exact (Hlogs eq_refl)|].
    change g' with (snd (@None Opportunity, g')). rewrite <- E.
    split; vm_compute; reflexivity.
Defined.

(** A scan of the server that holds alerts for the markets a, b and c,
    from the lists at capacity, over a catalogue of b and the new
    market z: the alert of b is replaced in place, that of z is added
    in front, the statistics follow, and the three lists stay within
    100, 20 and 15 entries.  The same call on the busy server changes
    nothing. *)
Lemma standalone_runScan_keeps_invariants_witness :
  (exists srv' g',
     @runScan sampleBuiltins
       (standaloneWorld [marketAt 1; marketAt 25]
          (quotes "0.40" "0.39" "0.56" "0.55"))
       (serverWith 3) fullGlobals = (srv', g')
     /\ serverOk srv' /\ globalsOk g'
     /\ totalScans (stats srv') = 1
     /\ alertKeys (serverWith 3) = ["a"; "b"; "c"]%string
     /\ alertKeys srv' = ["z"; "a"; "b"; "c"]%string
     /\ stats srv' = {| marketsScanned := 2; totalFound := 4; activeOpps := 4;
                        bestProfit := Num 3; totalScans := 1 |}
     /\ length (terminalLogs g') = 100%nat
     /\ nm_slug <$> nearMisses g'
        = ["a"; "c"; "d"; "e"; "f"; "g"; "h"; "i"; "j"; "k"; "l"; "m"; "n";
           "o"; "p"; "q"; "r"; "s"; "t"; "b"]%string
     /\ lm_slug <$> liveMarkets g'
        = ["b"; "z"; "a"; "c"; "d"; "e"; "f"; "g"; "h"; "i"; "j"; "k"; "l";
           "m"; "n"]%string)
  /\ @runScan sampleBuiltins
       (standaloneWorld [marketAt 1; marketAt 25]
          (quotes "0.40" "0.39" "0.56" "0.55"))
       (setIsScanning (serverWith 3) true) fullGlobals
     = (setIsScanning (serverWith 3) true, fullGlobals).
Proof.
  split.
  - pose proof (@standalone_runScan_keeps_invariants sampleBuiltins
                  (standaloneWorld [marketAt 1; marketAt 25]
                     (quotes "0.40" "0.39" "0.56" "0.55"))
                  (serverWith 3) fullGlobals serverWith_3_ok fullGlobals_ok)
      as Hinv.
    destruct (@runScan sampleBuiltins _ (serverWith 3) fullGlobals)
      as [srv' g'] eqn:E.
    destruct Hinv as (Hs & Hg & _ & _ & _ & Hscans).
    exists srv', g'. split; [reflexivity|]. split; [exact Hs|].
    split; [exact Hg|]. split; [exact (proj1 (Hscans eq_refl))|].
    split; [vm_compute; reflexivity|].
    pose proof (f_equal fst E) as Es. pose proof (f_equal snd E) as Eg.
    cbn [fst snd] in Es, Eg. rewrite <- Es, <- Eg.
    repeat split; vm_compute; reflexivity.
  - pose proof (@standalone_runScan_keeps_invariants sampleBuiltins
                  (standaloneWorld [marketAt 1; marketAt 25]
                     (quotes "0.40" "0.39" "0.56" "0.55"))
                  (setIsScanning (serverWith 3) true) fullGlobals) as Hinv.
    destruct (@runScan sampleBuiltins _ (setIsScanning (serverWith 3) true)
                fullGlobals) as [srv' g'].
    destruct Hinv as (_ & _ & _ & _ & Hbusy & _).
    + destruct serverWith_3_ok as (H1 & H2 & H3 & H4).
      repeat split; assumption.
    + exact fullGlobals_ok.
    + destruct (Hbusy eq_refl) as [-> ->]. reflexivity.
Defined.

End StandaloneInvariantFacts.

(** ** The serverless scanner (api/scan.js) *)

Module ServerlessFacts.

Import JsNumFacts JsArrayFacts SortFacts PricingFacts AcceptedFacts
  ServiceScanFacts Serverless Samples.

Section WithBuiltins.
Context `{Builtins}.

Lemma analyzeMarket_parts (w : World) (m : Market) (a : Analysis) :
  analyzeMarket w m = Some a ->
  exists yesBook noBook bp,
    bestPrices yesBook noBook = Some bp
    /\ an_yesAsk a = yesBestAsk bp /\ an_yesBid a = yesBestBid bp
    /\ an_noAsk a = noBestAsk bp /\ an_noBid a = noBestBid bp
    /\ an_combinedAsk a = nadd (yesBestAsk bp) (noBestAsk bp)
    /\ an_combinedBid a = nadd (yesBestBid bp) (noBestBid bp)
    /\ an_liquidity a
       = nadd (sideLiquidity (asks yesBook)) (sideLiquidity (asks noBook))
    /\ an_deviation a = nabs (nsub (Num 1) (an_combinedAsk a))
    /\ an_slug a = market_slug m
    /\ an_direction a
       = (if nlt (an_combinedAsk a) (Num 1)
          then Standalone.UNDERPRICED else Standalone.OVERPRICED)
    /\ an_isNearMiss a
       = ngt (an_deviation a) (Num 0) && nle (an_deviation a) (Num 0.05)
         && negb (isSome (an_arbitrage a))
    /\ an_arbitrage a
       = (if ngt (nsub (Num 1) (an_combinedAsk a)) (Num 0.001) then
            Some {| arb_type := BUY_BOTH;
                    arb_profitPercent :=
                      nmul (ndiv (nsub (Num 1) (an_combinedAsk a))
                                 (an_combinedAsk a)) (Num 100);
                    arb_profitAbsolute := nsub (Num 1) (an_combinedAsk a);
                    arb_combinedAsk := an_combinedAsk a;
                    arb_combinedBid := an_combinedBid a |}
          else if ngt (nsub (an_combinedBid a) (Num 1)) (Num 0.001) then
            Some {| arb_type := SELL_BOTH;
                    arb_profitPercent :=
                      nmul (ndiv (nsub (an_combinedBid a) (Num 1)) (Num 1))
                           (Num 100);
                    arb_profitAbsolute := nsub (an_combinedBid a) (Num 1);
                    arb_combinedAsk := an_combinedAsk a;
                    arb_combinedBid := an_combinedBid a |}
          else None).
Proof.
  unfold analyzeMarket.
  destruct (tokens m) as [[|yesTok [|noTok rest]]|]; try discriminate.
  destruct (fetchOrderBook w (token_id yesTok)) as [yesBook|]; [|discriminate].
  destruct (fetchOrderBook w (token_id noTok)) as [noBook|]; [|discriminate].
  destruct (bestPrices yesBook noBook) as [bp|] eqn:Hbp; [|discriminate].
  intros [= <-]. exists yesBook, noBook, bp.
  cbn [an_yesAsk an_yesBid an_noAsk an_noBid an_combinedAsk an_combinedBid
       an_liquidity an_deviation an_slug an_direction an_isNearMiss an_arbitrage].
  repeat match goal with |- _ /\ _ => split end; reflexivity || exact Hbp.
Qed.

(** How [analyzeMarket] classifies a market it could analyse.  The four
    prices are usable and the liquidity is a number.  An arbitrage is
    reported exactly when buying both sides, or else selling both
    sides, gains more than 0.001 per unit; a BUY_BOTH arbitrage is
    always on an underpriced market; and a market is a near miss
    exactly when it has no arbitrage and its deviation is above zero
    and at most 0.05, so that no market is both. *)
Theorem analyzeMarket_classification (w : World) (m : Market) (a : Analysis) :
  analyzeMarket w m = Some a ->
  let ca := an_combinedAsk a in
  let cb := an_combinedBid a in
  ca = nadd (an_yesAsk a) (an_noAsk a)
  /\ cb = nadd (an_yesBid a) (an_noBid a)
  /\ truthy (an_yesAsk a) = true /\ truthy (an_yesBid a) = true
  /\ truthy (an_noAsk a) = true /\ truthy (an_noBid a) = true
  /\ an_liquidity a <> NaN
  /\ an_deviation a = nabs (nsub (Num 1) ca)
  /\ (an_arbitrage a = None
      <-> ngt (nsub (Num 1) ca) (Num 0.001) = false
          /\ ngt (nsub cb (Num 1)) (Num 0.001) = false)
  /\ (forall arb,
        an_arbitrage a = Some arb ->
        an_isNearMiss a = false
        /\ arb_combinedAsk arb = ca
        /\ arb_combinedBid arb = cb
        /\ ((arb_type arb = BUY_BOTH
             /\ ngt (nsub (Num 1) ca) (Num 0.001) = true
             /\ arb_profitAbsolute arb = nsub (Num 1) ca
             /\ arb_profitPercent arb = nmul (ndiv (nsub (Num 1) ca) ca) (Num 100)
             /\ an_direction a = Standalone.UNDERPRICED)
            \/ (arb_type arb = SELL_BOTH
                /\ ngt (nsub (Num 1) ca) (Num 0.001) = false
                /\ ngt (nsub cb (Num 1)) (Num 0.001) = true
                /\ arb_profitAbsolute arb = nsub cb (Num 1)
                /\ arb_profitPercent arb
                   = nmul (ndiv (nsub cb (Num 1)) (Num 1)) (Num 100))))
  /\ (an_isNearMiss a = true
      <-> an_arbitrage a = None
          /\ ngt (an_deviation a) (Num 0) = true
          /\ nle (an_deviation a) (Num 0.05) = true).
Proof.
  intros Ha. cbv zeta.
  destruct (analyzeMarket_parts w m a Ha)
    as (yesBook & noBook & bp & Hbp & Hya & Hyb & Hna & Hnb & Hca & Hcb & Hliq
        & Hdev & _ & Hdir & Hnear & Harb).
  destruct (bestPrices_truthy _ _ _ Hbp) as (T1 & T2 & T3 & T4).
  split; [congruence|]. split; [congruence|].
  split; [congruence|]. split; [congruence|].
  split; [congruence|]. split; [congruence|].
  split.
  { rewrite Hliq.
    destruct (sideLiquidity_num (asks yesBook)) as [qy ->].
    destruct (sideLiquidity_num (asks noBook)) as [qn ->]. discriminate. }
  split; [exact Hdev|].
  destruct (ngt (nsub (Num 1) (an_combinedAsk a)) (Num 0.001)) eqn:Ebuy;
    [|destruct (ngt (nsub (an_combinedBid a) (Num 1)) (Num 0.001)) eqn:Esell].
  - split; [split; [rewrite Harb; discriminate|intros [? _]; discriminate]|].
    split.
    + intros arb Hsome. rewrite Harb in Hsome. injection Hsome as <-.
      rewrite Hnear, Harb. cbn [isSome negb]. rewrite andb_false_r.
      cbn [arb_type arb_profitAbsolute arb_profitPercent arb_combinedAsk
           arb_combinedBid].
      split; [reflexivity|]. split; [reflexivity|]. split; [reflexivity|].
      left. repeat split. rewrite Hdir.
      destruct (an_combinedAsk a) as [|q]; [discriminate|].
      simpl in Ebuy. apply ngt_Num in Ebuy.
      replace (nlt (Num q) (Num 1)) with true; [reflexivity|].
      symmetry. apply nlt_Num. lra.
    + rewrite Hnear, Harb. cbn [isSome negb]. rewrite andb_false_r.
      split; [discriminate|intros [? _]; discriminate].
  - split; [split; [rewrite Harb; discriminate|intros [_ ?]; discriminate]|].
    split.
    + intros arb Hsome. rewrite Harb in Hsome. injection Hsome as <-.
      rewrite Hnear, Harb. cbn [isSome negb]. rewrite andb_false_r.
      cbn [arb_type arb_profitAbsolute arb_profitPercent arb_combinedAsk
           arb_combinedBid].
      split; [reflexivity|]. split; [reflexivity|]. split; [reflexivity|].
      right. repeat split.
    + rewrite Hnear, Harb. cbn [isSome negb]. rewrite andb_false_r.
      split; [discriminate|intros [? _]; discriminate].
  - split; [split; [auto|intros _; exact Harb]|].
    split.
    + intros arb Hsome. rewrite Harb in Hsome. discriminate.
    + rewrite Hnear, Harb. cbn [isSome negb]. rewrite andb_true_r.
      rewrite andb_true_iff. split.
      * intros [? ?]. auto.
      * intros (_ & ? & ?). auto.
Qed.

End WithBuiltins.

(** The sample market quoted at 0.40 + 0.55 is a BUY_BOTH arbitrage and
    no near miss, although its deviation is 0.05. *)
Lemma analyzeMarket_classification_witness :
  exists a arb,
    @analyzeMarket sampleBuiltins
      (serverlessWorld [] (quotes "0.40" "0.38" "0.55" "0.53")) sampleMarket
    = Some a
    /\ an_arbitrage a = Some arb
    /\ arb_type arb = BUY_BOTH
    /\ an_isNearMiss a = false.
Proof.
  destruct (@analyzeMarket sampleBuiltins
              (serverlessWorld [] (quotes "0.40" "0.38" "0.55" "0.53"))
              sampleMarket) as [a|] eqn:E; [|vm_compute in E; discriminate].
  destruct (@analyzeMarket_classification sampleBuiltins _ _ _ E)
    as (_ & _ & _ & _ & _ & _ & _ & _ & Hnone & Hsome & _).
  destruct (an_arbitrage a) as [arb|] eqn:Ea.
  - exists a, arb. destruct (Hsome arb eq_refl) as (Hnear & _ & _ & Hcase).
    split; [reflexivity|]. split; [exact Ea|]. split; [|exact Hnear].
    destruct Hcase as [(Hty & _)|(_ & Hbuy & _)]; [exact Hty|].
    exfalso. injection E as <-. vm_compute in Hbuy. discriminate.
  - exfalso. destruct Hnone as [Hn _]. destruct (Hn eq_refl) as [Hbuy _].
    injection E as <-. vm_compute in Hbuy. discriminate.
Defined.

Section WithBuiltins.
Context `{Builtins}.

Lemma arbProfit_num (a : Analysis) : arbProfit a <> NaN.
Proof.
  unfold arbProfit. destruct (an_arbitrage a) as [arb|]; [|discriminate].
  unfold nor. destruct (arb_profitPercent arb) as [|q]; simpl; [discriminate|].
  destruct (negb (Qeq_bool q 0)); discriminate.
Qed.

Lemma length_omap_le {A B : Type} (f : A -> option B) (l : list A) :
  (length (omap f l) <= length l)%nat.
Proof.
  induction l as [|x l IH]; csimpl; [lia|]. destruct (f x); csimpl; lia.
Qed.

Lemma take_sorted {A : Type} (R : relation A) (n : nat) (l : list A) :
  StronglySorted R l -> StronglySorted R (take n l).
Proof.
  intros Hs. exact (NearMissFacts.StronglySorted_sublist R _ _ (sublist_take l n) Hs).
Qed.

Lemma elem_of_take_sortBy {A : Type} (after : A -> A -> bool) (n : nat)
    (l : list A) (x : A) :
  x ∈ take n (sortBy after l) -> x ∈ l.
Proof.
  intros Hx. rewrite <- (sortBy_Permutation after l).
  exact (elem_of_sublist _ _ _ Hx (sublist_take _ n)).
Qed.

(** The reply of the serverless scanner.  It fails exactly when the
    catalogue cannot be fetched.  Otherwise at most the first 50 active,
    open markets with an order book are analysed; the reply shows at
    most 15 live markets by liquidity descending, at most 20 near
    misses by deviation ascending and at most 10 opportunities by
    profit descending; every entry is the analysis of one of those
    markets; every near miss is without arbitrage and every opportunity
    is no near miss, so that no entry is in both lists. *)
Theorem serverless_handler_lists (w : World) :
  match handler w with
  | None => marketsResponse w = None
  | Some r =>
      exists data,
        marketsResponse w = Some data
        /\ let markets :=
             take 50 (filter (fun m => active m && negb (closed m)
                                       && enable_order_book m = true) data) in
           let analysed :=
             fun a => exists m, m ∈ markets /\ analyzeMarket w m = Some a in
           r_marketsScanned r = length (omap (analyzeMarket w) markets)
           /\ (r_marketsScanned r <= 50)%nat
           /\ (length (r_liveMarkets r) <= 15)%nat
           /\ (length (r_nearMisses r) <= 20)%nat
           /\ (length (r_opportunities r) <= 10)%nat
           /\ Forall analysed (r_liveMarkets r)
           /\ Forall (fun a => analysed a
                               /\ an_isNearMiss a = true
                               /\ an_arbitrage a = None)
                     (r_nearMisses r)
           /\ Forall (fun a => analysed a
                               /\ an_arbitrage a <> None
                               /\ an_isNearMiss a = false)
                     (r_opportunities r)
           /\ StronglySorted (descBy an_liquidity) (r_liveMarkets r)
           /\ StronglySorted (ascBy an_deviation) (r_nearMisses r)
           /\ StronglySorted (descBy arbProfit) (r_opportunities r)
  end.
Proof.
  unfold handler. destruct (marketsResponse w) as [data|]; [|reflexivity].
  exists data. split; [reflexivity|]. cbv zeta.
  cbn [r_marketsScanned r_liveMarkets r_nearMisses r_opportunities].
  rewrite scan_in_batches by lia.
  set (markets := take 50 _).
  set (found := omap (analyzeMarket w) markets).
  set (results := sortBy _ found).
  assert (Hperm : results ≡ₚ found) by apply sortBy_Permutation.
  assert (Hres : forall a, a ∈ results ->
            exists m, m ∈ markets /\ analyzeMarket w m = Some a).
  { intros a Ha. rewrite Hperm in Ha. apply list_elem_of_omap in Ha. exact Ha. }
  assert (Hnear : forall a, a ∈ results ->
            an_isNearMiss a
            = ngt (an_deviation a) (Num 0) && nle (an_deviation a) (Num 0.05)
              && negb (isSome (an_arbitrage a))).
  { intros a Ha. destruct (Hres a Ha) as (m & _ & Hm).
    destruct (analyzeMarket_parts w m a Hm)
      as (? & ? & ? & _ & _ & _ & _ & _ & _ & _ & _ & _ & _ & _ & Hn & _).
    exact Hn. }
  assert (Hliq : Forall (fun a => an_liquidity a <> NaN) found).
  { apply Forall_forall. intros a Ha. rewrite <- Hperm in Ha.
    destruct (Hres a Ha) as (m & _ & Hm).
    destruct (analyzeMarket_parts w m a Hm)
      as (yesBook & noBook & ? & _ & _ & _ & _ & _ & _ & _ & Hl & _).
    rewrite Hl.
    destruct (sideLiquidity_num (asks yesBook)) as [qy ->].
    destruct (sideLiquidity_num (asks noBook)) as [qn ->]. discriminate. }
  assert (Hsorted : StronglySorted (descBy an_liquidity) results)
    by (apply sortBy_desc; exact Hliq).
  split; [apply Permutation_length; exact Hperm|].
  split.
  { rewrite (Permutation_length Hperm). unfold found.
    pose proof (length_omap_le (analyzeMarket w) markets).
    assert (length markets <= 50)%nat by (unfold markets; rewrite length_take; lia).
    lia. }
  split; [rewrite length_take; lia|].
  split; [rewrite length_take; lia|].
  split; [rewrite length_take; lia|].
  split.
  { apply Forall_forall. intros a Ha. apply Hres.
    exact (elem_of_sublist _ _ _ Ha (sublist_take _ 15)). }
  split.
  { apply Forall_forall. intros a Ha. apply elem_of_take_sortBy in Ha.
    apply list_elem_of_filter in Ha as [Hn Ha].
    split; [exact (Hres a Ha)|]. split; [exact Hn|].
    rewrite (Hnear a Ha) in Hn. apply andb_true_iff in Hn as [_ Hn].
    destruct (an_arbitrage a); [discriminate|reflexivity]. }
  split.
  { apply Forall_forall. intros a Ha. apply elem_of_take_sortBy in Ha.
    apply list_elem_of_filter in Ha as [Hs Ha].
    split; [exact (Hres a Ha)|].
    rewrite (Hnear a Ha).
    destruct (an_arbitrage a); [|discriminate].
    split; [discriminate|]. cbn [isSome negb]. apply andb_false_r. }
  split; [apply take_sorted; exact Hsorted|].
  split.
  - apply take_sorted. apply sortBy_asc.
    apply Forall_forall. intros a Ha.
    apply list_elem_of_filter in Ha as [Hn Ha].
    rewrite (Hnear a Ha) in Hn.
    apply andb_true_iff in Hn as [Hn _]. apply andb_true_iff in Hn as [Hn _].
    intros Hnan. rewrite Hnan in Hn. discriminate.
  - apply take_sorted. apply sortBy_desc.
    apply Forall_forall. intros a _. apply arbProfit_num.
Qed.

End WithBuiltins.

End ServerlessFacts.

(** ** The scan action *)

Module ActionFacts.

Import JsNumFacts JsArrayFacts SortFacts ServiceScanFacts Action Samples.

Section WithBuiltins.
Context `{Builtins}.

Lemma scanners_agree (w : Service.World) (m : Market) (cfg : ScannerConfig) :
  scanMarketForArbitrage w m cfg = Service.scanMarket w cfg m.
Proof. reflexivity. Qed.

Lemma sorted_head_max (l : list Opportunity) (t : Opportunity) :
  StronglySorted (descBy netProfitPercent) l ->
  netProfitPercent t <> NaN ->
  head l = Some t ->
  Forall (fun o => nle (netProfitPercent o) (netProfitPercent t) = true) l.
Proof.
  intros Hs Hnum Hhead. destruct l as [|x l]; [discriminate|].
  injection Hhead as ->. apply StronglySorted_cons in Hs as [Hall _].
  constructor; [|exact Hall].
  destruct (netProfitPercent t) as [|q]; [congruence|].
  apply nle_Num. apply Qle_refl.
Qed.

(** The first content of a call and what the callback does with it. *)
Lemma handler_deliver (w : Service.World) (options : Options)
    (callback : option Callback) (markets : list Market) :
  Service.getMarkets w = Some markets ->
  let config := mergeConfig Service.DEFAULT_CONFIG options in
  let activeMarkets :=
    filter (fun m => active m && negb (closed m) = true) markets in
  let opportunities :=
    Service.sortByNetProfit
      (omap (fun m => scanMarketForArbitrage w m config) activeMarkets) in
  let content :=
    match markets with
    | [] => NoMarketsContent
    | _ =>
        match opportunities with
        | [] => NoOppsContent (length activeMarkets) config
        | _ =>
            ResponseContent (length activeMarkets) opportunities
              (head opportunities) (take 5 opportunities)
              (length opportunities - 5) config
        end
    end in
  handler w options callback
  = match callback with
    | None => {| offered := []; returned := Some content |}
    | Some cb =>
        if cb content
        then {| offered := [content]; returned := Some content |}
        else {| offered := [content; ErrorContent]; returned := None |}
    end.
Proof.
  intros Hm. cbv zeta. unfold handler. rewrite Hm.
  destruct markets as [|m markets]; [destruct callback; reflexivity|].
  cbv zeta. rewrite scan_in_batches by lia.
  destruct (Service.sortByNetProfit _) as [|o opps];
    destruct callback; reflexivity.
Qed.

(** The scan action, by case.  When the catalogue cannot be fetched
    the error content goes to the callback, if there is one, and the
    handler throws.  Otherwise one content is built: the no-markets
    content for an empty catalogue; else the options override the
    default configuration key by key, the active, open markets are
    scanned with it and counted, and the content either says that
    nothing was found or carries all opportunities found, in descending
    order of net profit when the net profits are numbers, with the
    first five shown, the rest counted, and the top opportunity the
    first of the list, its net profit not below any other.  Without a
    callback that content is returned; a callback that resolves gets it
    and it is returned; a callback that rejects gets it, then the error
    content, and the handler throws.  So the handler throws exactly
    when the catalogue cannot be fetched or the callback rejects, and
    it never returns the error content. *)
Theorem action_handler_content (w : Service.World) (options : Options)
    (callback : option Callback) :
  let config := mergeConfig Service.DEFAULT_CONFIG options in
  let markets := default [] (Service.getMarkets w) in
  let activeMarkets :=
    filter (fun m => active m && negb (closed m) = true) markets in
  let found := omap (fun m => scanMarketForArbitrage w m config) activeMarkets in
  let r := handler w options callback in
  match Service.getMarkets w with
  | None =>
      returned r = None
      /\ offered r = match callback with
                     | Some _ => [ErrorContent]
                     | None => []
                     end
  | Some _ =>
      exists content,
        firstContent r = Some content
        /\ match content with
           | ErrorContent => False
           | NoMarketsContent => markets = []
           | NoOppsContent marketsScanned cfg =>
               markets <> []
               /\ marketsScanned = length activeMarkets /\ cfg = config
               /\ found = []
           | ResponseContent marketsScanned opportunities topOpportunity shown
               more cfg =>
               markets <> []
               /\ marketsScanned = length activeMarkets /\ cfg = config
               /\ opportunities ≡ₚ found
               /\ opportunities <> []
               /\ topOpportunity = head opportunities
               /\ shown = take 5 opportunities
               /\ length opportunities = (length shown + more)%nat
               /\ (Forall (fun o => netProfitPercent o <> NaN) found ->
                   StronglySorted (descBy netProfitPercent) opportunities
                   /\ forall t, topOpportunity = Some t ->
                        Forall (fun o => nle (netProfitPercent o)
                                             (netProfitPercent t) = true)
                               opportunities)
           end
        /\ match callback with
           | None => offered r = [] /\ returned r = Some content
           | Some cb =>
               if cb content
               then offered r = [content] /\ returned r = Some content
               else offered r = [content; ErrorContent] /\ returned r = None
           end
  end
  /\ (returned r = None
      <-> Service.getMarkets w = None
          \/ exists cb content,
               callback = Some cb /\ firstContent r = Some content
               /\ cb content = false)
  /\ returned r <> Some ErrorContent.
Proof.
  cbv zeta.
  destruct (Service.getMarkets w) as [markets|] eqn:Hm.
  2: { unfold handler. rewrite Hm. cbn [offered returned app].
       split; [split; reflexivity|]. split; [|discriminate].
       split; [auto|reflexivity]. }
  rewrite (handler_deliver w options callback markets Hm).
  change (default [] (Some markets)) with markets.
  set (activeMarkets := filter _ markets).
  set (found := omap _ activeMarkets).
  pose proof (sortBy_Permutation
                (fun a b => ngt (netProfitPercent b) (netProfitPercent a)) found)
    as Hperm.
  change (sortBy (fun a b => ngt (netProfitPercent b) (netProfitPercent a)) found)
    with (Service.sortByNetProfit found) in Hperm.
  set (content := match markets with [] => _ | _ => _ end).
  assert (Hcontent :
    match content with
    | ErrorContent => False
    | NoMarketsContent => markets = []
    | NoOppsContent marketsScanned cfg =>
        markets <> []
        /\ marketsScanned = length activeMarkets
        /\ cfg = mergeConfig Service.DEFAULT_CONFIG options
        /\ found = []
    | ResponseContent marketsScanned opportunities topOpportunity shown more cfg =>
        markets <> []
        /\ marketsScanned = length activeMarkets
        /\ cfg = mergeConfig Service.DEFAULT_CONFIG options
        /\ opportunities ≡ₚ found
        /\ opportunities <> []
        /\ topOpportunity = head opportunities
        /\ shown = take 5 opportunities
        /\ length opportunities = (length shown + more)%nat
        /\ (Forall (fun o => netProfitPercent o <> NaN) found ->
            StronglySorted (descBy netProfitPercent) opportunities
            /\ forall t, topOpportunity = Some t ->
                 Forall (fun o => nle (netProfitPercent o)
                                      (netProfitPercent t) = true)
                        opportunities)
    end).
  { unfold content. destruct markets as [|m markets]; [reflexivity|].
    destruct (Service.sortByNetProfit found) as [|o opps] eqn:Esort.
    - split; [discriminate|]. split; [reflexivity|]. split; [reflexivity|].
      symmetry in Hperm. apply Permutation_nil_r in Hperm. exact Hperm.
    - split; [discriminate|]. split; [reflexivity|]. split; [reflexivity|].
      split; [exact Hperm|]. split; [discriminate|].
      split; [reflexivity|]. split; [reflexivity|]. split.
      { rewrite length_take. lia. }
      intros Hnum.
      assert (Hs : StronglySorted (descBy netProfitPercent) (o :: opps)).
      { rewrite <- Esort. apply sortBy_desc. exact Hnum. }
      split; [exact Hs|].
      intros t Ht. apply sorted_head_max; [exact Hs| |exact Ht].
      injection Ht as <-. rewrite Forall_forall in Hnum. apply Hnum.
      rewrite <- Hperm. left. }
  assert (Hnot : content <> ErrorContent).
  { intros He. rewrite He in Hcontent. exact Hcontent. }
  destruct callback as [cb|].
  - destruct (cb content) eqn:Ecb; cbn [offered returned firstContent].
    + split; [exists content; rewrite Ecb; auto|].
      split; [|congruence].
      split; [discriminate|].
      intros [?|(cb' & c & [= <-] & [= <-] & Hrej)]; congruence.
    + split; [exists content; rewrite Ecb; auto|].
      split; [|discriminate].
      split; [|reflexivity]. intros _. right. exists cb, content. auto.
  - cbn [offered returned firstContent].
    split; [exists content; auto|].
    split; [|congruence].
    split; [discriminate|].
    intros [?|(cb' & c & ? & _)]; discriminate.
Qed.

(** The scan action and the service agree: for the configuration the
    action derives from its options, an idle service returns from
    [runScan] exactly the list of opportunities in the first content of
    the action, whatever the callback does, and the empty list when the
    action reports none or fails. *)
Theorem action_agrees_with_service (w : Service.World)
    (svc : Service.PolyClaudeService) (options : Options)
    (callback : option Callback) :
  Service.isScanning svc = false ->
  Service.config svc = mergeConfig Service.DEFAULT_CONFIG options ->
  fst (fst (Service.runScan w svc))
  = match firstContent (handler w options callback) with
    | Some (ResponseContent _ opportunities _ _ _ _) => opportunities
    | _ => []
    end.
Proof.
  intros Hidle Hcfg. unfold Service.runScan. rewrite Hidle.
  unfold Service.scanCycle.
  destruct (Service.getMarkets w) as [markets|] eqn:Hm.
  2: { unfold handler. rewrite Hm. destruct callback; reflexivity. }
  rewrite (handler_deliver w options callback markets Hm).
  destruct markets as [|m markets].
  { destruct callback as [cb|]; [destruct (cb _)|]; reflexivity. }
  cbn [Service.enterScan Service.config Service.telegramBot].
  rewrite Hcfg. rewrite scan_in_batches by lia.
  destruct (match Service.telegramBot svc with
            | Some bot => _
            | None => _
            end) as [bot' out].
  cbn [fst].
  set (opps := Service.sortByNetProfit _).
  change (Service.sortByNetProfit
            (omap (fun m0 => scanMarketForArbitrage w m0
                               (mergeConfig Service.DEFAULT_CONFIG options))
                  (filter (fun m0 => active m0 && negb (closed m0) = true)
                          (m :: markets))))
    with opps.
  destruct opps; destruct callback as [cb|];
    try (destruct (cb _)); reflexivity.
Qed.

End WithBuiltins.

(** The sample market under a profit threshold of 6 percent, with a
    callback that rejects every content without opportunities: the
    callback gets the no-opportunities content and then the error
    content, and the handler throws although the catalogue was
    fetched. *)
Lemma action_handler_content_witness :
  returned
    (@handler sampleBuiltins
       (serviceWorld [sampleMarket] (quotes "0.40" "0.39" "0.55" "0.54"))
       {| o_minProfitPercent := Some (Num 6); o_maxRiskScore := None;
          o_scanIntervalMs := None; o_minLiquidity := None |}
       (Some (fun content =>
                match content with
                | ResponseContent _ _ _ _ _ _ => true
                | _ => false
                end))) = None
  /\ offered
       (@handler sampleBuiltins
          (serviceWorld [sampleMarket] (quotes "0.40" "0.39" "0.55" "0.54"))
          {| o_minProfitPercent := Some (Num 6); o_maxRiskScore := None;
             o_scanIntervalMs := None; o_minLiquidity := None |}
          (Some (fun content =>
                   match content with
                   | ResponseContent _ _ _ _ _ _ => true
                   | _ => false
                   end)))
     = [NoOppsContent 1 {| minProfitPercent := Num 6;
                           maxRiskScore := Num 7;
                           scanIntervalMs := 30000;
                           minLiquidity := Some (Num 100) |};
        ErrorContent].
Proof.
  destruct (@action_handler_content sampleBuiltins
              (serviceWorld [sampleMarket] (quotes "0.40" "0.39" "0.55" "0.54"))
              {| o_minProfitPercent := Some (Num 6); o_maxRiskScore := None;
                 o_scanIntervalMs := None; o_minLiquidity := None |}
              (Some (fun content =>
                       match content with
                       | ResponseContent _ _ _ _ _ _ => true
                       | _ => false
                       end))) as (_ & Hthrows & _).
  cbv zeta in Hthrows. split.
  - apply Hthrows. right.
    exists (fun content =>
              match content with
              | ResponseContent _ _ _ _ _ _ => true
              | _ => false
              end),
           (NoOppsContent 1 {| minProfitPercent := Num 6;
                               maxRiskScore := Num 7;
                               scanIntervalMs := 30000;
                               minLiquidity := Some (Num 100) |}).
    split; [reflexivity|]. split; [vm_compute; reflexivity|reflexivity].
  - vm_compute. reflexivity.
Defined.

Lemma action_agrees_with_service_witness :
  exists opp,
    fst (fst (@Service.runScan sampleBuiltins
                (serviceWorld [sampleMarket] (quotes "0.40" "0.39" "0.55" "0.54"))
                newService)) = [opp]
    /\ exists n top shown more cfg,
         firstContent
           (@handler sampleBuiltins
              (serviceWorld [sampleMarket] (quotes "0.40" "0.39" "0.55" "0.54"))
              noOptions (Some (fun _ => false)))
         = Some (ResponseContent n [opp] top shown more cfg).
Proof.
  pose proof (@action_agrees_with_service sampleBuiltins
                (serviceWorld [sampleMarket] (quotes "0.40" "0.39" "0.55" "0.54"))
                newService noOptions (Some (fun _ => false)) eq_refl eq_refl)
    as Hagree.
  destruct (firstContent
              (@handler sampleBuiltins
                 (serviceWorld [sampleMarket] (quotes "0.40" "0.39" "0.55" "0.54"))
                 noOptions (Some (fun _ => false))))
    as [[| n cfg | n opps top shown more cfg |]|] eqn:E;
    try (vm_compute in E; discriminate).
  destruct opps as [|opp [|opp' rest]]; try (vm_compute in E; discriminate).
  exists opp. split; [exact Hagree|].
  exists n, top, shown, more, cfg. reflexivity.
Defined.

End ActionFacts.

(** ** The service over any sequence of events *)

Module ServiceTraceFacts.

Import TerminalLogFacts TelegramOpsFacts Telegram Terminal Service
  ServiceInvariants Samples.

Lemma evolves_refl (svc : PolyClaudeService) : evolves svc svc.
Proof.
  unfold evolves.
  repeat match goal with |- _ /\ _ => split end; try reflexivity; try lia.
  - destruct (terminalServer svc); auto.
  - destruct (telegramBot svc); auto.
Qed.

Lemma evolves_trans (a b c : PolyClaudeService) :
  evolves a b -> evolves b c -> evolves a c.
Proof.
  unfold evolves.
  intros (Hc1 & Hu1 & Hp1 & Hs1 & Hf1 & Ht1 & Hb1)
         (Hc2 & Hu2 & Hp2 & Hs2 & Hf2 & Ht2 & Hb2).
  repeat match goal with |- _ /\ _ => split end; try congruence; try lia.
  - destruct (terminalServer a), (terminalServer b), (terminalServer c);
      try contradiction; auto.
    destruct Ht1 as [? ?], Ht2 as [? ?]. split; [congruence|auto].
  - destruct (telegramBot a), (telegramBot b), (telegramBot c);
      try contradiction; auto.
    destruct Hb1 as (? & ? & ?), Hb2 as (? & ? & ?).
    split; [congruence|]. split; [congruence|]. set_solver.
Qed.

Lemma sendArbitrageAlert_keeps (bot : TelegramBotService) (api : Api)
    (opp : Opportunity) (now stamp : Z) :
  let bot' := after (sendArbitrageAlert bot api opp now stamp) in
  Telegram.config bot' = Telegram.config bot
  /\ cooldownMs bot' = cooldownMs bot
  /\ dom (lastAlertTime bot) ⊆ dom (lastAlertTime bot').
Proof.
  cbv zeta.
  destruct (sent (sendArbitrageAlert bot api opp now stamp)) eqn:E.
  - destruct (sendArbitrageAlert_sent _ _ _ _ _ E) as [_ ->].
    cbn [Telegram.config cooldownMs lastAlertTime].
    split; [reflexivity|]. split; [reflexivity|].
    rewrite dom_insert. set_solver.
  - rewrite (sendArbitrageAlert_unsent _ _ _ _ _ E). auto.
Qed.

Lemma sendAlerts_keeps (api : Api) (l : list (Opportunity * (Z * Z)))
    (bot : TelegramBotService) :
  let bot' := fst (sendAlerts bot api l) in
  Telegram.config bot' = Telegram.config bot
  /\ cooldownMs bot' = cooldownMs bot
  /\ dom (lastAlertTime bot) ⊆ dom (lastAlertTime bot').
Proof.
  cbv zeta. revert bot. induction l as [|[opp [now stamp]] l IH]; intros bot.
  - simpl. auto.
  - cbn [sendAlerts].
    pose proof (sendArbitrageAlert_keeps bot api opp now stamp) as H1.
    cbv zeta in H1. unfold after in H1.
    destruct (sendArbitrageAlert bot api opp now stamp) as [[ok bot1] out].
    simpl in H1. specialize (IH bot1).
    destruct (sendAlerts bot1 api l) as [bot2 out2].
    simpl in *. destruct H1 as (? & ? & ?), IH as (? & ? & ?).
    split; [congruence|]. split; [congruence|]. set_solver.
Qed.

Section WithBuiltins.
Context `{Builtins}.

Lemma enterScan_evolves (svc : PolyClaudeService) : evolves svc (enterScan svc).
Proof.
  unfold evolves, enterScan. cbn [Service.config Service.stats terminalServer telegramBot].
  repeat match goal with |- _ /\ _ => split end; try reflexivity; try lia.
  - destruct (terminalServer svc); simpl; auto.
  - destruct (telegramBot svc); auto.
Qed.

Lemma leaveScan_evolves (svc : PolyClaudeService) : evolves svc (leaveScan svc).
Proof.
  unfold evolves, leaveScan. cbn [Service.config Service.stats terminalServer telegramBot].
  repeat match goal with |- _ /\ _ => split end; try reflexivity; try lia.
  - destruct (terminalServer svc); simpl; auto.
  - destruct (telegramBot svc); auto.
Qed.

Lemma scanCycle_evolves (w : World) (svc : PolyClaudeService) :
  evolves svc (snd (fst (scanCycle w svc))).
Proof.
  unfold scanCycle.
  destruct (getMarkets w) as [[|m markets]|]; try apply evolves_refl.
  set (opps := sortByNetProfit _).
  set (stats' := Build_ScannerStats _ _ _ _ _ _ _).
  pose proof (fun bot => sendAlerts_keeps (telegramApi w)
                (withAlertClock w
                   (take 3 (filter (fun o => nge (netProfitPercent o) (Num 1) = true)
                                   opps))) bot) as Hbot.
  cbv zeta in Hbot.
  unfold evolves.
  destruct (telegramBot svc) as [bot|] eqn:Eb.
  - specialize (Hbot bot).
    destruct (sendAlerts bot (telegramApi w) _) as [bot' out].
    cbn [fst snd Service.config Service.stats terminalServer telegramBot
         uptime totalProfitCaptured totalScans totalOpportunitiesFound].
    split; [reflexivity|]. split; [reflexivity|]. split; [reflexivity|].
    split; [unfold stats'; simpl; lia|].
    split; [unfold stats'; simpl; lia|]. split; [|exact Hbot].
    destruct (terminalServer svc) as [t|]; [|exact I]. cbn [option_map].
    destruct (addAlerts_stats opps (clock w) (updateStats t stats' (clock w)))
      as (_ & _ & _ & _ & _ & _ & _ & Hcfg).
    split; [exact Hcfg|]. intros Hlen. apply addAlerts_length. exact Hlen.
  - cbn [fst snd Service.config Service.stats terminalServer telegramBot
         uptime totalProfitCaptured totalScans totalOpportunitiesFound].
    split; [reflexivity|]. split; [reflexivity|]. split; [reflexivity|].
    split; [unfold stats'; simpl; lia|].
    split; [unfold stats'; simpl; lia|]. split; [|exact I].
    destruct (terminalServer svc) as [t|]; [|exact I]. cbn [option_map].
    destruct (addAlerts_stats opps (clock w) (updateStats t stats' (clock w)))
      as (_ & _ & _ & _ & _ & _ & _ & Hcfg).
    split; [exact Hcfg|]. intros Hlen. apply addAlerts_length. exact Hlen.
Qed.

Lemma step_evolves (svc : PolyClaudeService) (e : event) :
  evolves svc (fst (step svc e))
  /\ totalScans (Service.stats (fst (step svc e)))
     <= totalScans (Service.stats svc) + 1.
Proof.
  unfold step. destruct e as [|w].
  - destruct (Service.isScanning svc); simpl.
    + split; [apply evolves_refl|lia].
    + split; [apply enterScan_evolves|lia].
  - destruct (Service.isScanning svc); [|split; [apply evolves_refl|simpl; lia]].
    pose proof (scanCycle_evolves w svc) as Hc.
    assert (Hs : totalScans (Service.stats (snd (fst (scanCycle w svc))))
                 <= totalScans (Service.stats svc) + 1).
    { unfold scanCycle.
      destruct (getMarkets w) as [[|m markets]|]; simpl; try lia.
      destruct (telegramBot svc) as [bot|]; [|simpl; lia].
      destruct (sendAlerts bot _ _); simpl; lia. }
    destruct (scanCycle w svc) as [[result svc'] out]. simpl in *.
    split; [|exact Hs].
    exact (evolves_trans _ _ _ Hc (leaveScan_evolves svc')).
Qed.

(** Whatever requests arrive and whatever the world answers, in any
    order, the service keeps its configuration; its scan counter and its
    counter of opportunities found never decrease, and the scan counter
    grows by at most one per event; the terminal server keeps its
    configuration and an alert log of at most 100 records; and the bot
    keeps its configuration and cooldown window and forgets no
    notification time. *)
Theorem service_trace_invariants (es : list event) (svc : PolyClaudeService) :
  evolves svc (steps svc es)
  /\ totalScans (Service.stats (steps svc es))
     <= totalScans (Service.stats svc) + Z.of_nat (length es).
Proof.
  unfold steps. revert svc. induction es as [|e es IH]; intros svc.
  - simpl. split; [apply evolves_refl|lia].
  - cbn [fold_left length].
    destruct (step_evolves svc e) as [He Hs].
    destruct (IH (fst (step svc e))) as [Hes Hss].
    split; [exact (evolves_trans _ _ _ He Hes)|lia].
Qed.

End WithBuiltins.

End ServiceTraceFacts.

(** ** The state route of the standalone server *)

Module HttpFacts.

Import Standalone Invariants Http StandaloneInvariantFacts Samples.

Section WithBuiltins.
Context `{Builtins}.

(** From a server and lists in good order, and after any number of
    scans in whatever worlds, the state route answers every method but
    OPTIONS with the complete near-miss and live-market lists (its
    slices to 20 and 15 entries cut nothing), the first 50 alerts and
    log lines, the scanning flag the server had, and statistics whose
    count of active opportunities is the length of the whole alert
    list: every alert is shown exactly when that count is at most 50.
    A missing or empty URL, like / and /index.html, is the page. *)
Theorem server_state_route (ws : list World) (srv : PolyClaudeServer)
    (g : Globals) (method : Method) :
  serverOk srv ->
  globalsOk g ->
  method <> OPTIONS ->
  let '(srv', g') := runScans ws srv g in
  serverHandleRequest srv' g' method (Some "/api/state"%string)
  = SState (take 50 (alerts srv')) (stats srv') (take 50 (terminalLogs g'))
           (isScanning srv) (nearMisses g') (liveMarkets g')
  /\ activeOpps (stats srv') = Z.of_nat (length (alerts srv'))
  /\ length (take 50 (alerts srv')) = Nat.min 50 (length (alerts srv'))
  /\ (take 50 (alerts srv') = alerts srv' <-> activeOpps (stats srv') <= 50)
  /\ (forall url,
        url = None \/ url = Some ""%string \/ url = Some "/"%string
        \/ url = Some "/index.html"%string ->
        serverHandleRequest srv' g' method url = SPage).
Proof.
  intros Hs Hg Hmethod.
  destruct (runScans_ok ws srv g Hs Hg) as (Hs' & Hg' & Hflag).
  destruct (runScans ws srv g) as [srv' g']. cbn [fst snd] in *.
  destruct Hs' as (_ & _ & Hactive & _). destruct Hg' as (Hnm & Hlm & _).
  destruct Hnm as (_ & _ & _ & Hnm). destruct Hlm as (_ & _ & _ & Hlm).
  unfold MAX_NEAR_MISSES in Hnm. unfold MAX_LIVE_MARKETS in Hlm.
  split.
  { unfold serverHandleRequest. rewrite <- Hflag.
    destruct method; [| |congruence]; simpl;
      rewrite (take_ge (nearMisses g')), (take_ge (liveMarkets g')) by lia;
      reflexivity. }
  split; [exact Hactive|]. split; [apply length_take|]. split.
  { rewrite Hactive. split.
    - intros Hall. apply (f_equal length) in Hall.
      rewrite length_take in Hall. lia.
    - intros Hfew. apply take_ge. lia. }
  intros url [-> | [-> | [-> | ->]]];
    (destruct method; [reflexivity|reflexivity|congruence]).
Qed.

End WithBuiltins.

(** The server with sixty alerts and the lists at capacity, after a
    scan that finds one more market: 61 alerts are held and counted, 50
    are shown, and the 20 near misses and 15 live markets are shown in
    full. *)
Lemma server_state_route_witness :
  exists srv' g',
    @runScans sampleBuiltins
      [standaloneWorld [marketAt 1; marketAt 70]
         (quotes "0.40" "0.39" "0.56" "0.55")]
      (serverWith 60) fullGlobals = (srv', g')
    /\ serverHandleRequest srv' g' GET (Some "/api/state"%string)
       = SState (take 50 (alerts srv')) (stats srv') (take 50 (terminalLogs g'))
                false (nearMisses g') (liveMarkets g')
    /\ serverHandleRequest srv' g' GET (Some ""%string) = SPage
    /\ activeOpps (stats srv') = 61
    /\ length (alerts srv') = 61%nat
    /\ length (take 50 (alerts srv')) = 50%nat
    /\ length (take 50 (terminalLogs g')) = 50%nat
    /\ length (nearMisses g') = 20%nat
    /\ length (liveMarkets g') = 15%nat.
Proof.
  pose proof (@server_state_route sampleBuiltins
                [standaloneWorld [marketAt 1; marketAt 70]
                   (quotes "0.40" "0.39" "0.56" "0.55")]
                (serverWith 60) fullGlobals GET
                serverWith_60_ok fullGlobals_ok) as Hroute.
  destruct (@runScans sampleBuiltins _ (serverWith 60) fullGlobals)
    as [srv' g'] eqn:E.
  destruct Hroute as (Hstate & _ & _ & _ & Hpage); [discriminate|].
  exists srv', g'. split; [reflexivity|]. split; [exact Hstate|].
  split; [apply Hpage; auto|].
  pose proof (f_equal fst E) as Es. pose proof (f_equal snd E) as Eg.
  cbn [fst snd] in Es, Eg. rewrite <- Es, <- Eg.
  repeat split; vm_compute; reflexivity.
Defined.

End HttpFacts.

(** ** The serverless scanner against the pricing of the service *)

Module CrossScannerFacts.

Import JsNumFacts PricingFacts ServerlessFacts Serverless Samples.

Section WithBuiltins.
Context `{Builtins}.

(** On books whose best bid does not exceed the best ask, the
    serverless scanner and the pricing of the service agree wherever the
    serverless scanner reports an arbitrage: same direction, same profit
    percent, same absolute profit, same combined prices.  Where the
    serverless scanner reports none although the service sees a
    direction, the gain per unit is above zero and at most 0.001. *)
Theorem serverless_arbitrage_matches_pricing (w : World) (m : Market)
    (a : Analysis) (ya yb na nb : Q) :
  analyzeMarket w m = Some a ->
  an_yesAsk a = Num ya -> an_yesBid a = Num yb ->
  an_noAsk a = Num na -> an_noBid a = Num nb ->
  (yb <= ya)%Q -> (nb <= na)%Q ->
  let pr := pricing (Num ya) (Num yb) (Num na) (Num nb) in
  (forall arb,
     an_arbitrage a = Some arb ->
     arb_type arb = p_arbDirection pr
     /\ arb_profitPercent arb = p_grossProfitPercent pr
     /\ arb_profitAbsolute arb
        = (if dir_eqb (p_arbDirection pr) BUY_BOTH
           then p_buyBothProfit pr else p_sellBothProfit pr)
     /\ arb_combinedAsk arb = p_combinedAsk pr
     /\ arb_combinedBid arb = p_combinedBid pr)
  /\ (an_arbitrage a = None ->
      (p_arbDirection pr = BUY_BOTH -> (0 < 1 - (ya + na) <= 0.001)%Q)
      /\ (p_arbDirection pr = SELL_BOTH -> (0 < yb + nb - 1 <= 0.001)%Q)).
Proof.
  intros Ha Hya Hyb Hna Hnb Hy Hn. cbv zeta.
  destruct (analyzeMarket_parts w m a Ha)
    as (yesBook & noBook & bp & _ & Eya & Eyb & Ena & Enb & Hca & Hcb & _
        & _ & _ & _ & _ & Harb).
  rewrite <- Eya, <- Ena, Hya, Hna in Hca. rewrite <- Eyb, <- Enb, Hyb, Hnb in Hcb.
  rewrite Hca, Hcb in Harb. simpl nadd in Harb. simpl nsub in Harb.
  unfold pricing. simpl nadd. simpl nsub.
  destruct (ngt (Num (1 - (ya + na))) (Num 0.001)) eqn:Ebuy.
  - apply ngt_Num in Ebuy.
    assert (E0 : ngt (Num (1 - (ya + na))) (Num 0) = true)
      by (apply ngt_Num; lra).
    rewrite E0.
    cbn [p_combinedAsk p_combinedBid p_buyBothProfit p_sellBothProfit
         p_arbDirection p_grossProfitPercent dir_eqb].
    split; [|rewrite Harb; discriminate].
    intros arb Hsome. rewrite Harb in Hsome. injection Hsome as <-.
    cbn [arb_type arb_profitPercent arb_profitAbsolute arb_combinedAsk
         arb_combinedBid].
    repeat split; reflexivity.
  - apply ngt_Num_false in Ebuy.
    destruct (ngt (Num (yb + nb - 1)) (Num 0.001)) eqn:Esell.
    + apply ngt_Num in Esell.
      assert (E0 : ngt (Num (1 - (ya + na))) (Num 0) = false)
        by (apply ngt_Num_false; lra).
      assert (E1 : ngt (Num (yb + nb - 1)) (Num 0) = true)
        by (apply ngt_Num; lra).
      rewrite E0, E1.
      cbn [p_combinedAsk p_combinedBid p_buyBothProfit p_sellBothProfit
           p_arbDirection p_grossProfitPercent dir_eqb].
      split; [|rewrite Harb; discriminate].
      intros arb Hsome. rewrite Harb in Hsome. injection Hsome as <-.
      cbn [arb_type arb_profitPercent arb_profitAbsolute arb_combinedAsk
           arb_combinedBid].
      repeat split; reflexivity.
    + apply ngt_Num_false in Esell.
      split; [intros arb Hsome; rewrite Harb in Hsome; discriminate|].
      intros _.
      destruct (ngt (Num (1 - (ya + na))) (Num 0)) eqn:E0;
        [|destruct (ngt (Num (yb + nb - 1)) (Num 0)) eqn:E1];
        cbn [p_arbDirection]; split; intros Hd; try discriminate.
      * apply ngt_Num in E0. lra.
      * apply ngt_Num in E1. lra.
Qed.

End WithBuiltins.

(** The sample market quoted at 0.40 + 0.55: both see BUY_BOTH. *)
Lemma serverless_arbitrage_matches_pricing_witness :
  exists a arb,
    @analyzeMarket sampleBuiltins
      (serverlessWorld [] (quotes "0.40" "0.38" "0.55" "0.53")) sampleMarket
    = Some a
    /\ an_arbitrage a = Some arb
    /\ arb_type arb
       = p_arbDirection (pricing (Num 0.40) (Num 0.38) (Num 0.55) (Num 0.53)).
Proof.
  destruct (@analyzeMarket sampleBuiltins
              (serverlessWorld [] (quotes "0.40" "0.38" "0.55" "0.53"))
              sampleMarket) as [a|] eqn:E; [|vm_compute in E; discriminate].
  destruct (an_arbitrage a) as [arb|] eqn:Ea.
  - destruct (@serverless_arbitrage_matches_pricing sampleBuiltins _ _ a
                0.40 0.38 0.55 0.53 E) as [Hsome _].
    + injection E as <-. reflexivity.
    + injection E as <-. reflexivity.
    + injection E as <-. reflexivity.
    + injection E as <-. reflexivity.
    + vm_compute. discriminate.
    + vm_compute. discriminate.
    + exists a, arb. split; [reflexivity|]. split; [exact Ea|].
      destruct (Hsome arb Ea) as [Hty _]. exact Hty.
  - exfalso. injection E as <-. vm_compute in Ea. discriminate.
Defined.

End CrossScannerFacts.

(** ** The Telegram alerts of one cycle *)

Module CycleAlertFacts.

Import JsArrayFacts ServiceScanFacts TelegramOpsFacts Telegram TelegramOps
  Service Samples.

Lemma sendAlerts_as_batch (api : Api) (l : list (Opportunity * (Z * Z)))
    (bot : TelegramBotService) :
  sendAlerts bot api l
  = (snd (fst (sendBatchAlerts bot api l)), snd (sendBatchAlerts bot api l)).
Proof.
  revert bot. induction l as [|[opp [now stamp]] l IH]; intros bot.
  - reflexivity.
  - rewrite sendBatchAlerts_cons. cbv zeta.
    unfold after, outbox, sent. cbn [sendAlerts].
    destruct (sendArbitrageAlert bot api opp now stamp) as [[ok bot1] out1].
    cbn [fst snd]. rewrite IH.
    destruct (sendBatchAlerts bot1 api l) as [[c b] o]. reflexivity.
Qed.

(** Clock readings that stay inside the cooldown window make the
    alert loop timely. *)
Lemma timely_readings (cooldown : Z) (opps : list Opportunity)
    (readings : nat -> Z * Z) :
  (forall i, (i < length opps)%nat -> snd (readings i) <> 0) ->
  (forall i j, (i < j < length opps)%nat ->
     fst (readings j) - snd (readings i) <= cooldown) ->
  timely cooldown (imap (fun i opp => (opp, readings i)) opps).
Proof.
  revert readings.
  induction opps as [|opp opps IH]; intros readings Hstamp Hwindow; [exact I|].
  rewrite imap_cons.
  change ((fun i o => (o, readings i)) ∘ S)
    with (fun i (o : Opportunity) => (o, (fun k => readings (S k)) i)).
  cbn [timely]. destruct (readings 0%nat) as [now0 stamp0] eqn:E0.
  split.
  { specialize (Hstamp 0%nat). rewrite E0 in Hstamp. apply Hstamp. simpl. lia. }
  split.
  - apply Forall_forall. intros x Hx.
    apply elem_of_lookup_imap in Hx as (i & o & -> & Hi).
    apply lookup_lt_Some in Hi. cbn [fst snd].
    specialize (Hwindow 0%nat (S i)). rewrite E0 in Hwindow. apply Hwindow.
    simpl. lia.
  - apply IH.
    + intros i Hi. apply Hstamp. simpl. lia.
    + intros i k Hik. apply Hwindow. simpl. lia.
Qed.

Lemma batch_accepted_le (api : Api) (l : list (Opportunity * (Z * Z)))
    (svc : TelegramBotService) :
  (length (filter (fun p => accepted api p = true)
                  (snd (sendBatchAlerts svc api l))) <= length l)%nat.
Proof.
  revert svc. induction l as [|[opp [now stamp]] l IH]; intros svc.
  - simpl. lia.
  - rewrite sendBatchAlerts_cons. cbv zeta.
    pose proof (accepted_outbox svc api opp now stamp) as Hacc. cbv zeta in Hacc.
    set (r := sendArbitrageAlert svc api opp now stamp) in *.
    specialize (IH (after r)).
    destruct (sendBatchAlerts (after r) api l) as [[c svc2] o].
    cbn [fst snd length] in *.
    rewrite filter_app, length_app, Hacc. destruct (sent r); lia.
Qed.

Section WithBuiltins.
Context `{Builtins}.

(** In one cycle of the service whose three alert turns read the clock
    inside the cooldown window of the bot (no stamp is the epoch, and
    every cooldown check is at most the window after every earlier
    stamp), no market gets two Telegram alerts, even when the catalogue
    lists it more than once; at most three markets are alerted; each is
    the market of a returned opportunity; and for none of them did a
    recorded notification cover all three turns. *)
Theorem cycle_alerts_once_per_market (w : World) (svc : PolyClaudeService) :
  Service.isScanning svc = false ->
  (forall i, (i < 3)%nat -> snd (alertClock w i) <> 0) ->
  (forall bot i j,
     telegramBot svc = Some bot -> (i < j < 3)%nat ->
     fst (alertClock w j) - snd (alertClock w i) <= cooldownMs bot) ->
  let '(result, _, out) := runScan w svc in
  let alerted :=
    (fun p => marketId (market (subject p)))
      <$> filter (fun p => accepted (telegramApi w) p = true) out in
  NoDup alerted
  /\ (length alerted <= 3)%nat
  /\ (forall k, k ∈ alerted ->
        k ∈ ((fun o => marketId (market o)) <$> result)
        /\ forall bot s,
             telegramBot svc = Some bot ->
             lastAlertTime bot !! k = Some s ->
             s <> 0 ->
             exists i, (i < 3)%nat
                       /\ cooldownMs bot < fst (alertClock w i) - s).
Proof.
  intros Hidle Hstamp Hwindow. unfold runScan. rewrite Hidle. unfold scanCycle.
  assert (Hnone : NoDup (@nil string) /\ (0 <= 3)%nat
                  /\ forall k : string, k ∈ @nil string -> False).
  { split; [constructor|]. split; [lia|]. intros k Hk. inversion Hk. }
  destruct (getMarkets w) as [[|m markets]|].
  1, 3: simpl; destruct Hnone as (? & ? & Hf); split; [assumption|];
        split; [assumption|]; intros k Hk; destruct (Hf k Hk).
  cbn [enterScan Service.config Service.stats telegramBot terminalServer
       Service.isScanning].
  set (result := sortByNetProfit _).
  set (significant := filter (fun o => nge (netProfitPercent o) (Num 1) = true) result).
  destruct (telegramBot svc) as [bot|] eqn:Ebot.
  2: { simpl. destruct Hnone as (? & ? & Hf). split; [assumption|].
       split; [assumption|]. intros k Hk. destruct (Hf k Hk). }
  pose proof (sendAlerts_outbox (telegramApi w)
                (withAlertClock w (take 3 significant)) bot) as [Hsub _].
  rewrite fst_withAlertClock in Hsub.
  rewrite sendAlerts_as_batch in Hsub |- *.
  assert (Hlen : (length (take 3 significant) <= 3)%nat)
    by (rewrite length_take; lia).
  set (l := withAlertClock w (take 3 significant)) in *.
  assert (Htimely : timely (cooldownMs bot) l).
  { unfold l, withAlertClock. apply timely_readings.
    - intros i Hi. apply Hstamp. lia.
    - intros i j Hij. apply (Hwindow bot i j eq_refl). lia. }
  pose proof (batch_once_per_market (telegramApi w) l bot Htimely) as Honce.
  pose proof (batch_accepted_le (telegramApi w) l bot) as Hle.
  destruct (sendBatchAlerts bot (telegramApi w) l) as [[c bot'] out].
  cbv zeta in Honce. cbn [fst snd] in *. destruct Honce as [Hnd Hblocked].
  split; [exact Hnd|]. split.
  { rewrite length_fmap. unfold l in Hle.
    rewrite length_withAlertClock in Hle. lia. }
  intros k Hk. split.
  - apply list_elem_of_fmap in Hk as (p & -> & Hp).
    apply list_elem_of_filter in Hp as [_ Hp].
    rewrite Forall_forall in Hsub. specialize (Hsub p Hp).
    apply list_elem_of_fmap. exists (subject p). split; [reflexivity|].
    assert (Hin : subject p ∈ significant)
      by exact (elem_of_sublist _ _ _ Hsub (sublist_take _ 3)).
    apply list_elem_of_filter in Hin. tauto.
  - intros bot0 s [= <-] Hs Hne.
    pose proof (Hblocked k s Hk Hs Hne) as Hnot.
    apply not_Forall_Exists in Hnot; [|intros x; apply Z_le_dec].
    apply Exists_exists in Hnot as (x & Hx & Hlate).
    unfold l, withAlertClock in Hx.
    apply elem_of_lookup_imap in Hx as (i & o & -> & Hi).
    apply lookup_lt_Some in Hi. unfold compose in Hlate.
    cbn [fst snd] in Hlate. exists i. split; lia.
Qed.

End WithBuiltins.

(** A catalogue that lists the sample market twice, with the second
    alert turn one second after the first: two opportunities are
    returned, one Telegram alert is accepted. *)
Lemma cycle_alerts_once_per_market_witness :
  length (fst (fst (@runScan sampleBuiltins
                      {| getMarkets := Some [sampleMarket; sampleMarket];
                         getOrderBook := quotes "0.40" "0.39" "0.55" "0.54";
                         clock := sampleNow;
                         uuidv4 := fun key => key;
                         stamps := fun _ => (sampleNow + 1, sampleNow + 2);
                         telegramApi := telegramUp;
                         alertClock := fun i =>
                           (sampleNow + 1000 * Z.of_nat i,
                            sampleNow + 1000 * Z.of_nat i + 5) |}
                      {| Service.config := DEFAULT_CONFIG;
                         telegramBot := Some (botWith ∅);
                         terminalServer := Some newTerminal;
                         Service.isScanning := false;
                         Service.stats := noStats |}))) = 2%nat
  /\ (fun p => marketId (market (subject p)))
       <$> filter (fun p => accepted telegramUp p = true)
             (snd (@runScan sampleBuiltins
                     {| getMarkets := Some [sampleMarket; sampleMarket];
                        getOrderBook := quotes "0.40" "0.39" "0.55" "0.54";
                        clock := sampleNow;
                        uuidv4 := fun key => key;
                        stamps := fun _ => (sampleNow + 1, sampleNow + 2);
                        telegramApi := telegramUp;
                        alertClock := fun i =>
                          (sampleNow + 1000 * Z.of_nat i,
                           sampleNow + 1000 * Z.of_nat i + 5) |}
                     {| Service.config := DEFAULT_CONFIG;
                        telegramBot := Some (botWith ∅);
                        terminalServer := Some newTerminal;
                        Service.isScanning := false;
                        Service.stats := noStats |}))
     = ["0xabc"%string].
Proof.
  pose proof (@cycle_alerts_once_per_market sampleBuiltins
                {| getMarkets := Some [sampleMarket; sampleMarket];
                   getOrderBook := quotes "0.40" "0.39" "0.55" "0.54";
                   clock := sampleNow;
                   uuidv4 := fun key => key;
                   stamps := fun _ => (sampleNow + 1, sampleNow + 2);
                   telegramApi := telegramUp;
                   alertClock := fun i =>
                     (sampleNow + 1000 * Z.of_nat i,
                      sampleNow + 1000 * Z.of_nat i + 5) |}
                {| Service.config := DEFAULT_CONFIG;
                   telegramBot := Some (botWith ∅);
                   terminalServer := Some newTerminal;
                   Service.isScanning := false;
                   Service.stats := noStats |} eq_refl) as Honce.
  destruct (@runScan sampleBuiltins _ _) as [[result svc'] out] eqn:E.
  destruct Honce as (Hnd & _).
  - intros i Hi. cbn [alertClock snd]. unfold sampleNow. lia.
  - intros bot i j [= <-] Hij. cbn [alertClock fst snd botWith cooldownMs]. lia.
  - split.
    + change result with (fst (fst (result, svc', out))). rewrite <- E.
      vm_compute. reflexivity.
    + change out with (snd (result, svc', out)). rewrite <- E.
      vm_compute. reflexivity.
Defined.

End CycleAlertFacts.
